(** * glc: tracker, info sink, software scaler and GL capture

    A shallow embedding of four translation units of glc/glcs

      - [glc/core/tracker.c]        (module [Tracker])
      - [glc/core/info.c]           (module [Info])
      - [core/scale.c]              (module [Scale])
      - [glc/capture/gl_capture.c]  (module [GlCapture])

    Conventions.  A C [unsigned int] is a [Z] kept in [0, 2^32) by [u32],
    a [size_t] or [glc_utime_t] a [Z] kept in [0, 2^64) by [u64].  A
    [float] is a [spec_float] rounded with precision 24 and a [double]
    one rounded with precision 53 (round to nearest even, every operation
    rounded to the type of its operands as with SSE arithmetic).  Singly
    linked lists are Rocq lists whose head is the C list head.  A pointer
    into such a list is the position of the node. *)

From Stdlib Require Import ZArith Lia Bool List.
From Stdlib Require Import Floats.SpecFloat.
From stdpp Require Import base list.

Local Open Scope Z_scope.

(** ** Machine integers *)

Definition u32 (z : Z) : Z := z mod 2 ^ 32.
Definition u64 (z : Z) : Z := z mod 2 ^ 64.
Definition u8 (z : Z) : Z := z mod 2 ^ 8.

(** [flags & mask] read as a C condition. *)
Definition has_flag (flags mask : Z) : bool := negb (Z.land flags mask =? 0).
(** [flags |= mask] and [flags &= ~mask] on a 32 bit word. *)
Definition set_flag (flags mask : Z) : Z := Z.lor flags mask.
Definition clear_flag (flags mask : Z) : Z := Z.land flags (Z.lnot mask mod 2 ^ 32).

(** ** Floating point

    [float] and [double] arithmetic, each operation rounded to nearest
    even in its own format. *)

Module F32.
Definition prec : Z := 24.
Definition emax : Z := 128.
Definition of_Z (z : Z) : spec_float := binary_normalize prec emax z 0 false.
Definition round (x : spec_float) : spec_float :=
  match x with
  | S754_finite s m e => binary_round prec emax s m e
  | _ => x
  end.
Definition add : spec_float -> spec_float -> spec_float := SFadd prec emax.
Definition sub : spec_float -> spec_float -> spec_float := SFsub prec emax.
Definition mul : spec_float -> spec_float -> spec_float := SFmul prec emax.
Definition div : spec_float -> spec_float -> spec_float := SFdiv prec emax.
Definition one : spec_float := of_Z 1.
End F32.

Module F64.
Definition prec : Z := 53.
Definition emax : Z := 1024.
Definition of_Z (z : Z) : spec_float := binary_normalize prec emax z 0 false.
Definition round (x : spec_float) : spec_float :=
  match x with
  | S754_finite s m e => binary_round prec emax s m e
  | _ => x
  end.
Definition add : spec_float -> spec_float -> spec_float := SFadd prec emax.
Definition sub : spec_float -> spec_float -> spec_float := SFsub prec emax.
Definition mul : spec_float -> spec_float -> spec_float := SFmul prec emax.
Definition div : spec_float -> spec_float -> spec_float := SFdiv prec emax.
Definition one : spec_float := of_Z 1.
(** The binary fraction [m / 2^k], for the literals 0.5, 0.75 and the like. *)
Definition dyadic (m k : Z) : spec_float := binary_normalize prec emax m (- k) false.
End F64.

(** Conversion of a floating point value to an integer type: the value is
    truncated toward zero, and the behaviour is undefined when the result
    does not fit (or the value is infinite or not a number): [None]. *)
Definition ftrunc (x : spec_float) : option Z :=
  match x with
  | S754_zero _ => Some 0
  | S754_finite s m e => Some (cond_Zopp s (Z.shiftl (Z.pos m) e))
  | _ => None
  end.

Definition f_to_unsigned (bits : Z) (x : spec_float) : option Z :=
  z ← ftrunc x;
  if (0 <=? z) && (z <? 2 ^ bits) then Some z else None.

(** ** Arrays and loops *)

(** [a[i]] read and written inside an array of known size; an access
    outside of it is a fault, [None]. *)
Definition load {A} (a : list A) (i : Z) : option A :=
  if 0 <=? i then a !! Z.to_nat i else None.

Definition store {A} (a : list A) (i : Z) (v : A) : option (list A) :=
  if (0 <=? i) && (i <? Z.of_nat (length a)) then Some (<[Z.to_nat i := v]> a) else None.

(** [for (x = x0; x < bound; x += step) body] on unsigned counters, for
    the loops of the scaler, whose counter never wraps: the body runs
    [n] times, at [x0], [x0 + step], ...; a fault in the body ends the
    loop. *)
Fixpoint for_iter {S} (n : nat) (x step : Z) (body : Z -> S -> option S) (s : S) : option S :=
  match n with
  | O => Some s
  | Datatypes.S n' => s' ← body x s; for_iter n' (x + step) step body s'
  end.

Definition for_range {S} (bound step : Z) (body : Z -> S -> option S) (s : S) : option S :=
  for_iter (Z.to_nat ((bound + step - 1) / step)) 0 step body s.

(** ** Messages of the bus ([glc/common/glc.h]) *)

(** Modelled from the spec: the header [glc/common/glc.h] is not part of
    the sources at hand.  Section 6 gives the logical fields of each
    message, and the numbering BGR=1, BGRA=2, YCBCR_420JPEG=3. *)
Definition GLC_VIDEO_BGR : Z := 1.
Definition GLC_VIDEO_BGRA : Z := 2.
Definition GLC_VIDEO_YCBCR_420JPEG : Z := 3.

(** Modelled from the spec: the stream flags form a bitset holding
    DWORD_ALIGNED, NEEDS_COLOR_UPDATE and CAPTURING (section 3); the masks
    are three distinct bits. *)
Definition GLC_VIDEO_DWORD_ALIGNED : Z := 1.
Definition GLC_VIDEO_NEED_COLOR_UPDATE : Z := 2.
Definition GLC_VIDEO_CAPTURING : Z := 4.

Record glc_video_format_message_t := {
  vfm_id : Z;
  vfm_flags : Z;
  vfm_width : Z;
  vfm_height : Z;
  vfm_format : Z
}.

Record glc_color_message_t := {
  clr_id : Z;
  clr_brightness : spec_float;
  clr_contrast : spec_float;
  clr_red : spec_float;
  clr_green : spec_float;
  clr_blue : spec_float
}.

Record glc_audio_format_message_t := {
  afm_id : Z;
  afm_flags : Z;
  afm_rate : Z;
  afm_channels : Z;
  afm_format : Z
}.

Record glc_video_frame_header_t := {
  vfh_id : Z;
  vfh_time : Z
}.

Record glc_audio_data_header_t := {
  adh_id : Z;
  adh_time : Z;
  adh_size : Z
}.

(** A message is its header tag together with the payload that the tag
    announces: dispatch in the C code is on [header.type] and the payload
    is cast accordingly. *)
Inductive glc_message :=
| GLC_MESSAGE_CLOSE
| GLC_MESSAGE_VIDEO_FRAME (h : glc_video_frame_header_t)
| GLC_MESSAGE_VIDEO_FORMAT (m : glc_video_format_message_t)
| GLC_MESSAGE_AUDIO_FORMAT (m : glc_audio_format_message_t)
| GLC_MESSAGE_AUDIO_DATA (h : glc_audio_data_header_t)
| GLC_MESSAGE_COLOR (m : glc_color_message_t)
| GLC_MESSAGE_UNKNOWN (type : Z).

(** [calloc]ed payloads. *)
Definition zero_video_format : glc_video_format_message_t :=
  {| vfm_id := 0; vfm_flags := 0; vfm_width := 0; vfm_height := 0; vfm_format := 0 |}.
Definition fzero : spec_float := S754_zero false.
Definition zero_color : glc_color_message_t :=
  {| clr_id := 0; clr_brightness := fzero; clr_contrast := fzero;
     clr_red := fzero; clr_green := fzero; clr_blue := fzero |}.
Definition zero_audio_format : glc_audio_format_message_t :=
  {| afm_id := 0; afm_flags := 0; afm_rate := 0; afm_channels := 0; afm_format := 0 |}.

(** ** glc/core/tracker.c *)

Module Tracker.

Definition TRACKER_VIDEO_FORMAT : Z := 0x01.
Definition TRACKER_VIDEO_COLOR : Z := 0x02.
Definition TRACKER_AUDIO_FORMAT : Z := 0x01.

Record tracker_video_s := {
  tv_id : Z;
  tv_flags : Z;
  tv_format : glc_video_format_message_t;
  tv_color : glc_color_message_t
}.

Record tracker_audio_s := {
  ta_id : Z;
  ta_flags : Z;
  ta_format : glc_audio_format_message_t
}.

Record tracker_s := {
  video_streams : list tracker_video_s;
  audio_streams : list tracker_audio_s
}.

Definition tracker_init : tracker_s :=
  {| video_streams := []; audio_streams := [] |}.

(** The [while] loop of [tracker_get_video_stream]: position of the first
    node whose [id] field equals [id]. *)
Fixpoint find_video (l : list tracker_video_s) (id : Z) : option nat :=
  match l with
  | [] => None
  | v :: l' => if tv_id v =? id then Some 0%nat else S <$> find_video l' id
  end.

Fixpoint find_audio (l : list tracker_audio_s) (id : Z) : option nat :=
  match l with
  | [] => None
  | a :: l' => if ta_id a =? id then Some 0%nat else S <$> find_audio l' id
  end.

(** The node a miss allocates: [calloc] zeroes every field, and the
    function assigns [next] only. *)
Definition calloc_video : tracker_video_s :=
  {| tv_id := 0; tv_flags := 0; tv_format := zero_video_format; tv_color := zero_color |}.
Definition calloc_audio : tracker_audio_s :=
  {| ta_id := 0; ta_flags := 0; ta_format := zero_audio_format |}.

Definition tracker_get_video_stream (t : tracker_s) (id : Z) : nat * tracker_s :=
  match find_video (video_streams t) id with
  | Some i => (i, t)
  | None => (0%nat, {| video_streams := calloc_video :: video_streams t;
                       audio_streams := audio_streams t |})
  end.

Definition tracker_get_audio_stream (t : tracker_s) (id : Z) : nat * tracker_s :=
  match find_audio (audio_streams t) id with
  | Some i => (i, t)
  | None => (0%nat, {| video_streams := video_streams t;
                       audio_streams := calloc_audio :: audio_streams t |})
  end.

Definition store_format (m : glc_video_format_message_t) (v : tracker_video_s) :=
  {| tv_id := tv_id v; tv_flags := set_flag (tv_flags v) TRACKER_VIDEO_FORMAT;
     tv_format := m; tv_color := tv_color v |}.

Definition store_color (m : glc_color_message_t) (v : tracker_video_s) :=
  {| tv_id := tv_id v; tv_flags := set_flag (tv_flags v) TRACKER_VIDEO_COLOR;
     tv_format := tv_format v; tv_color := m |}.

Definition store_audio_format (m : glc_audio_format_message_t) (a : tracker_audio_s) :=
  {| ta_id := ta_id a; ta_flags := set_flag (ta_flags a) TRACKER_AUDIO_FORMAT;
     ta_format := m |}.

Definition tracker_submit (t : tracker_s) (msg : glc_message) : tracker_s :=
  match msg with
  | GLC_MESSAGE_VIDEO_FORMAT m =>
      let '(i, t1) := tracker_get_video_stream t (vfm_id m) in
      {| video_streams := alter (store_format m) i (video_streams t1);
         audio_streams := audio_streams t1 |}
  | GLC_MESSAGE_AUDIO_FORMAT m =>
      let '(i, t1) := tracker_get_audio_stream t (afm_id m) in
      {| video_streams := video_streams t1;
         audio_streams := alter (store_audio_format m) i (audio_streams t1) |}
  | GLC_MESSAGE_COLOR m =>
      let '(i, t1) := tracker_get_video_stream t (clr_id m) in
      {| video_streams := alter (store_color m) i (video_streams t1);
         audio_streams := audio_streams t1 |}
  | _ => t
  end.

(** [tracker_iterate_state]: the callback receives the message and the
    caller's [arg], which it may update; a nonzero return aborts. *)
Section Iterate.
Context {A : Type}.
Variable callback : glc_message -> A -> Z * A.

Fixpoint iterate_video (l : list tracker_video_s) (arg : A) : Z * A :=
    match l with
    | [] => (0, arg)
    | v :: l' =>
        let '(ret, arg1) :=
          if has_flag (tv_flags v) TRACKER_VIDEO_FORMAT
          then callback (GLC_MESSAGE_VIDEO_FORMAT (tv_format v)) arg
          else (0, arg) in
        if negb (ret =? 0) then (ret, arg1) else
        let '(ret, arg2) :=
          if has_flag (tv_flags v) TRACKER_VIDEO_COLOR
          then callback (GLC_MESSAGE_COLOR (tv_color v)) arg1
          else (0, arg1) in
        if negb (ret =? 0) then (ret, arg2) else
        iterate_video l' arg2
    end.

Fixpoint iterate_audio (l : list tracker_audio_s) (arg : A) : Z * A :=
    match l with
    | [] => (0, arg)
    | a :: l' =>
        let '(ret, arg1) :=
          if has_flag (ta_flags a) TRACKER_AUDIO_FORMAT
          then callback (GLC_MESSAGE_AUDIO_FORMAT (ta_format a)) arg
          else (0, arg) in
        if negb (ret =? 0) then (ret, arg1) else
        iterate_audio l' arg1
    end.

Definition tracker_iterate_state (t : tracker_s) (arg : A) : Z * A :=
    let '(ret, arg1) := iterate_video (video_streams t) arg in
    if negb (ret =? 0) then (ret, arg1) else
    iterate_audio (audio_streams t) arg1.
End Iterate.

(** A consumer that records every replayed message and never aborts. *)
Definition record_callback (m : glc_message) (log : list glc_message) : Z * list glc_message :=
  (0, log ++ [m]).

Definition replay (t : tracker_s) : list glc_message :=
  snd (tracker_iterate_state record_callback t []).

(** The VIDEO_FORMAT callbacks of a replay that carry stream [id]. *)
Definition video_formats_of (id : Z) (log : list glc_message) : list glc_video_format_message_t :=
  omap (fun m => match m with
                 | GLC_MESSAGE_VIDEO_FORMAT f => if vfm_id f =? id then Some f else None
                 | _ => None
                 end) log.

Definition fmt (id w h : Z) : glc_video_format_message_t :=
  {| vfm_id := id; vfm_flags := GLC_VIDEO_DWORD_ALIGNED; vfm_width := w; vfm_height := h;
     vfm_format := GLC_VIDEO_BGRA |}.


(** *** Sequences of submissions and the order of a replay *)

(** The tracker after a sequence of submissions to a fresh one. *)
Definition tracker_of (msgs : list glc_message) : tracker_s :=
  fold_left tracker_submit msgs tracker_init.

(** The records a node holds, in the order [tracker_iterate_state] hands
    them to the callback. *)
Definition video_records (v : tracker_video_s) : list glc_message :=
  (if has_flag (tv_flags v) TRACKER_VIDEO_FORMAT
   then [GLC_MESSAGE_VIDEO_FORMAT (tv_format v)] else [])
  ++ (if has_flag (tv_flags v) TRACKER_VIDEO_COLOR
      then [GLC_MESSAGE_COLOR (tv_color v)] else []).

Definition audio_records (a : tracker_audio_s) : list glc_message :=
  if has_flag (ta_flags a) TRACKER_AUDIO_FORMAT
  then [GLC_MESSAGE_AUDIO_FORMAT (ta_format a)] else [].

Definition records (t : tracker_s) : list glc_message :=
  flat_map video_records (video_streams t) ++ flat_map audio_records (audio_streams t).

(** A callback handed the messages of a list one after the other, until
    it returns a nonzero code. *)
Fixpoint visit {A : Type} (callback : glc_message -> A -> Z * A) (l : list glc_message)
  (arg : A) : Z * A :=
  match l with
  | [] => (0, arg)
  | m :: l' =>
      let '(ret, arg1) := callback m arg in
      if negb (ret =? 0) then (ret, arg1) else visit callback l' arg1
  end.

End Tracker.

(** ** glc/core/info.c *)

Module Info.

Definition INFO_FPS : Z := 3.

Record info_video_stream_s := {
  id : Z;
  flags : Z;
  format : Z;
  w : Z;
  h : Z;
  pictures : Z;
  bytes : Z;
  fps : Z;
  last_fps_time : Z;
  fps_time : Z
}.

Record info_audio_stream_s := {
  a_id : Z;
  packets : Z;
  a_bytes : Z
}.

(** The text written to [info->stream] is not part of the state: the
    model keeps the fields the callbacks assign. *)
Record info_s := {
  time : Z;
  level : Z;
  video_list : list info_video_stream_s;
  audio_list : list info_audio_stream_s
}.

Definition info_init : info_s :=
  {| time := 0; level := 1; video_list := []; audio_list := [] |}.

Definition info_set_level (info : info_s) (lvl : Z) : Z * info_s :=
  if lvl <? 1 then (22, info)
  else (0, {| time := time info; level := lvl;
              video_list := video_list info; audio_list := audio_list info |}).

Fixpoint find_video (l : list info_video_stream_s) (i : Z) : option nat :=
  match l with
  | [] => None
  | v :: l' => if id v =? i then Some 0%nat else S <$> find_video l' i
  end.

Fixpoint find_audio (l : list info_audio_stream_s) (i : Z) : option nat :=
  match l with
  | [] => None
  | a :: l' => if a_id a =? i then Some 0%nat else S <$> find_audio l' i
  end.

Definition calloc_video (i : Z) : info_video_stream_s :=
  {| id := i; flags := 0; format := 0; w := 0; h := 0; pictures := 0; bytes := 0;
     fps := 0; last_fps_time := 0; fps_time := 0 |}.

Definition calloc_audio (i : Z) : info_audio_stream_s :=
  {| a_id := i; packets := 0; a_bytes := 0 |}.

(** [info_get_video_stream]: position of the node, and the list with a
    fresh head on a miss. *)
Definition info_get_video_stream (l : list info_video_stream_s) (i : Z)
  : nat * list info_video_stream_s :=
  match find_video l i with
  | Some k => (k, l)
  | None => (0%nat, calloc_video i :: l)
  end.

Definition info_get_audio_stream (l : list info_audio_stream_s) (i : Z)
  : nat * list info_audio_stream_s :=
  match find_audio l i with
  | Some k => (k, l)
  | None => (0%nat, calloc_audio i :: l)
  end.

Definition set_format (m : glc_video_format_message_t) (v : info_video_stream_s) :=
  {| id := id v; flags := vfm_flags m; format := vfm_format m;
     w := vfm_width m; h := vfm_height m;
     pictures := pictures v; bytes := bytes v; fps := fps v;
     last_fps_time := last_fps_time v; fps_time := fps_time v |}.

Definition video_format_info (info : info_s) (m : glc_video_format_message_t) : info_s :=
  let '(k, l) := info_get_video_stream (video_list info) (vfm_id m) in
  {| time := time info; level := level info;
     video_list := alter (set_format m) k l; audio_list := audio_list info |}.

(** The bytes one frame adds to [video->bytes]: the products are
    [unsigned int], the tally is a [size_t]. *)
Definition frame_bytes (v : info_video_stream_s) : Z :=
  if format v =? GLC_VIDEO_BGR then
    u32 (w v * h v * 3)
    + (if has_flag (flags v) GLC_VIDEO_DWORD_ALIGNED
       then u32 (h v * u32 (8 - u32 (w v * 3) mod 8)) else 0)
  else if format v =? GLC_VIDEO_BGRA then
    u32 (w v * h v * 4)
    + (if has_flag (flags v) GLC_VIDEO_DWORD_ALIGNED
       then u32 (h v * u32 (8 - u32 (w v * 4) mod 8)) else 0)
  else if format v =? GLC_VIDEO_YCBCR_420JPEG then
    u32 (w v * h v * 3) / 2
  else 0.

Definition count_frame (lvl : Z) (t : Z) (v : info_video_stream_s) : info_video_stream_s :=
  let pictures1 := u64 (pictures v + 1) in
  let fps1 := u64 (fps v + 1) in
  let bytes1 := u64 (bytes v + frame_bytes v) in
  if (INFO_FPS <=? lvl) && (1000000000 <=? u64 (t - fps_time v)) then
    {| id := id v; flags := flags v; format := format v; w := w v; h := h v;
       pictures := pictures1; bytes := bytes1; fps := 0;
       last_fps_time := t; fps_time := u64 (fps_time v + 1000000000) |}
  else
    {| id := id v; flags := flags v; format := format v; w := w v; h := h v;
       pictures := pictures1; bytes := bytes1; fps := fps1;
       last_fps_time := last_fps_time v; fps_time := fps_time v |}.

Definition video_frame_info (info : info_s) (hd : glc_video_frame_header_t) : info_s :=
  let '(k, l) := info_get_video_stream (video_list info) (vfh_id hd) in
  {| time := vfh_time hd; level := level info;
     video_list := alter (count_frame (level info) (vfh_time hd)) k l;
     audio_list := audio_list info |}.

Definition count_packet (size : Z) (a : info_audio_stream_s) : info_audio_stream_s :=
  {| a_id := a_id a; packets := u64 (packets a + 1); a_bytes := u64 (a_bytes a + size) |}.

Definition audio_data_info (info : info_s) (hd : glc_audio_data_header_t) : info_s :=
  let '(k, l) := info_get_audio_stream (audio_list info) (adh_id hd) in
  {| time := adh_time hd; level := level info;
     video_list := video_list info;
     audio_list := alter (count_packet (adh_size hd)) k l |}.

(** [info_read_callback]: the audio format, colour, close and unknown
    branches only print. *)
Definition info_read_callback (info : info_s) (msg : glc_message) : info_s :=
  match msg with
  | GLC_MESSAGE_VIDEO_FORMAT m => video_format_info info m
  | GLC_MESSAGE_VIDEO_FRAME hd => video_frame_info info hd
  | GLC_MESSAGE_AUDIO_DATA hd => audio_data_info info hd
  | _ => info
  end.

Definition info_process (msgs : list glc_message) : info_s :=
  fold_left info_read_callback msgs info_init.

(** The tally of stream [i], 0 when the stream was never seen. *)
Definition tally (info : info_s) (i : Z) : Z :=
  match find_video (video_list info) i with
  | Some k => from_option bytes 0 (video_list info !! k)
  | None => 0
  end.

(** The payload of one frame as the specification words it: [h] rows of [w * bpp]
    bytes, each padded up to a multiple of 8 only when DWORD_ALIGNED is
    set and the row is not a multiple of 8 already; [w * h * 3 / 2] for
    planar 4:2:0. *)
Definition spec_payload_size (fmt flg wd ht : Z) : Z :=
  if fmt =? GLC_VIDEO_YCBCR_420JPEG then wd * ht * 3 / 2
  else
    let bpp := if fmt =? GLC_VIDEO_BGRA then 4 else 3 in
    let row := wd * bpp in
    let row := if has_flag flg GLC_VIDEO_DWORD_ALIGNED && negb (row mod 8 =? 0)
               then row + (8 - row mod 8) else row in
    ht * row.

(** A dword aligned BGRA stream of 2x1 pixels and one frame of it. *)
Definition aligned_bgra_2x1 : list glc_message :=
  [GLC_MESSAGE_VIDEO_FORMAT
     {| vfm_id := 1; vfm_flags := GLC_VIDEO_DWORD_ALIGNED; vfm_width := 2; vfm_height := 1;
        vfm_format := GLC_VIDEO_BGRA |};
   GLC_MESSAGE_VIDEO_FRAME {| vfh_id := 1; vfh_time := 0 |}].


(** *** The counters of a stream and the final report *)

(** The node of a stream, as the lookup loops find it: the first one
    of the list that carries the id. *)
Definition video_node (l : list info_video_stream_s) (i : Z) : option info_video_stream_s :=
  k ← find_video l i; l !! k.

Definition audio_node (l : list info_audio_stream_s) (i : Z) : option info_audio_stream_s :=
  k ← find_audio l i; l !! k.

Definition pictures_of (info : info_s) (i : Z) : Z :=
  from_option pictures 0 (video_node (video_list info) i).

Definition packets_of (info : info_s) (i : Z) : Z :=
  from_option packets 0 (audio_node (audio_list info) i).

Definition audio_bytes_of (info : info_s) (i : Z) : Z :=
  from_option a_bytes 0 (audio_node (audio_list info) i).

(** The VIDEO_FRAME messages of stream [i] in a sequence, and the sizes
    that its AUDIO_DATA messages announce. *)
Definition is_frame_of (i : Z) (m : glc_message) : bool :=
  match m with
  | GLC_MESSAGE_VIDEO_FRAME hd => vfh_id hd =? i
  | _ => false
  end.

Definition is_format_of (i : Z) (m : glc_message) : bool :=
  match m with
  | GLC_MESSAGE_VIDEO_FORMAT f => vfm_id f =? i
  | _ => false
  end.

Definition audio_sizes_of (i : Z) (msgs : list glc_message) : list Z :=
  omap (fun m => match m with
                 | GLC_MESSAGE_AUDIO_DATA hd => if adh_id hd =? i then Some (adh_size hd) else None
                 | _ => None
                 end) msgs.

(** Info after a sequence of messages, from any state. *)
Definition info_run (info : info_s) (msgs : list glc_message) : info_s :=
  fold_left info_read_callback msgs info.

(** What [info_finish_callback] prints for a stream: its id, the number
    of frames or packets, their rate per second as a [double], the bytes
    and the bytes per second handed to [print_bytes]. *)
Record info_report := {
  r_id : Z;
  r_count : Z;
  r_rate : spec_float;
  r_bytes : Z;
  r_bps : Z
}.

(** The division [bytes / (info->time / 1000000000)] is an integer
    division of two 64 bit unsigned numbers: with a divisor of 0 the
    behaviour is undefined (on x86 the process is killed), [None]. *)
Definition report (now : Z) (i count bytes_ : Z) : option info_report :=
  let seconds := now / 1000000000 in
  if seconds =? 0 then None
  else Some {| r_id := i; r_count := count;
               r_rate := F64.div (F64.of_Z count)
                           (F64.div (F64.of_Z now) (F64.of_Z 1000000000));
               r_bytes := bytes_; r_bps := bytes_ / seconds |}.

Fixpoint report_all {A : Type} (f : A -> option info_report) (l : list A)
  : option (list info_report) :=
  match l with
  | [] => Some []
  | x :: l' => r ← f x; rs ← report_all f l'; Some (r :: rs)
  end.

(** [info_finish_callback]: the reports of the video streams, those of
    the audio streams, and info with both lists freed. *)
Definition info_finish_callback (info : info_s)
  : option (list info_report * list info_report * info_s) :=
  vr ← report_all (fun v => report (time info) (id v) (pictures v) (bytes v)) (video_list info);
  ar ← report_all (fun a => report (time info) (a_id a) (packets a) (a_bytes a))
         (audio_list info);
  Some (vr, ar, {| time := time info; level := level info; video_list := []; audio_list := [] |}).

End Info.

(** ** core/scale.c *)

Module Scale.

(** Modelled from the spec: the header [common/glc.h] of this version is
    not part of the sources at hand.  The pixel layout (BGR, BGRA) and
    the dword alignment of a stream are bits of the flags word of its
    context message (section 4.2); the masks are distinct bits. *)
Definition GLC_CTX_BGR : Z := 4.
Definition GLC_CTX_BGRA : Z := 8.
Definition GLC_CTX_DWORD_ALIGNED : Z := 32.

Record glc_ctx_message_t := {
  cm_ctx : Z;
  cm_flags : Z;
  cm_w : Z;
  cm_h : Z
}.

Record scale_ctx_s := {
  ctx : Z;
  flags : Z;
  w : Z;
  h : Z;
  sw : Z;
  sh : Z;
  bpp : Z;
  row : Z;
  scale : spec_float;
  process : Z;
  pos : list Z;
  factor : list spec_float
}.

(** A node as [scale_get_ctx] makes it: zeroed, then [ctx] assigned.  The
    null pointers [pos] and [factor] are arrays of no cell. *)
Definition new_ctx (ctx_i : Z) : scale_ctx_s :=
  {| ctx := ctx_i; flags := 0; w := 0; h := 0; sw := 0; sh := 0; bpp := 0; row := 0;
     scale := fzero; process := 0; pos := []; factor := [] |}.

Fixpoint find_ctx (l : list scale_ctx_s) (ctx_i : Z) : option nat :=
  match l with
  | [] => None
  | c :: l' => if ctx c =? ctx_i then Some 0%nat else S <$> find_ctx l' ctx_i
  end.

Definition scale_get_ctx (l : list scale_ctx_s) (ctx_i : Z) : nat * list scale_ctx_s :=
  match find_ctx l ctx_i with
  | Some k => (k, l)
  | None => (0%nat, new_ctx ctx_i :: l)
  end.

(** [malloc] or [realloc] of [n] cells: the old cells are kept, and the
    content of a fresh cell, which the C code never reads before writing
    it, is [fresh]. *)
Definition realloc_cells {A} (old : list A) (n : Z) (fresh : A) : list A :=
  take (Z.to_nat n) (old ++ replicate (Z.to_nat n) fresh).

(** The condition of the [do ... while] that picks the sampling ratio:
    [d * (float) (sh - 1) + 1.0 > h | d * (float) (sw - 1) + 1.0 > w];
    the products are [float], the sums and comparisons [double]. *)
Definition overshoots (d : spec_float) (n bound : Z) : bool :=
  SFltb (F64.of_Z bound)
        (F64.add (F64.round (F32.mul d (F32.of_Z (u32 (n - 1))))) F64.one).

Definition ratio (c : scale_ctx_s) (r : Z) : spec_float :=
  F32.div (F32.of_Z (u32 (w c - r))) (F32.of_Z (sw c)).

(** [r = 0; do { d = (float) (w - r++) / (float) sw; } while (...)]:
    the value of [r] whose ratio was accepted, and that ratio.  [None]
    when the loop is still running after [fuel] rounds. *)
Fixpoint find_ratio (fuel : nat) (c : scale_ctx_s) (r : Z) : option (Z * spec_float) :=
  match fuel with
  | O => None
  | S fuel' =>
      let d := ratio c r in
      if overshoots d (sh c) (h c) || overshoots d (sw c) (w c)
      then find_ratio fuel' c (u32 (r + 1))
      else Some (r, d)
  end.

Record scale_map := {
  ofx : spec_float;
  ofy : spec_float;
  m_pos : list Z;
  m_factor : list spec_float
}.

(** One round of the inner loop of the map generator. *)
Definition map_pixel (c : scale_ctx_s) (d : spec_float) (y x : Z) (m : scale_map)
  : option scale_map :=
  let tp := u32 ((x + y * sw c) * 4) in
  ix ← f_to_unsigned 32 (ofx m);
  iy ← f_to_unsigned 32 (ofy m);
  p ← store (m_pos m) (u32 (tp + 0)) (u32 ((ix + 0) * bpp c + (iy + 0) * row c));
  p ← store p (u32 (tp + 1)) (u32 ((ix + 1) * bpp c + (iy + 0) * row c));
  p ← store p (u32 (tp + 2)) (u32 ((ix + 0) * bpp c + (iy + 1) * row c));
  p ← store p (u32 (tp + 3)) (u32 ((ix + 1) * bpp c + (iy + 1) * row c));
  let fx1 := F32.sub (F32.mul (F32.of_Z x) d) (F32.of_Z ix) in
  let fx0 := F32.round (F64.sub F64.one (F64.round fx1)) in
  let fy1 := F32.sub (F32.mul (F32.of_Z y) d) (F32.of_Z iy) in
  let fy0 := F32.round (F64.sub F64.one (F64.round fy1)) in
  f ← store (m_factor m) (u32 (tp + 0)) (F32.mul fx0 fy0);
  f ← store f (u32 (tp + 1)) (F32.mul fx1 fy0);
  f ← store f (u32 (tp + 2)) (F32.mul fx0 fy1);
  f ← store f (u32 (tp + 3)) (F32.mul fx1 fy1);
  Some {| ofx := F32.add (ofx m) d; ofy := ofy m; m_pos := p; m_factor := f |}.

Definition map_row (c : scale_ctx_s) (d : spec_float) (y : Z) (m : scale_map)
  : option scale_map :=
  m1 ← for_range (sw c) 1 (map_pixel c d y) m;
  Some {| ofx := fzero; ofy := F32.add (ofy m1) d; m_pos := m_pos m1; m_factor := m_factor m1 |}.

Definition generate_map (c : scale_ctx_s) (d : spec_float) : option scale_map :=
  let smap_size := u32 (sw c * sh c * 3 * 4) in
  for_range (sh c) 1 (map_row c d)
    {| ofx := fzero; ofy := fzero;
       m_pos := realloc_cells (pos c) smap_size 0;
       m_factor := realloc_cells (factor c) smap_size fzero |}.

(** [scale_ctx_msg] on the node of the stream: the node after the call
    and the message as rewritten for the next stage. *)
Definition ctx_msg_node (glc_scale : spec_float) (msg : glc_ctx_message_t) (c0 : scale_ctx_s)
  : option (scale_ctx_s * glc_ctx_message_t) :=
  let c := {| ctx := ctx c0; flags := cm_flags msg; w := cm_w msg; h := cm_h msg;
              sw := sw c0; sh := sh c0; bpp := bpp c0; row := row c0; scale := scale c0;
              process := process c0; pos := pos c0; factor := factor c0 |} in
  let bgra := has_flag (cm_flags msg) GLC_CTX_BGRA in
  if negb bgra && SFeqb glc_scale F64.one && has_flag (flags c) GLC_CTX_BGR then
    Some ({| ctx := ctx c; flags := flags c; w := w c; h := h c;
             sw := w c; sh := h c; bpp := bpp c; row := row c; scale := F64.one;
             process := process c; pos := pos c; factor := factor c |}, msg)
  else
    let flags1 := if bgra
                  then set_flag (clear_flag (cm_flags msg) GLC_CTX_BGR) GLC_CTX_BGR
                  else cm_flags msg in
    let bpp1 := if bgra then 4
                else if has_flag (cm_flags msg) GLC_CTX_BGR then 3 else bpp c in
    sw1 ← f_to_unsigned 32 (F64.mul glc_scale (F64.of_Z (w c)));
    sh1 ← f_to_unsigned 32 (F64.mul glc_scale (F64.of_Z (h c)));
    let row0 := u32 (w c * bpp1) in
    let aligned := has_flag flags1 GLC_CTX_DWORD_ALIGNED in
    let row1 := if aligned && negb (row0 mod 8 =? 0)
                then u32 (row0 + u32 (8 - row0 mod 8)) else row0 in
    let flags2 := if aligned then clear_flag flags1 GLC_CTX_DWORD_ALIGNED else flags1 in
    let msg' := {| cm_ctx := cm_ctx msg; cm_flags := flags2; cm_w := sw1; cm_h := sh1 |} in
    let c1 := {| ctx := ctx c; flags := flags c; w := w c; h := h c;
                 sw := sw1; sh := sh1; bpp := bpp1; row := row1; scale := glc_scale;
                 process := 1; pos := pos c; factor := factor c |} in
    if SFeqb glc_scale (F64.dyadic 1 1) || SFeqb glc_scale F64.one then Some (c1, msg')
    else
      '(r, d) ← find_ratio (Z.to_nat (w c) + 2) c1 0;
      m ← generate_map c1 d;
      Some ({| ctx := ctx c1; flags := flags c1; w := w c1; h := h c1;
               sw := sw c1; sh := sh c1; bpp := bpp c1; row := row c1; scale := scale c1;
               process := process c1; pos := m_pos m; factor := m_factor m |}, msg').

Definition scale_ctx_msg (glc_scale : spec_float) (l : list scale_ctx_s) (msg : glc_ctx_message_t)
  : option (list scale_ctx_s * glc_ctx_message_t) :=
  let '(k, l1) := scale_get_ctx l (cm_ctx msg) in
  c0 ← l1 !! k;
  '(c1, msg') ← ctx_msg_node glc_scale msg c0;
  Some (<[k := c1]> l1, msg').

(** The pixel loops of [scale_pic_msg] carry the source cursor [ox],
    [oy] and the target frame. *)
Record cursor := {
  ox : Z;
  oy : Z;
  target : list Z
}.

(** One round of the outer loop of a fast path: the inner loop over
    [x = 0, 3, ...] below [swi = sw * 3], then [oy += dy; ox = 0]. *)
Definition scan_row (c : scale_ctx_s) (pixel : Z -> Z -> cursor -> option cursor) (dy : Z)
  (y : Z) (k : cursor) : option cursor :=
  k1 ← for_range (u32 (sw c * 3)) 3 (pixel y) k;
  Some {| ox := 0; oy := u32 (oy k1 + dy); target := target k1 |}.

(** BGRA to BGR: one round of the inner loop. *)
Definition copy_pixel (c : scale_ctx_s) (from : list Z) (y x : Z) (k : cursor) : option cursor :=
  let tp := u32 (x + y * sw c) in
  let op1 := u32 (ox k + oy k * row c) in
  b0 ← load from (u32 (op1 + 0)); t ← store (target k) (u32 (tp + 0)) b0;
  b1 ← load from (u32 (op1 + 1)); t ← store t (u32 (tp + 1)) b1;
  b2 ← load from (u32 (op1 + 2)); t ← store t (u32 (tp + 2)) b2;
  Some {| ox := u32 (ox k + bpp c); oy := oy k; target := t |}.

(** The average of one channel of a 2x2 block: the bytes are promoted to
    [int], added, shifted, and the result is stored in a byte. *)
Definition average (a b c d : Z) : Z := u8 (Z.shiftr (a + b + c + d) 2).

Definition half_channel (cx : scale_ctx_s) (from : list Z) (op1 op2 op3 op4 n : Z) : option Z :=
  a ← load from (u32 (op1 + n));
  b ← load from (u32 (op2 + n));
  c ← load from (u32 (op3 + n));
  d ← load from (u32 (op4 + n));
  Some (average a b c d).

(** Half size: one round of the inner loop. *)
Definition half_pixel (c : scale_ctx_s) (from : list Z) (y x : Z) (k : cursor) : option cursor :=
  let tp := u32 (x + y * sw c) in
  let op1 := u32 ((ox k + 0) + (oy k + 0) * row c) in
  let op2 := u32 ((ox k + bpp c) + (oy k + 0) * row c) in
  let op3 := u32 ((ox k + 0) + (oy k + 1) * row c) in
  let op4 := u32 ((ox k + bpp c) + (oy k + 1) * row c) in
  v0 ← half_channel c from op1 op2 op3 op4 0; t ← store (target k) (u32 (tp + 0)) v0;
  v1 ← half_channel c from op1 op2 op3 op4 1; t ← store t (u32 (tp + 1)) v1;
  v2 ← half_channel c from op1 op2 op3 op4 2; t ← store t (u32 (tp + 2)) v2;
  Some {| ox := u32 (ox k + 2 * bpp c); oy := oy k; target := t |}.

(** One tap of the bilinear sum: [from[pos[sp + i] + n] * factor[sp + i]]. *)
Definition tap (c : scale_ctx_s) (from : list Z) (sp i n : Z) : option spec_float :=
  p ← load (pos c) (u32 (sp + i));
  b ← load from (u32 (p + n));
  f ← load (factor c) (u32 (sp + i));
  Some (F32.mul (F32.of_Z b) f).

Definition bilinear_channel (c : scale_ctx_s) (from : list Z) (sp n : Z) : option Z :=
  t0 ← tap c from sp 0 n;
  t1 ← tap c from sp 1 n;
  t2 ← tap c from sp 2 n;
  t3 ← tap c from sp 3 n;
  f_to_unsigned 8 (F32.add (F32.add (F32.add t0 t1) t2) t3).

Definition bilinear_pixel (c : scale_ctx_s) (from : list Z) (y x : Z) (t : list Z)
  : option (list Z) :=
  let sp := u32 ((x + y * sw c) * 4) in
  let tp := u32 ((x + y * sw c) * 3) in
  v0 ← bilinear_channel c from sp 0; t ← store t (u32 (tp + 0)) v0;
  v1 ← bilinear_channel c from sp 1; t ← store t (u32 (tp + 1)) v1;
  v2 ← bilinear_channel c from sp 2; store t (u32 (tp + 2)) v2.

(** [scale_pic_msg]: the target frame after the call, [None] when a byte
    is read or written outside of [from], [to] or the scale map. *)
Definition scale_pic_msg (c : scale_ctx_s) (from to : list Z) : option (list Z) :=
  let shi := u32 (sh c * 3) in
  if SFeqb (scale c) F64.one && has_flag (flags c) GLC_CTX_BGRA then
    target <$> for_range shi 3 (scan_row c (copy_pixel c from) 1)
                 {| ox := 0; oy := 0; target := to |}
  else if SFeqb (scale c) (F64.dyadic 1 1) then
    target <$> for_range shi 3 (scan_row c (half_pixel c from) 2)
                 {| ox := 0; oy := 0; target := to |}
  else
    for_range (sh c) 1 (fun y => for_range (sw c) 1 (bilinear_pixel c from y)) to.

(** The stride of the frames a stream carries: [w * bpp] bytes, padded
    up to a multiple of 8 for a dword aligned stream. *)
Definition input_bpp (flg : Z) : Z := if has_flag flg GLC_CTX_BGRA then 4 else 3.

Definition input_row (flg wd : Z) : Z :=
  let r := wd * input_bpp flg in
  if has_flag flg GLC_CTX_DWORD_ALIGNED && negb (r mod 8 =? 0) then r + (8 - r mod 8) else r.

(** The size the read callback reserves for the scaled frame, past the
    picture header. *)
Definition target_size (c : scale_ctx_s) : Z := u32 (sw c * sh c * 3).

(** The node of a stream after its first context message, and the frame
    forwarded for it: copied as it is when [process] is not set
    ([scale_read_callback]), else scaled into a target of [target_size]
    bytes ([scale_write_callback]). *)
Definition configure (glc_scale : spec_float) (msg : glc_ctx_message_t) : option scale_ctx_s :=
  '(l, _) ← scale_ctx_msg glc_scale [] msg;
  l !! 0%nat.

Definition scale_frame (glc_scale : spec_float) (msg : glc_ctx_message_t) (from : list Z)
  : option (list Z) :=
  c ← configure glc_scale msg;
  if process c =? 0 then Some from
  else scale_pic_msg c from (replicate (Z.to_nat (target_size c)) 0).

Definition ctx_msg (flg wd ht : Z) : glc_ctx_message_t :=
  {| cm_ctx := 1; cm_flags := flg; cm_w := wd; cm_h := ht |}.

(** The channel [n] of the 2x2 block that the half size path averages
    into target pixel [(i, j)]. *)
Definition block (c : scale_ctx_s) (from : list Z) (i j n : Z) : Z :=
  average (default 0 (load from ((2 * j) * row c + (2 * i) * bpp c + n)))
          (default 0 (load from ((2 * j) * row c + (2 * i + 1) * bpp c + n)))
          (default 0 (load from ((2 * j + 1) * row c + (2 * i) * bpp c + n)))
          (default 0 (load from ((2 * j + 1) * row c + (2 * i + 1) * bpp c + n))).

(** What one round of an inner loop does at target pixel [(i, j)]: it
    moves the cursor by [dx], writes the three bytes [val i j] of the
    pixel and no other byte. *)
Definition pixel_writes (c : scale_ctx_s) (pixel : Z -> Z -> cursor -> option cursor)
  (dx dy : Z) (val : Z -> Z -> Z -> Z) (len : nat) : Prop :=
  forall i j t,
    0 <= i < sw c -> 0 <= j < sh c -> length t = len ->
    exists t',
      pixel (3 * j) (3 * i) {| ox := dx * i; oy := dy * j; target := t |}
      = Some {| ox := dx * (i + 1); oy := dy * j; target := t' |}
      /\ length t' = len
      /\ (forall n, 0 <= n < 3 -> load t' (3 * (j * sw c + i) + n) = Some (val i j n))
      /\ (forall q, q < 3 * (j * sw c + i) \/ 3 * (j * sw c + i) + 3 <= q ->
                    load t' q = load t q).

(** The pixels before position [p] of the row-major order are written. *)
Definition written (c : scale_ctx_s) (val : Z -> Z -> Z -> Z) (len : nat) (p : Z)
  (t : list Z) : Prop :=
  length t = len /\
  forall i j n, 0 <= i < sw c -> 0 <= j -> j * sw c + i < p -> 0 <= n < 3 ->
    load t (3 * (j * sw c + i) + n) = Some (val i j n).

(** The weight of a tap lies in [0, 1]. *)
Definition unit_weight (f : spec_float) : bool := SFleb fzero f && SFleb f F32.one.


(** *** The callbacks of the scaler thread *)

(** The node of a stream, as the lookup loop of [scale_get_ctx] finds
    it. *)
Definition ctx_node (l : list scale_ctx_s) (i : Z) : option scale_ctx_s :=
  k ← find_ctx l i; l !! k.

(** A picture message of stream [ctx_i] on the list of nodes.
    [scale_read_callback] looks the node up, which makes one when the
    stream has none; when [process] is not set the frame is copied, else
    it asks for [sw * sh * 3] bytes past the header and
    [scale_write_callback] has [scale_pic_msg] fill them. *)
Definition scale_picture (l : list scale_ctx_s) (ctx_i : Z) (from : list Z)
  : option (list scale_ctx_s * list Z) :=
  let '(k, l1) := scale_get_ctx l ctx_i in
  c ← l1 !! k;
  if process c =? 0 then Some (l1, from)
  else
    out ← scale_pic_msg c from (replicate (Z.to_nat (target_size c)) 0);
    Some (l1, out).

End Scale.

(** ** glc/capture/gl_capture.c *)

Module GlCapture.

Definition GL_CAPTURE_TRY_PBO : Z := 0x1.
Definition GL_CAPTURE_USE_PBO : Z := 0x2.
Definition GL_CAPTURE_CAPTURING : Z := 0x4.
Definition GL_CAPTURE_DRAW_INDICATOR : Z := 0x8.
Definition GL_CAPTURE_CROP : Z := 0x10.
Definition GL_CAPTURE_LOCK_FPS : Z := 0x20.
Definition GL_CAPTURE_IGNORE_TIME : Z := 0x40.

(** Values of the system headers [GL/gl.h] and [errno.h]. *)
Definition GL_FRONT : Z := 0x0404.
Definition GL_BACK : Z := 0x0405.
Definition GL_BGR : Z := 0x80E0.
Definition GL_BGRA : Z := 0x80E1.
Definition EAGAIN : Z := 11.
Definition EBUSY : Z := 16.
Definition EINVAL : Z := 22.
Definition ENOTSUP : Z := 95.
Definition EALREADY : Z := 114.

Record gl_capture_video_stream_s := {
  id : Z;
  flags : Z;
  format : Z;
  dpy : Z;
  screen : Z;
  drawable : Z;
  attribWin : Z;
  last : Z;
  pbo_time : Z;
  w : Z;
  h : Z;
  cw : Z;
  ch : Z;
  row : Z;
  cx : Z;
  cy : Z;
  gamma_red : spec_float;
  gamma_green : spec_float;
  gamma_blue : spec_float;
  indicator_list : Z;
  pbo : Z;
  pbo_active : Z;
  num_frames : Z;
  num_captured_frames : Z;
  capture_time_ns : Z;
  gather_stats : Z
}.

(** The spin lock brackets two critical sections that the embedding runs
    in one piece, and the mutex the one time set up of the PBO entry
    points; neither holds a value between two calls.  The GL entry points
    are not state of the model: [libGL_handle] records that they were
    looked up. *)
Record gl_capture_s := {
  g_flags : Z;
  capture_buffer : Z;
  fps_period : Z;
  fps_rem : Z;
  fps_rem_period : Z;
  video : list gl_capture_video_stream_s;
  to : Z;
  bpp : Z;
  g_format : Z;
  pack_alignment : Z;
  crop_x : Z;
  crop_y : Z;
  crop_w : Z;
  crop_h : Z;
  libGL_handle : Z
}.

(** What the packet stream buffer sees. *)
Inductive event :=
| Opened
| Cancelled
| Published (m : glc_message) (payload : Z)
| StateCancelled
| BufferCancelled.

(** What one call reads from outside of the component: the clock, the
    window system, the GL library, the return codes of the packet stream
    library, and what the frames in flight on other threads do to the
    stream list during each 1 ms sleep of a drain. *)
Record world := {
  e_now : Z;
  e_before : Z;
  e_after : Z;
  e_done : Z;
  e_geom_w : Z;
  e_geom_h : Z;
  e_screen : Z;
  e_gamma_red : spec_float;
  e_gamma_green : spec_float;
  e_gamma_blue : spec_float;
  e_gl_extensions : option bool;
  e_dlopen : Z;
  e_procs : bool;
  e_gen_list : Z;
  e_gen_buffer : Z;
  e_map_buffer : bool;
  e_open : Z;
  e_setsize : Z;
  e_write_msg : Z;
  e_write_pic : Z;
  e_dma : Z;
  e_color_open : Z;
  e_color_write_hdr : Z;
  e_color_write_msg : Z;
  e_color_close : Z;
  e_new_id : Z;
  e_perf_log : bool;
  e_sleeps : list (list gl_capture_video_stream_s -> list gl_capture_video_stream_s)
}.

(** *** Field updates *)

Definition set_g_flags (f : Z) (g : gl_capture_s) : gl_capture_s :=
  {| g_flags := f; capture_buffer := capture_buffer g; fps_period := fps_period g;
     fps_rem := fps_rem g; fps_rem_period := fps_rem_period g; video := video g; to := to g;
     bpp := bpp g; g_format := g_format g; pack_alignment := pack_alignment g;
     crop_x := crop_x g; crop_y := crop_y g; crop_w := crop_w g; crop_h := crop_h g;
     libGL_handle := libGL_handle g |}.

Definition set_video (v : list gl_capture_video_stream_s) (g : gl_capture_s) : gl_capture_s :=
  {| g_flags := g_flags g; capture_buffer := capture_buffer g; fps_period := fps_period g;
     fps_rem := fps_rem g; fps_rem_period := fps_rem_period g; video := v; to := to g;
     bpp := bpp g; g_format := g_format g; pack_alignment := pack_alignment g;
     crop_x := crop_x g; crop_y := crop_y g; crop_w := crop_w g; crop_h := crop_h g;
     libGL_handle := libGL_handle g |}.

Definition set_libGL_handle (hd : Z) (g : gl_capture_s) : gl_capture_s :=
  {| g_flags := g_flags g; capture_buffer := capture_buffer g; fps_period := fps_period g;
     fps_rem := fps_rem g; fps_rem_period := fps_rem_period g; video := video g; to := to g;
     bpp := bpp g; g_format := g_format g; pack_alignment := pack_alignment g;
     crop_x := crop_x g; crop_y := crop_y g; crop_w := crop_w g; crop_h := crop_h g;
     libGL_handle := hd |}.

Definition on_video (f : gl_capture_video_stream_s -> gl_capture_video_stream_s) (k : nat)
  (g : gl_capture_s) : gl_capture_s :=
  set_video (alter f k (video g)) g.

Definition set_flags (f : Z) (v : gl_capture_video_stream_s) : gl_capture_video_stream_s :=
  {| id := id v; flags := f; format := format v; dpy := dpy v; screen := screen v;
     drawable := drawable v; attribWin := attribWin v; last := last v; pbo_time := pbo_time v;
     w := w v; h := h v; cw := cw v; ch := ch v; row := row v; cx := cx v; cy := cy v;
     gamma_red := gamma_red v; gamma_green := gamma_green v; gamma_blue := gamma_blue v;
     indicator_list := indicator_list v; pbo := pbo v; pbo_active := pbo_active v;
     num_frames := num_frames v; num_captured_frames := num_captured_frames v;
     capture_time_ns := capture_time_ns v; gather_stats := gather_stats v |}.

Definition set_attribWin (a : Z) (v : gl_capture_video_stream_s) : gl_capture_video_stream_s :=
  {| id := id v; flags := flags v; format := format v; dpy := dpy v; screen := screen v;
     drawable := drawable v; attribWin := a; last := last v; pbo_time := pbo_time v;
     w := w v; h := h v; cw := cw v; ch := ch v; row := row v; cx := cx v; cy := cy v;
     gamma_red := gamma_red v; gamma_green := gamma_green v; gamma_blue := gamma_blue v;
     indicator_list := indicator_list v; pbo := pbo v; pbo_active := pbo_active v;
     num_frames := num_frames v; num_captured_frames := num_captured_frames v;
     capture_time_ns := capture_time_ns v; gather_stats := gather_stats v |}.

Definition set_last (t : Z) (v : gl_capture_video_stream_s) : gl_capture_video_stream_s :=
  {| id := id v; flags := flags v; format := format v; dpy := dpy v; screen := screen v;
     drawable := drawable v; attribWin := attribWin v; last := t; pbo_time := pbo_time v;
     w := w v; h := h v; cw := cw v; ch := ch v; row := row v; cx := cx v; cy := cy v;
     gamma_red := gamma_red v; gamma_green := gamma_green v; gamma_blue := gamma_blue v;
     indicator_list := indicator_list v; pbo := pbo v; pbo_active := pbo_active v;
     num_frames := num_frames v; num_captured_frames := num_captured_frames v;
     capture_time_ns := capture_time_ns v; gather_stats := gather_stats v |}.

Definition set_pbo_time (t : Z) (v : gl_capture_video_stream_s) : gl_capture_video_stream_s :=
  {| id := id v; flags := flags v; format := format v; dpy := dpy v; screen := screen v;
     drawable := drawable v; attribWin := attribWin v; last := last v; pbo_time := t;
     w := w v; h := h v; cw := cw v; ch := ch v; row := row v; cx := cx v; cy := cy v;
     gamma_red := gamma_red v; gamma_green := gamma_green v; gamma_blue := gamma_blue v;
     indicator_list := indicator_list v; pbo := pbo v; pbo_active := pbo_active v;
     num_frames := num_frames v; num_captured_frames := num_captured_frames v;
     capture_time_ns := capture_time_ns v; gather_stats := gather_stats v |}.

Definition set_geometry (w' h' cw' ch' row' cx' cy' : Z) (v : gl_capture_video_stream_s)
  : gl_capture_video_stream_s :=
  {| id := id v; flags := flags v; format := format v; dpy := dpy v; screen := screen v;
     drawable := drawable v; attribWin := attribWin v; last := last v; pbo_time := pbo_time v;
     w := w'; h := h'; cw := cw'; ch := ch'; row := row'; cx := cx'; cy := cy';
     gamma_red := gamma_red v; gamma_green := gamma_green v; gamma_blue := gamma_blue v;
     indicator_list := indicator_list v; pbo := pbo v; pbo_active := pbo_active v;
     num_frames := num_frames v; num_captured_frames := num_captured_frames v;
     capture_time_ns := capture_time_ns v; gather_stats := gather_stats v |}.

Definition set_gamma (r g b : spec_float) (v : gl_capture_video_stream_s)
  : gl_capture_video_stream_s :=
  {| id := id v; flags := flags v; format := format v; dpy := dpy v; screen := screen v;
     drawable := drawable v; attribWin := attribWin v; last := last v; pbo_time := pbo_time v;
     w := w v; h := h v; cw := cw v; ch := ch v; row := row v; cx := cx v; cy := cy v;
     gamma_red := r; gamma_green := g; gamma_blue := b;
     indicator_list := indicator_list v; pbo := pbo v; pbo_active := pbo_active v;
     num_frames := num_frames v; num_captured_frames := num_captured_frames v;
     capture_time_ns := capture_time_ns v; gather_stats := gather_stats v |}.

Definition set_screen_format (sc fm : Z) (v : gl_capture_video_stream_s)
  : gl_capture_video_stream_s :=
  {| id := id v; flags := flags v; format := fm; dpy := dpy v; screen := sc;
     drawable := drawable v; attribWin := attribWin v; last := last v; pbo_time := pbo_time v;
     w := w v; h := h v; cw := cw v; ch := ch v; row := row v; cx := cx v; cy := cy v;
     gamma_red := gamma_red v; gamma_green := gamma_green v; gamma_blue := gamma_blue v;
     indicator_list := indicator_list v; pbo := pbo v; pbo_active := pbo_active v;
     num_frames := num_frames v; num_captured_frames := num_captured_frames v;
     capture_time_ns := capture_time_ns v; gather_stats := gather_stats v |}.

Definition set_gl_names (il pb pa : Z) (v : gl_capture_video_stream_s)
  : gl_capture_video_stream_s :=
  {| id := id v; flags := flags v; format := format v; dpy := dpy v; screen := screen v;
     drawable := drawable v; attribWin := attribWin v; last := last v; pbo_time := pbo_time v;
     w := w v; h := h v; cw := cw v; ch := ch v; row := row v; cx := cx v; cy := cy v;
     gamma_red := gamma_red v; gamma_green := gamma_green v; gamma_blue := gamma_blue v;
     indicator_list := il; pbo := pb; pbo_active := pa;
     num_frames := num_frames v; num_captured_frames := num_captured_frames v;
     capture_time_ns := capture_time_ns v; gather_stats := gather_stats v |}.

Definition set_stats (nf ncf ct : Z) (v : gl_capture_video_stream_s)
  : gl_capture_video_stream_s :=
  {| id := id v; flags := flags v; format := format v; dpy := dpy v; screen := screen v;
     drawable := drawable v; attribWin := attribWin v; last := last v; pbo_time := pbo_time v;
     w := w v; h := h v; cw := cw v; ch := ch v; row := row v; cx := cx v; cy := cy v;
     gamma_red := gamma_red v; gamma_green := gamma_green v; gamma_blue := gamma_blue v;
     indicator_list := indicator_list v; pbo := pbo v; pbo_active := pbo_active v;
     num_frames := nf; num_captured_frames := ncf;
     capture_time_ns := ct; gather_stats := gather_stats v |}.

(** *** Set up and configuration *)

Definition gl_capture_init : gl_capture_s :=
  {| g_flags := 0; capture_buffer := GL_FRONT; fps_period := 1000000000 / 30;
     fps_rem := 1; fps_rem_period := 3; video := []; to := 0;
     bpp := 4; g_format := GL_BGRA; pack_alignment := 8;
     crop_x := 0; crop_y := 0; crop_w := 0; crop_h := 0; libGL_handle := 0 |}.

Definition gl_capture_set_buffer (g : gl_capture_s) (buffer : Z) : Z * gl_capture_s :=
  if negb (to g =? 0) then (EALREADY, g)
  else (0, {| g_flags := g_flags g; capture_buffer := capture_buffer g;
              fps_period := fps_period g; fps_rem := fps_rem g;
              fps_rem_period := fps_rem_period g; video := video g; to := buffer;
              bpp := bpp g; g_format := g_format g; pack_alignment := pack_alignment g;
              crop_x := crop_x g; crop_y := crop_y g; crop_w := crop_w g; crop_h := crop_h g;
              libGL_handle := libGL_handle g |}).

Definition gl_capture_set_read_buffer (g : gl_capture_s) (buffer : Z) : Z * gl_capture_s :=
  if (buffer =? GL_FRONT) || (buffer =? GL_BACK) then
    (0, {| g_flags := g_flags g; capture_buffer := buffer;
           fps_period := fps_period g; fps_rem := fps_rem g;
           fps_rem_period := fps_rem_period g; video := video g; to := to g;
           bpp := bpp g; g_format := g_format g; pack_alignment := pack_alignment g;
           crop_x := crop_x g; crop_y := crop_y g; crop_w := crop_w g; crop_h := crop_h g;
           libGL_handle := libGL_handle g |})
  else (ENOTSUP, g).

Section Rational.

(** The rational helpers of [glc/common/rational.h], which is not part of
    the sources at hand: [glcs_d2q fps max] is a fraction close to [fps],
    [glcs_div_q b a] the quotient of two fractions; a fraction is the pair
    of its numerator and denominator. *)
Variable glcs_d2q : spec_float -> Z -> Z * Z.
Variable glcs_div_q : Z * Z -> Z * Z -> Z * Z.

(** [gl_capture_set_fps]; [None]: the quotient has denominator 0, and
    [c.num/c.den] is an integer division by zero. *)
Definition gl_capture_set_fps (g : gl_capture_s) (fps : spec_float)
  : option (Z * gl_capture_s) :=
  if SFleb fps fzero then Some (EINVAL, g)
  else
    let a := glcs_d2q fps 1001000 in
    let c := glcs_div_q (1000000000, 1) a in
    if snd c =? 0 then None
    else
      Some (0, {| g_flags := g_flags g; capture_buffer := capture_buffer g;
                  fps_period := u64 (Z.quot (fst c) (snd c));
                  fps_rem := u64 (Z.rem (fst c) (snd c));
                  fps_rem_period := u32 (snd c); video := video g; to := to g;
                  bpp := bpp g; g_format := g_format g; pack_alignment := pack_alignment g;
                  crop_x := crop_x g; crop_y := crop_y g; crop_w := crop_w g;
                  crop_h := crop_h g; libGL_handle := libGL_handle g |}).

End Rational.

Definition gl_capture_set_pack_alignment (g : gl_capture_s) (pa : Z) : Z * gl_capture_s :=
  if (pa =? 1) || (pa =? 8) then
    (0, {| g_flags := g_flags g; capture_buffer := capture_buffer g;
           fps_period := fps_period g; fps_rem := fps_rem g;
           fps_rem_period := fps_rem_period g; video := video g; to := to g;
           bpp := bpp g; g_format := g_format g; pack_alignment := pa;
           crop_x := crop_x g; crop_y := crop_y g; crop_w := crop_w g; crop_h := crop_h g;
           libGL_handle := libGL_handle g |})
  else (ENOTSUP, g).

Definition gl_capture_try_pbo (g : gl_capture_s) (try_pbo : Z) : Z * gl_capture_s :=
  if negb (try_pbo =? 0) then (0, set_g_flags (set_flag (g_flags g) GL_CAPTURE_TRY_PBO) g)
  else if has_flag (g_flags g) GL_CAPTURE_USE_PBO then (EAGAIN, g)
  else (0, set_g_flags (clear_flag (g_flags g) GL_CAPTURE_TRY_PBO) g).

Definition gl_capture_set_pixel_format (g : gl_capture_s) (fm : Z) : Z * gl_capture_s :=
  if (fm =? GL_BGRA) || (fm =? GL_BGR) then
    (0, {| g_flags := g_flags g; capture_buffer := capture_buffer g;
           fps_period := fps_period g; fps_rem := fps_rem g;
           fps_rem_period := fps_rem_period g; video := video g; to := to g;
           bpp := if fm =? GL_BGRA then 4 else 3; g_format := fm;
           pack_alignment := pack_alignment g;
           crop_x := crop_x g; crop_y := crop_y g; crop_w := crop_w g; crop_h := crop_h g;
           libGL_handle := libGL_handle g |})
  else (ENOTSUP, g).

Definition toggle (g : gl_capture_s) (mask on : Z) : Z * gl_capture_s :=
  if negb (on =? 0) then (0, set_g_flags (set_flag (g_flags g) mask) g)
  else (0, set_g_flags (clear_flag (g_flags g) mask) g).

Definition gl_capture_draw_indicator (g : gl_capture_s) (on : Z) : Z * gl_capture_s :=
  toggle g GL_CAPTURE_DRAW_INDICATOR on.

Definition gl_capture_ignore_time (g : gl_capture_s) (on : Z) : Z * gl_capture_s :=
  toggle g GL_CAPTURE_IGNORE_TIME on.

Definition gl_capture_lock_fps (g : gl_capture_s) (on : Z) : Z * gl_capture_s :=
  toggle g GL_CAPTURE_LOCK_FPS on.

Definition gl_capture_crop (g : gl_capture_s) (x y width height : Z) : Z * gl_capture_s :=
  if (x =? 0) && (y =? 0) && (width =? 0) && (height =? 0)
  then (0, set_g_flags (clear_flag (g_flags g) GL_CAPTURE_CROP) g)
  else (0, {| g_flags := set_flag (g_flags g) GL_CAPTURE_CROP;
              capture_buffer := capture_buffer g;
              fps_period := fps_period g; fps_rem := fps_rem g;
              fps_rem_period := fps_rem_period g; video := video g; to := to g;
              bpp := bpp g; g_format := g_format g; pack_alignment := pack_alignment g;
              crop_x := x; crop_y := y; crop_w := width; crop_h := height;
              libGL_handle := libGL_handle g |}).

Definition gl_capture_start (g : gl_capture_s) : Z * gl_capture_s :=
  if to g =? 0 then (EAGAIN, g)
  else (0, set_g_flags (set_flag (g_flags g) GL_CAPTURE_CAPTURING) g).

(** *** The stream list *)

Fixpoint find_stream (l : list gl_capture_video_stream_s) (d dr : Z) : option nat :=
  match l with
  | [] => None
  | v :: l' =>
      if (drawable v =? dr) && (dpy v =? d) then Some 0%nat else S <$> find_stream l' d dr
  end.

Definition new_stream (e : world) (d dr : Z) : gl_capture_video_stream_s :=
  {| id := e_new_id e; flags := GLC_VIDEO_NEED_COLOR_UPDATE; format := 0; dpy := d;
     screen := 0; drawable := dr; attribWin := 0; last := 0; pbo_time := 0;
     w := 0; h := 0; cw := 0; ch := 0; row := 0; cx := 0; cy := 0;
     gamma_red := fzero; gamma_green := fzero; gamma_blue := fzero;
     indicator_list := 0; pbo := 0; pbo_active := 0;
     num_frames := 0; num_captured_frames := 0; capture_time_ns := 0;
     gather_stats := if e_perf_log e then 1 else 0 |}.

Definition capturing (v : gl_capture_video_stream_s) : bool :=
  has_flag (flags v) GLC_VIDEO_CAPTURING.

Definition acquire (v : gl_capture_video_stream_s) : gl_capture_video_stream_s :=
  set_flags (set_flag (flags v) GLC_VIDEO_CAPTURING) v.

(** [gl_capture_release_video_stream] *)
Definition release (v : gl_capture_video_stream_s) : gl_capture_video_stream_s :=
  set_flags (clear_flag (flags v) GLC_VIDEO_CAPTURING) v.

(** [gl_capture_get_video_stream]: the position of the node of the pair
    (display, drawable), allocated at the head on a miss, with its
    CAPTURING bit set. *)
Definition gl_capture_get_video_stream (g : gl_capture_s) (e : world) (d dr : Z)
  : nat * gl_capture_s :=
  let '(k, l) := match find_stream (video g) d dr with
                 | Some k => (k, video g)
                 | None => (0%nat, new_stream e d dr :: video g)
                 end in
  (k, set_video (alter acquire k l) g).

Definition gl_capture_set_attribute_window (g : gl_capture_s) (e : world) (d dr window : Z)
  : Z * gl_capture_s :=
  let '(k, g1) := gl_capture_get_video_stream g e d dr in
  (0, on_video (set_attribWin window) k g1).

Definition gl_capture_refresh_color_correction (g : gl_capture_s) : Z * gl_capture_s :=
  (0, set_video
        (map (fun v => set_flags (set_flag (flags v) GLC_VIDEO_NEED_COLOR_UPDATE) v) (video g))
        g).

(** *** Stop and drain *)

Definition sleep : Type := list gl_capture_video_stream_s -> list gl_capture_video_stream_s.

(** The inner [while] of [gl_capture_clear_video_streams] on node [k]:
    as long as its CAPTURING bit is set the caller sleeps 1 ms, during
    which the other threads act on the list.  [None]: the bit is still
    set when nothing more happens on the other threads, and the loop
    never ends. *)
Fixpoint poll (sleeps : list sleep) (k : nat) (l : list gl_capture_video_stream_s)
  : option (list gl_capture_video_stream_s * list sleep) :=
  match l !! k with
  | None => None
  | Some v =>
      if capturing v then
        match sleeps with
        | [] => None
        | f :: rest => poll rest k (f l)
        end
      else Some (l, sleeps)
  end.

(** The outer [while]: the nodes from position [k] on, [n] of them. *)
Fixpoint clear_from (n k : nat) (sleeps : list sleep) (l : list gl_capture_video_stream_s)
  : option (list gl_capture_video_stream_s) :=
  match n with
  | O => Some l
  | S n' =>
      '(l1, rest) ← poll sleeps k l;
      clear_from n' (S k) rest (alter (set_last 0) k l1)
  end.

Definition gl_capture_clear_video_streams (g : gl_capture_s) (sleeps : list sleep)
  : option gl_capture_s :=
  l ← clear_from (length (video g)) 0 sleeps (video g);
  Some (set_video l g).

Definition gl_capture_stop (g : gl_capture_s) (sleeps : list sleep) : option gl_capture_s :=
  if has_flag (g_flags g) GL_CAPTURE_CAPTURING then
    gl_capture_clear_video_streams
      (set_g_flags (clear_flag (g_flags g) GL_CAPTURE_CAPTURING) g) sleeps
  else Some g.

Definition gl_capture_error (g : gl_capture_s) (sleeps : list sleep)
  : option (gl_capture_s * list event) :=
  g1 ← (if has_flag (g_flags g) GL_CAPTURE_CAPTURING
        then gl_capture_stop g sleeps else Some g);
  Some (g1, StateCancelled :: (if to g1 =? 0 then [] else [BufferCancelled])).

(** *** The frame path *)

(** [gl_capture_calc_geometry] *)
Definition gl_capture_calc_geometry (g : gl_capture_s) (v : gl_capture_video_stream_s)
  (w' h' : Z) : gl_capture_video_stream_s :=
  let '(cw', ch', cx', cy') :=
    if has_flag (g_flags g) GL_CAPTURE_CROP then
      let cx1 := if w' <? crop_x g then 0 else crop_x g in
      let cy1 := if h' <? crop_y g then 0 else crop_y g in
      let cw1 := if w' <? u32 (crop_w g + cx1) then u32 (w' - cx1) else crop_w g in
      let ch1 := if h' <? u32 (crop_h g + cy1) then u32 (h' - cy1) else crop_h g in
      (cw1, ch1, cx1, u32 (h' - ch1 - cy1))
    else (w', h', 0, 0) in
  let row0 := u32 (cw' * bpp g) in
  let row1 := if negb (row0 mod pack_alignment g =? 0)
              then u32 (row0 + u32 (pack_alignment g - row0 mod pack_alignment g))
              else row0 in
  set_geometry w' h' cw' ch' row1 cx' cy' v.

(** [gl_capture_init_pbo]: the return code, and the handle of libGL when
    the library was opened. *)
Definition gl_capture_init_pbo (g : gl_capture_s) (e : world) : Z * gl_capture_s :=
  match e_gl_extensions e with
  | None => (EINVAL, g)
  | Some false => (ENOTSUP, g)
  | Some true =>
      let g1 := set_libGL_handle (e_dlopen e) g in
      if e_dlopen e =? 0 then (ENOTSUP, g1)
      else if e_procs e then (0, g1) else (ENOTSUP, g1)
  end.

Definition gl_capture_init_video_format (g : gl_capture_s) (e : world)
  (v : gl_capture_video_stream_s) : gl_capture_video_stream_s :=
  let v1 := set_gamma F32.one F32.one F32.one
              (set_screen_format (e_screen e)
                 (if g_format g =? GL_BGRA then GLC_VIDEO_BGRA else GLC_VIDEO_BGR) v) in
  if pack_alignment g =? 8
  then set_flags (set_flag (flags v1) GLC_VIDEO_DWORD_ALIGNED) v1 else v1.

(** [gl_capture_write_video_format_message]: the return codes of the
    packet calls are not looked at; [gl_capture_create_pbo] returns 0. *)
Definition gl_capture_write_video_format_message (g : gl_capture_s) (e : world)
  (v : gl_capture_video_stream_s) (w' h' : Z)
  : gl_capture_video_stream_s * list event :=
  let v1 := gl_capture_calc_geometry g v w' h' in
  let format_msg :=
    {| vfm_id := id v1;
       vfm_flags := clear_flag (flags v1)
                      (Z.lor GLC_VIDEO_CAPTURING GLC_VIDEO_NEED_COLOR_UPDATE);
       vfm_width := cw v1; vfm_height := ch v1; vfm_format := format v1 |} in
  let v2 := if has_flag (g_flags g) GL_CAPTURE_USE_PBO
            then set_gl_names (indicator_list v1) (e_gen_buffer e) (pbo_active v1) v1
            else v1 in
  (v2, [Opened; Published (GLC_MESSAGE_VIDEO_FORMAT format_msg) 0]).

(** [gl_capture_update_color]; its return code is not looked at by the
    caller. *)
Definition gl_capture_update_color (e : world) (v : gl_capture_video_stream_s)
  : gl_capture_video_stream_s * list event :=
  let v1 := set_flags (clear_flag (flags v) GLC_VIDEO_NEED_COLOR_UPDATE) v in
  if SFeqb (e_gamma_red e) (gamma_red v1) && SFeqb (e_gamma_green e) (gamma_green v1)
     && SFeqb (e_gamma_blue e) (gamma_blue v1)
  then (v1, [])
  else
    let msg := {| clr_id := id v1; clr_brightness := fzero; clr_contrast := fzero;
                  clr_red := e_gamma_red e; clr_green := e_gamma_green e;
                  clr_blue := e_gamma_blue e |} in
    let v2 := set_gamma (e_gamma_red e) (e_gamma_green e) (e_gamma_blue e) v1 in
    if negb (e_color_open e =? 0) then (v2, [Cancelled])
    else if negb (e_color_write_hdr e =? 0) || negb (e_color_write_msg e =? 0)
            || negb (e_color_close e =? 0)
    then (v2, [Opened; Cancelled])
    else (v2, [Opened; Published (GLC_MESSAGE_COLOR msg) 0]).

(** [gl_capture_update_video_stream] *)
Definition gl_capture_update_video_stream (g : gl_capture_s) (e : world)
  (v : gl_capture_video_stream_s)
  : gl_capture_s * gl_capture_video_stream_s * list event :=
  let g1 :=
    if negb (has_flag (g_flags g) GL_CAPTURE_USE_PBO) && has_flag (g_flags g) GL_CAPTURE_TRY_PBO
    then
      let '(ret, g') := gl_capture_init_pbo g e in
      if ret =? 0 then set_g_flags (set_flag (g_flags g') GL_CAPTURE_USE_PBO) g'
      else set_g_flags (clear_flag (g_flags g') GL_CAPTURE_TRY_PBO) g'
    else g in
  let v1 := if format v =? 0 then gl_capture_init_video_format g1 e v else v in
  let '(v2, ev1) :=
    if negb (e_geom_w e =? w v1) || negb (e_geom_h e =? h v1)
    then gl_capture_write_video_format_message g1 e v1 (e_geom_w e) (e_geom_h e)
    else (v1, []) in
  let '(v3, ev2) :=
    if has_flag (flags v2) GLC_VIDEO_NEED_COLOR_UPDATE
    then gl_capture_update_color e v2 else (v2, []) in
  let v4 :=
    if has_flag (g_flags g1) GL_CAPTURE_DRAW_INDICATOR && (indicator_list v3 =? 0)
    then set_gl_names (e_gen_list e) (pbo v3) (pbo_active v3) v3 else v3 in
  (g1, v4, ev1 ++ ev2).

(** The test that drops a frame by schedule. *)
Definition too_early (g : gl_capture_s) (v : gl_capture_video_stream_s) (now : Z) : bool :=
  (u64 (now - last v) <? fps_period g)
  && negb (has_flag (g_flags g) GL_CAPTURE_LOCK_FPS)
  && negb (has_flag (g_flags g) GL_CAPTURE_IGNORE_TIME).

(** The label [finish]: the node goes back to the list with its
    CAPTURING bit cleared, and a nonzero [ret] is an error. *)
Definition finish (g : gl_capture_s) (e : world) (k : nat) (v : gl_capture_video_stream_s)
  (ret : Z) (evs : list event) : option (Z * gl_capture_s * list event) :=
  let g1 := set_video (<[k := release v]> (video g)) g in
  if ret =? 0 then Some (0, g1, evs)
  else
    '(g2, evs') ← gl_capture_error g1 (e_sleeps e);
    Some (ret, g2, evs ++ evs').

(** The label [cancel] *)
Definition cancel (g : gl_capture_s) (e : world) (k : nat) (v : gl_capture_video_stream_s)
  (ret : Z) (evs : list event) : option (Z * gl_capture_s * list event) :=
  finish g e k v (if ret =? EBUSY then 0 else ret) (evs ++ [Cancelled]).

(** The end of a captured frame: [last] advances by the period, and by
    the rational fix every [fps_rem_period] captured frames. *)
Definition advance (g : gl_capture_s) (v : gl_capture_video_stream_s)
  : option gl_capture_video_stream_s :=
  let ncf := u32 (num_captured_frames v + 1) in
  let v1 := set_stats (num_frames v) ncf (capture_time_ns v) v in
  if fps_rem_period g =? 0 then None
  else
    let last1 := u64 (last v1 + fps_period g) in
    Some (set_last (if ncf mod fps_rem_period g =? 0 then u64 (last1 + fps_rem g) else last1) v1).

(** From the packet open to the end of [gl_capture_frame]. *)
Definition publish (g : gl_capture_s) (e : world) (k : nat) (v : gl_capture_video_stream_s)
  (now : Z) (evs : list event) : option (Z * gl_capture_s * list event) :=
  if negb (e_open e =? 0) then finish g e k v 0 evs
  else
    let evs := evs ++ [Opened] in
    if negb (e_setsize e =? 0) then cancel g e k v (e_setsize e) evs
    else if negb (e_write_msg e =? 0) then cancel g e k v (e_write_msg e) evs
    else
      let use_pbo := has_flag (g_flags g) GL_CAPTURE_USE_PBO in
      let pic := {| vfh_id := id v;
                    vfh_time := if use_pbo && (pbo_time v <? now) then pbo_time v else now |} in
      if negb (e_write_pic e =? 0) then cancel g e k v (e_write_pic e) evs
      else if use_pbo && negb (e_map_buffer e) then cancel g e k v EINVAL evs
      else if negb use_pbo && negb (e_dma e =? 0) then cancel g e k v (e_dma e) evs
      else
        let v1 := if use_pbo then set_pbo_time now v else v in
        let v2 := if gather_stats v1 =? 0 then v1
                  else set_stats (num_frames v1) (num_captured_frames v1)
                         (u64 (capture_time_ns v1 + u64 (e_after e - e_before e))) v1 in
        v3 ← advance g v2;
        finish g e k v3 0
          (evs ++ [Published (GLC_MESSAGE_VIDEO_FRAME pic) (u32 (row v * ch v))]).

(** [gl_capture_frame]: the return code, the component after the call
    and what the buffer saw. *)
Definition gl_capture_frame (g : gl_capture_s) (e : world) (d dr : Z)
  : option (Z * gl_capture_s * list event) :=
  if negb (has_flag (g_flags g) GL_CAPTURE_CAPTURING) then Some (0, g, [])
  else
    let '(k, g1) := gl_capture_get_video_stream g e d dr in
    v ← video g1 !! k;
    let now := if has_flag (g_flags g1) GL_CAPTURE_IGNORE_TIME
               then u64 (last v + fps_period g1) else e_now e in
    if too_early g1 v now then finish g1 e k v 0 []
    else
      let '(g2, v1, evs) := gl_capture_update_video_stream g1 e v in
      let v2 := set_stats (u32 (num_frames v1 + 1)) (num_captured_frames v1)
                  (capture_time_ns v1) v1 in
      if has_flag (g_flags g2) GL_CAPTURE_USE_PBO && (pbo_active v2 =? 0)
      then finish g2 e k
             (set_pbo_time now (set_gl_names (indicator_list v2) (pbo v2) 1 v2)) 0 evs
      else publish g2 e k v2 now evs.

(** *** The public operations as a type of calls *)

Inductive call :=
| SetBuffer (buffer : Z)
| SetReadBuffer (buffer : Z)
| SetFps (fps : spec_float)
| SetPackAlignment (pa : Z)
| TryPbo (on : Z)
| SetPixelFormat (fm : Z)
| DrawIndicator (on : Z)
| IgnoreTime (on : Z)
| LockFps (on : Z)
| Crop (x y width height : Z)
| SetAttributeWindow (e : world) (d dr window : Z)
| RefreshColorCorrection
| Start
| Stop (sleeps : list sleep)
| Frame (e : world) (d dr : Z).

Section Run.

Variable glcs_d2q : spec_float -> Z -> Z * Z.
Variable glcs_div_q : Z * Z -> Z * Z -> Z * Z.

Definition quiet (r : Z * gl_capture_s) : option (Z * gl_capture_s * list event) :=
  Some (fst r, snd r, []).

Definition run (c : call) (g : gl_capture_s) : option (Z * gl_capture_s * list event) :=
  match c with
  | SetBuffer b => quiet (gl_capture_set_buffer g b)
  | SetReadBuffer b => quiet (gl_capture_set_read_buffer g b)
  | SetFps f => r ← gl_capture_set_fps glcs_d2q glcs_div_q g f; quiet r
  | SetPackAlignment pa => quiet (gl_capture_set_pack_alignment g pa)
  | TryPbo on => quiet (gl_capture_try_pbo g on)
  | SetPixelFormat fm => quiet (gl_capture_set_pixel_format g fm)
  | DrawIndicator on => quiet (gl_capture_draw_indicator g on)
  | IgnoreTime on => quiet (gl_capture_ignore_time g on)
  | LockFps on => quiet (gl_capture_lock_fps g on)
  | Crop x y wd ht => quiet (gl_capture_crop g x y wd ht)
  | SetAttributeWindow e d dr win => quiet (gl_capture_set_attribute_window g e d dr win)
  | RefreshColorCorrection => quiet (gl_capture_refresh_color_correction g)
  | Start => quiet (gl_capture_start g)
  | Stop sleeps => g' ← gl_capture_stop g sleeps; Some (0, g', [])
  | Frame e d dr => gl_capture_frame g e d dr
  end.

(** A sequence of calls from one thread: the component at the end and
    everything the buffer saw. *)
Fixpoint run_all (cs : list call) (g : gl_capture_s) : option (gl_capture_s * list event) :=
  match cs with
  | [] => Some (g, [])
  | c :: cs' =>
      '(_, g1, evs) ← run c g;
      '(g2, evs') ← run_all cs' g1;
      Some (g2, evs ++ evs')
  end.

End Run.

Definition is_frame (ev : event) : bool :=
  match ev with
  | Published (GLC_MESSAGE_VIDEO_FRAME _) _ => true
  | _ => false
  end.


(** *** Observations and scenarios *)

(** [last_publish_time] of the stream of a pair (display, drawable): the
    field [last] of its node, 0 as long as the node does not exist. *)
Definition last_publish_time (g : gl_capture_s) (d dr : Z) : Z :=
  match find_stream (video g) d dr with
  | Some k => from_option last 0 (video g !! k)
  | None => 0
  end.

Definition emits (r : option (Z * gl_capture_s * list event)) : option bool :=
  '(_, _, evs) ← r; Some (existsb is_frame evs).

(** The buffer takes the packet of the frame: every packet call of the
    publish path returns 0. *)
Definition ready (e : world) : bool :=
  (e_open e =? 0) && (e_setsize e =? 0) && (e_write_msg e =? 0)
  && (e_write_pic e =? 0) && (e_dma e =? 0).

(** A world at time [now] in which nothing goes wrong: a 640x480 window,
    unit gamma, no PBO extension, a buffer that takes every packet, no
    other thread. *)
Definition calm (now : Z) : world :=
  {| e_now := now; e_before := now; e_after := now; e_done := now;
     e_geom_w := 640; e_geom_h := 480; e_screen := 0;
     e_gamma_red := F32.one; e_gamma_green := F32.one; e_gamma_blue := F32.one;
     e_gl_extensions := Some false; e_dlopen := 0; e_procs := false;
     e_gen_list := 1; e_gen_buffer := 1; e_map_buffer := true;
     e_open := 0; e_setsize := 0; e_write_msg := 0; e_write_pic := 0; e_dma := 0;
     e_color_open := 0; e_color_write_hdr := 0; e_color_write_msg := 0; e_color_close := 0;
     e_new_id := 1; e_perf_log := false; e_sleeps := [] |}.

(** The same world with a buffer that is busy: the try-lock open of
    the frame packet fails. *)
Definition busy (now : Z) : world :=
  {| e_now := now; e_before := now; e_after := now; e_done := now;
     e_geom_w := 640; e_geom_h := 480; e_screen := 0;
     e_gamma_red := F32.one; e_gamma_green := F32.one; e_gamma_blue := F32.one;
     e_gl_extensions := Some false; e_dlopen := 0; e_procs := false;
     e_gen_list := 1; e_gen_buffer := 1; e_map_buffer := true;
     e_open := EBUSY; e_setsize := 0; e_write_msg := 0; e_write_pic := 0; e_dma := 0;
     e_color_open := 0; e_color_write_hdr := 0; e_color_write_msg := 0; e_color_close := 0;
     e_new_id := 1; e_perf_log := false; e_sleeps := [] |}.

(** The same world with the PBO extension and its entry points. *)
Definition with_pbo (now : Z) : world :=
  {| e_now := now; e_before := now; e_after := now; e_done := now;
     e_geom_w := 640; e_geom_h := 480; e_screen := 0;
     e_gamma_red := F32.one; e_gamma_green := F32.one; e_gamma_blue := F32.one;
     e_gl_extensions := Some true; e_dlopen := 1; e_procs := true;
     e_gen_list := 1; e_gen_buffer := 1; e_map_buffer := true;
     e_open := 0; e_setsize := 0; e_write_msg := 0; e_write_pic := 0; e_dma := 0;
     e_color_open := 0; e_color_write_hdr := 0; e_color_write_msg := 0; e_color_close := 0;
     e_new_id := 1; e_perf_log := false; e_sleeps := [] |}.

(** A component as [gl_capture_init] leaves it (30 fps), bound to a
    buffer and started. *)
Definition started : gl_capture_s :=
  snd (gl_capture_start (snd (gl_capture_set_buffer gl_capture_init 1))).

(** [frame()] fired at each of [times] in a calm world, on the drawable
    [dr] of display [d]: for each call, whether it published a frame. *)
Fixpoint pacing (g : gl_capture_s) (d dr : Z) (times : list Z) : option (list bool) :=
  match times with
  | [] => Some []
  | t :: ts =>
      '(_, g1, evs) ← gl_capture_frame g (calm t) d dr;
      bs ← pacing g1 d dr ts;
      Some (existsb is_frame evs :: bs)
  end.

(** The component after [set_attribute_window] on a fresh component, and
    after the same call on a started one. *)
Definition window_set : gl_capture_s :=
  snd (gl_capture_set_attribute_window gl_capture_init (calm 0) 7 9 5).
Definition started_window_set : gl_capture_s :=
  snd (gl_capture_set_attribute_window started (calm 0) 7 9 5).

(** The component after [frame()] was fired at each of [times]. *)
Definition frames_at (g : gl_capture_s) (d dr : Z) (times : list Z) : gl_capture_s :=
  fold_left (fun g t => match gl_capture_frame g (calm t) d dr with
                        | Some (_, g', _) => g'
                        | None => g
                        end) times g.

(** After one, two and three published frames of the drawable 9 of
    display 7, at 30 fps. *)
Definition after_first : gl_capture_s :=
  Eval vm_compute in frames_at started 7 9 [33333333].
Definition after_second : gl_capture_s :=
  Eval vm_compute in frames_at started 7 9 [33333333; 66666666].
Definition after_third : gl_capture_s :=
  Eval vm_compute in frames_at started 7 9 [33333333; 66666666; 99999999].

(** A node is drained: no frame holds it and its clock is reset. *)
Definition drained (v : gl_capture_video_stream_s) : Prop :=
  capturing v = false /\ last v = 0.



(** The six setters that can refuse their argument. *)
Definition is_setter (c : call) : bool :=
  match c with
  | SetBuffer _ | SetReadBuffer _ | SetFps _ | SetPackAlignment _
  | SetPixelFormat _ | TryPbo _ => true
  | _ => false
  end.


(** *** Configuration, schedule and stream keys *)

(** The fields that only the setters write: two components agree on
    them. *)
Definition same_config (g g' : gl_capture_s) : Prop :=
  capture_buffer g' = capture_buffer g
  /\ fps_period g' = fps_period g /\ fps_rem g' = fps_rem g
  /\ fps_rem_period g' = fps_rem_period g
  /\ to g' = to g
  /\ bpp g' = bpp g /\ g_format g' = g_format g /\ pack_alignment g' = pack_alignment g
  /\ crop_x g' = crop_x g /\ crop_y g' = crop_y g
  /\ crop_w g' = crop_w g /\ crop_h g' = crop_h g.

(** The pixel format and the bytes per pixel agree, and the pack
    alignment and the read buffer are ones the setters accept. *)
Definition config_ok (g : gl_capture_s) : Prop :=
  (g_format g = GL_BGRA /\ bpp g = 4 \/ g_format g = GL_BGR /\ bpp g = 3)
  /\ (pack_alignment g = 1 \/ pack_alignment g = 8)
  /\ (capture_buffer g = GL_FRONT \/ capture_buffer g = GL_BACK).

(** The end of [n] captured frames in a row. *)
Fixpoint advance_n (g : gl_capture_s) (n : nat) (v : gl_capture_video_stream_s)
  : option gl_capture_video_stream_s :=
  match n with
  | O => Some v
  | S n' => v1 ← advance g v; advance_n g n' v1
  end.

(** The pair that identifies a stream. *)
Definition stream_key (v : gl_capture_video_stream_s) : Z * Z := (dpy v, drawable v).

(** The frame and the format messages among the events of a call. *)
Definition frame_headers (evs : list event) : list (glc_video_frame_header_t * Z) :=
  omap (fun ev => match ev with
                  | Published (GLC_MESSAGE_VIDEO_FRAME hd) payload => Some (hd, payload)
                  | _ => None
                  end) evs.

Definition format_messages (evs : list event) : list glc_video_format_message_t :=
  omap (fun ev => match ev with
                  | Published (GLC_MESSAGE_VIDEO_FORMAT m) _ => Some m
                  | _ => None
                  end) evs.

Definition color_messages (evs : list event) : list glc_color_message_t :=
  omap (fun ev => match ev with
                  | Published (GLC_MESSAGE_COLOR m) _ => Some m
                  | _ => None
                  end) evs.

(** A started component that asked for a PBO, after its first call to
    [frame()] for the drawable 9 of display 7 in a world that has the
    extension, and the node of that stream. *)
Definition pbo_primed : gl_capture_s :=
  Eval vm_compute in
    match gl_capture_frame (snd (gl_capture_try_pbo started 1)) (with_pbo 40000000) 7 9 with
    | Some (_, g, _) => g
    | None => started
    end.

Definition pbo_primed_node : gl_capture_video_stream_s :=
  Eval vm_compute in default (new_stream (calm 0) 7 9) (video pbo_primed !! 0%nat).

(** *** What a call to [frame()] finds, and a thread that is alone *)

(** What a call to [frame()] finds in the node of a pair (display,
    drawable): the field [pbo_active] and the count of captured frames,
    both 0 as long as the node does not exist. *)
Definition stream_pbo_active (g : gl_capture_s) (d dr : Z) : Z :=
  match find_stream (video g) d dr with
  | Some k => from_option pbo_active 0 (video g !! k)
  | None => 0
  end.

Definition captured_frames (g : gl_capture_s) (d dr : Z) : Z :=
  match find_stream (video g) d dr with
  | Some k => from_option num_captured_frames 0 (video g !! k)
  | None => 0
  end.

(** The call works with a PBO: USE_PBO is set, or TRY_PBO is and
    [gl_capture_init_pbo] succeeds in this call. *)
Definition pbo_in_use (g : gl_capture_s) (e : world) : bool :=
  has_flag (g_flags g) GL_CAPTURE_USE_PBO
  || has_flag (g_flags g) GL_CAPTURE_TRY_PBO && (fst (gl_capture_init_pbo g e) =? 0).

(** The call only starts the first PBO transfer of the stream. *)
Definition starts_pbo (g : gl_capture_s) (e : world) (d dr : Z) : bool :=
  pbo_in_use g e && (stream_pbo_active g d dr =? 0).

(** Every call of the publish path succeeds: the four packet calls, and
    the mapping of the PBO or else the DMA request. *)
Definition accepts (g : gl_capture_s) (e : world) : bool :=
  (e_open e =? 0) && (e_setsize e =? 0) && (e_write_msg e =? 0) && (e_write_pic e =? 0)
  && (if pbo_in_use g e then e_map_buffer e else e_dma e =? 0).

(** The value of [last] after a captured frame. *)
Definition next_publish_time (g : gl_capture_s) (d dr : Z) : Z :=
  let last1 := u64 (last_publish_time g d dr + fps_period g) in
  if u32 (captured_frames g d dr + 1) mod fps_rem_period g =? 0
  then u64 (last1 + fps_rem g) else last1.

(** The component between two calls of a thread that is alone: no
    node is held, and while the component does not capture the [last] of
    every stream is 0. *)
Definition settled (g : gl_capture_s) : Prop :=
  Forall (fun v => capturing v = false) (video g)
  /\ (has_flag (g_flags g) GL_CAPTURE_CAPTURING = false ->
      Forall (fun v => last v = 0) (video g)).

Definition is_set_window (c : call) : bool :=
  match c with
  | SetAttributeWindow _ _ _ _ => true
  | _ => false
  end.


End GlCapture.

(** * Facts *)

(** ** Machine integers, arrays and loops *)

Lemma u32_small z : 0 <= z < 2 ^ 32 -> u32 z = z.
Proof. intros H. unfold u32. apply Z.mod_small. exact H. Qed.

Lemma u64_small z : 0 <= z < 2 ^ 64 -> u64 z = z.
Proof. intros H. unfold u64. apply Z.mod_small. exact H. Qed.

Lemma has_flag_set_other f m n :
  Z.land m n = 0 -> has_flag (set_flag f m) n = has_flag f n.
Proof.
  intros H. unfold has_flag, set_flag.
  rewrite Z.land_lor_distr_l, H, Z.lor_0_r. reflexivity.
Qed.

Lemma has_flag_clear_other f m n :
  Z.land (Z.lnot m mod 2 ^ 32) n = n -> has_flag (clear_flag f m) n = has_flag f n.
Proof.
  intros H. unfold has_flag, clear_flag.
  rewrite <- Z.land_assoc, H. reflexivity.
Qed.

Lemma has_flag_clear_same f m :
  Z.land (Z.lnot m mod 2 ^ 32) m = 0 -> has_flag (clear_flag f m) m = false.
Proof.
  intros H. unfold has_flag, clear_flag.
  rewrite <- Z.land_assoc, H, Z.land_0_r. reflexivity.
Qed.

Lemma load_in_range {A} (a : list A) i :
  0 <= i < Z.of_nat (length a) -> exists v, load a i = Some v.
Proof.
  intros H. unfold load. destruct (0 <=? i) eqn:E; [|lia].
  apply lookup_lt_is_Some. lia.
Qed.

Lemma store_in_range {A} (a : list A) i v :
  0 <= i < Z.of_nat (length a) -> exists a', store a i v = Some a'.
Proof.
  intros H. unfold store.
  destruct (0 <=? i) eqn:E1; [|lia]. destruct (i <? Z.of_nat (length a)) eqn:E2; [|lia].
  eauto.
Qed.

Lemma store_length {A} (a : list A) i v a' : store a i v = Some a' -> length a' = length a.
Proof.
  unfold store. destruct ((0 <=? i) && (i <? Z.of_nat (length a))); [|discriminate].
  intros [= <-]. apply length_insert.
Qed.

Lemma load_store_same {A} (a : list A) i v a' : store a i v = Some a' -> load a' i = Some v.
Proof.
  unfold store, load.
  destruct (0 <=? i) eqn:E1; [|discriminate].
  destruct (i <? Z.of_nat (length a)) eqn:E2; [|discriminate].
  intros [= <-]. apply list_lookup_insert_eq. lia.
Qed.

Lemma load_store_other {A} (a : list A) i v a' j :
  store a i v = Some a' -> j <> i -> load a' j = load a j.
Proof.
  unfold store, load.
  destruct (0 <=? i) eqn:E1; [|discriminate].
  destruct (i <? Z.of_nat (length a)) eqn:E2; [|discriminate].
  intros [= <-] Hne. destruct (0 <=? j) eqn:E3; [|reflexivity].
  apply list_lookup_insert_ne. lia.
Qed.

(** Three consecutive cells written one after the other. *)
Lemma store3 (t : list Z) (p v0 v1 v2 : Z) :
  0 <= p -> p + 2 < Z.of_nat (length t) ->
  exists t1 t2 t3,
    store t p v0 = Some t1 /\ store t1 (p + 1) v1 = Some t2 /\ store t2 (p + 2) v2 = Some t3
    /\ length t3 = length t
    /\ load t3 p = Some v0 /\ load t3 (p + 1) = Some v1 /\ load t3 (p + 2) = Some v2
    /\ forall q, q < p \/ p + 3 <= q -> load t3 q = load t q.
Proof.
  intros Hp Hl.
  destruct (store_in_range t p v0) as [t1 H1]; [lia|].
  pose proof (store_length _ _ _ _ H1) as L1.
  destruct (store_in_range t1 (p + 1) v1) as [t2 H2]; [lia|].
  pose proof (store_length _ _ _ _ H2) as L2.
  destruct (store_in_range t2 (p + 2) v2) as [t3 H3]; [lia|].
  pose proof (store_length _ _ _ _ H3) as L3.
  exists t1, t2, t3. repeat split; try assumption.
  - congruence.
  - rewrite (load_store_other _ _ _ _ p H3) by lia.
    rewrite (load_store_other _ _ _ _ p H2) by lia.
    eapply load_store_same; eassumption.
  - rewrite (load_store_other _ _ _ _ (p + 1) H3) by lia.
    eapply load_store_same; eassumption.
  - eapply load_store_same; eassumption.
  - intros q Hq.
    rewrite (load_store_other _ _ _ _ q H3) by lia.
    rewrite (load_store_other _ _ _ _ q H2) by lia.
    rewrite (load_store_other _ _ _ _ q H1) by lia.
    reflexivity.
Qed.

(** An invariant [I k] of the state before round [k] of a counted loop
    holds at [n] when the loop ends, and the loop ends without a fault. *)
Lemma for_iter_inv {S} (I : Z -> S -> Prop) (body : Z -> S -> option S) (step : Z) (n : nat) :
  forall x0,
  (forall k s, 0 <= k < Z.of_nat n -> I k s ->
     exists s', body (x0 + k * step) s = Some s' /\ I (k + 1) s') ->
  forall s, I 0 s -> exists s', for_iter n x0 step body s = Some s' /\ I (Z.of_nat n) s'.
Proof.
  revert I. induction n as [|n IH]; intros I x0 Hbody s H0.
  - exists s. split; [reflexivity | exact H0].
  - destruct (Hbody 0 s) as [s1 [E1 I1]]; [lia | exact H0 |].
    replace (x0 + 0 * step) with x0 in E1 by lia.
    cbn [for_iter]. rewrite E1. cbn [mbind option_bind].
    destruct (IH (fun k => I (k + 1)) (x0 + step)) with (s := s1) as [s' [E' I']].
    + intros k s2 Hk Hs2.
      destruct (Hbody (k + 1) s2) as [s3 [E3 I3]]; [lia | exact Hs2 |].
      exists s3. split; [|exact I3].
      rewrite <- E3. f_equal. lia.
    + exact I1.
    + exists s'. split; [exact E'|].
      replace (Z.of_nat (Datatypes.S n)) with (Z.of_nat n + 1) by lia. exact I'.
Qed.

Lemma for_range_count3 n : 0 <= n -> Z.to_nat ((3 * n + 3 - 1) / 3) = Z.to_nat n.
Proof. intros H. f_equal. symmetry. apply (Z.div_unique _ 3 n 2); lia. Qed.

Lemma row_major_inj s i j i' j' :
  0 <= i < s -> 0 <= i' < s -> j' * s + i' = j * s + i -> j' = j /\ i' = i.
Proof.
  intros Hi Hi' H.
  assert (j' < j \/ j' = j \/ j < j') as [Hlt | [-> | Hgt]] by lia.
  - assert (j' * s + s <= j * s) by nia. lia.
  - lia.
  - assert (j * s + s <= j' * s) by nia. lia.
Qed.

Lemma half_bounds z : 0 <= z -> 0 <= z / 2 /\ 2 * (z / 2) <= z < 2 * (z / 2) + 2.
Proof.
  intros Hz. pose proof (Z.div_mod z 2 ltac:(lia)). pose proof (Z.mod_pos_bound z 2 ltac:(lia)).
  lia.
Qed.

Lemma load_byte (from : list Z) (x b : Z) :
  Forall (fun b => 0 <= b < 256) from -> load from x = Some b -> 0 <= b < 256.
Proof.
  intros Hall Hx. unfold load in Hx. destruct (0 <=? x); [|discriminate].
  rewrite Forall_lookup in Hall. exact (Hall _ _ Hx).
Qed.

(** ** Doubles that hold an unsigned int *)

Lemma iter_pos_iter {A} (f : A -> A) p x : SpecFloat.iter_pos f p x = Pos.iter f x p.
Proof.
  revert x. induction p as [p IH|p IH|]; intros x; simpl.
  - rewrite !IH. rewrite <- !Pos.iter_swap. reflexivity.
  - rewrite !IH. reflexivity.
  - reflexivity.
Qed.

Lemma iter_xO_mul p n : Z.pos (Pos.iter xO p n) = Z.pos p * 2 ^ Z.pos n.
Proof.
  rewrite Pos2Nat.inj_iter, <- (positive_nat_Z n).
  induction (Pos.to_nat n) as [|k IH]; simpl nat_rect.
  - simpl. lia.
  - rewrite Nat2Z.inj_succ, Z.pow_succ_r by lia. rewrite Pos2Z.inj_xO, IH. lia.
Qed.

Lemma digits2_shift p n :
  Z.pos (digits2_pos (Pos.iter xO p n)) = Z.pos (digits2_pos p) + Z.pos n.
Proof.
  rewrite Pos2Nat.inj_iter. rewrite <- (positive_nat_Z n).
  induction (Pos.to_nat n) as [|k IH]; simpl nat_rect.
  - lia.
  - cbn [digits2_pos]. lia.
Qed.

Lemma digits2_bound p : forall n, 0 <= n -> Z.pos p < 2 ^ n -> Z.pos (digits2_pos p) <= n.
Proof.
  induction p as [p IH|p IH|]; intros n Hn H; cbn [digits2_pos].
  - assert (n = 0 \/ 1 <= n) as [-> | Hn1] by lia; [simpl in H; lia|].
    replace n with (Z.succ (n - 1)) in H by lia. rewrite Z.pow_succ_r in H by lia.
    specialize (IH (n - 1)). lia.
  - assert (n = 0 \/ 1 <= n) as [-> | Hn1] by lia; [simpl in H; lia|].
    replace n with (Z.succ (n - 1)) in H by lia. rewrite Z.pow_succ_r in H by lia.
    specialize (IH (n - 1)). lia.
  - assert (n = 0 \/ 1 <= n) as [-> | Hn1] by lia; [simpl in H; lia|]. lia.
Qed.

(** Shifting out [n] zero digits loses nothing. *)
Lemma shr_exact p n :
  SpecFloat.iter_pos shr_1 n
    {| shr_m := Z.pos (Pos.iter xO p n); shr_r := false; shr_s := false |}
  = {| shr_m := Z.pos p; shr_r := false; shr_s := false |}.
Proof.
  rewrite iter_pos_iter, !Pos2Nat.inj_iter.
  induction (Pos.to_nat n) as [|k IH]; simpl nat_rect.
  - reflexivity.
  - assert (G : forall r, nat_rect (fun _ => shr_record) (shr_1 r) (fun _ => shr_1) k
                     = shr_1 (nat_rect (fun _ => shr_record) r (fun _ => shr_1) k)).
    { intros r. clear IH. induction k as [|k IHk]; simpl; [reflexivity|]. now rewrite IHk. }
    rewrite <- G. cbn [shr_1]. exact IH.
Qed.

Lemma shr_fexp_canonical m e :
  Z.pos (digits2_pos m) = 53 -> -1074 <= e ->
  shr_fexp 53 1024 (Z.pos m) e loc_Exact
  = ({| shr_m := Z.pos m; shr_r := false; shr_s := false |}, e).
Proof.
  intros Hd He. unfold shr_fexp, fexp, emin. cbn [Zdigits2]. rewrite Hd.
  replace (Z.max (53 + e - 53) (3 - 1024 - 53) - e) with 0 by lia.
  reflexivity.
Qed.

Lemma shr_fexp_shift m e n :
  Z.pos (digits2_pos m) = 53 -> -1074 <= e ->
  shr_fexp 53 1024 (Z.pos (Pos.iter xO m n)) (e - Z.pos n) loc_Exact
  = ({| shr_m := Z.pos m; shr_r := false; shr_s := false |}, e).
Proof.
  intros Hd He. unfold shr_fexp, fexp, emin. cbn [Zdigits2].
  rewrite digits2_shift, Hd.
  replace (Z.max (53 + Z.pos n + (e - Z.pos n) - 53) (3 - 1024 - 53) - (e - Z.pos n))
    with (Z.pos n) by lia.
  cbn [shr shr_record_of_loc]. rewrite shr_exact. f_equal. lia.
Qed.

(** A 53 digit mantissa with an exponent in range is kept as it is. *)
Lemma round_aux_canonical m e :
  Z.pos (digits2_pos m) = 53 -> -1074 <= e <= 971 ->
  binary_round_aux 53 1024 false (Z.pos m) e loc_Exact = S754_finite false m e.
Proof.
  intros Hd He. unfold binary_round_aux.
  rewrite shr_fexp_canonical by lia.
  cbn [shr_m shr_r shr_s loc_of_shr_record round_nearest_even].
  rewrite shr_fexp_canonical by lia. cbn [shr_m].
  destruct (e <=? 1024 - 53) eqn:E; [reflexivity | lia].
Qed.

Lemma round_aux_shift m e n :
  Z.pos (digits2_pos m) = 53 -> -1074 <= e <= 971 ->
  binary_round_aux 53 1024 false (Z.pos (Pos.iter xO m n)) (e - Z.pos n) loc_Exact
  = S754_finite false m e.
Proof.
  intros Hd He. unfold binary_round_aux.
  rewrite shr_fexp_shift by lia.
  cbn [shr_m shr_r shr_s loc_of_shr_record round_nearest_even].
  rewrite shr_fexp_canonical by lia. cbn [shr_m].
  destruct (e <=? 1024 - 53) eqn:E; [reflexivity | lia].
Qed.

(** The double nearest to a small positive integer is that integer. *)
Lemma of_Z_pos p :
  Z.pos (digits2_pos p) < 53 ->
  F64.of_Z (Z.pos p)
  = S754_finite false (Pos.iter xO p (Z.to_pos (53 - Z.pos (digits2_pos p))))
      (Z.pos (digits2_pos p) - 53).
Proof.
  intros Hd.
  unfold F64.of_Z, F64.prec, F64.emax, binary_normalize, binary_round, shl_align, fexp, emin.
  replace (Z.max (Z.pos (digits2_pos p) + 0 - 53) (3 - 1024 - 53))
    with (Z.pos (digits2_pos p) - 53) by lia.
  destruct (Z.pos (digits2_pos p) - 53 - 0) as [|q|q] eqn:E; try lia.
  replace q with (Z.to_pos (53 - Z.pos (digits2_pos p))) by lia.
  apply round_aux_canonical.
  - rewrite digits2_shift. lia.
  - lia.
Qed.

(** [sw = scale * w] for the scales 1 and 1/2: the product is exact and
    its conversion to [unsigned int] is [w] or [w / 2]. *)
Lemma scaled_size (k w : Z) :
  k = 0 \/ k = 1 -> 0 <= w < 2 ^ 32 ->
  f_to_unsigned 32 (F64.mul (F64.dyadic 1 k) (F64.of_Z w)) = Some (w / 2 ^ k).
Proof.
  intros Hk Hw.
  assert (Hdy : F64.dyadic 1 k = S754_finite false 4503599627370496 (-52 - k)).
  { destruct Hk as [-> | ->]; reflexivity. }
  assert (Hp : 2 ^ k = 1 \/ 2 ^ k = 2) by (destruct Hk as [-> | ->]; [left|right]; reflexivity).
  destruct w as [|p|p]; [| |lia].
  - rewrite Hdy. cbn. rewrite Z.div_0_l by lia. reflexivity.
  - assert (Hd : Z.pos (digits2_pos p) <= 32) by (apply digits2_bound; lia).
    rewrite of_Z_pos by lia. rewrite Hdy.
    set (d := Z.pos (digits2_pos p)) in *.
    set (m := Pos.iter xO p (Z.to_pos (53 - d))).
    assert (Hm : Z.pos (digits2_pos m) = 53) by (unfold m; rewrite digits2_shift; lia).
    unfold F64.mul, F64.prec, F64.emax, SFmul. cbn [xorb].
    change (4503599627370496 * m)%positive with (Pos.iter xO m 52).
    replace (-52 - k + (d - 53)) with ((d - 53 - k) - 52) by lia.
    rewrite round_aux_shift by lia.
    unfold f_to_unsigned, ftrunc. cbn [cond_Zopp mbind option_bind].
    rewrite Z.shiftl_div_pow2 by lia.
    unfold m. rewrite iter_xO_mul.
    replace (- (d - 53 - k)) with (Z.pos (Z.to_pos (53 - d)) + k) by lia.
    rewrite Z.pow_add_r by lia.
    rewrite <- Z.div_div by (try apply Z.pow_pos_nonneg; lia).
    rewrite Z.div_mul by (apply Z.pow_nonzero; lia).
    assert (0 <= Z.pos p / 2 ^ k < 2 ^ 32).
    { destruct Hp as [-> | ->]; [rewrite Z.div_1_r; lia|].
      split; [apply Z.div_pos; lia|]. apply Z.div_lt_upper_bound; lia. }
    destruct (0 <=? Z.pos p / 2 ^ k) eqn:E1; [|lia].
    destruct (Z.pos p / 2 ^ k <? 2 ^ 32) eqn:E2; [|lia].
    reflexivity.
Qed.

(** ** The scaler *)

Module ScaleFacts.
Import Scale.

Lemma scan_row_spec (c : scale_ctx_s) (pixel : Z -> Z -> cursor -> option cursor)
  (dx dy : Z) (val : Z -> Z -> Z -> Z) (len : nat) (j : Z) (k : cursor) :
  0 <= sw c /\ 3 * sw c < 2 ^ 32 ->
  0 <= dy /\ dy * sh c < 2 ^ 32 ->
  pixel_writes c pixel dx dy val len ->
  0 <= j < sh c -> ox k = 0 -> oy k = dy * j -> written c val len (j * sw c) (target k) ->
  exists k', scan_row c pixel dy (3 * j) k = Some k'
    /\ ox k' = 0 /\ oy k' = dy * (j + 1) /\ written c val len ((j + 1) * sw c) (target k').
Proof.
  intros sw_range dy_range pixel_spec Hj Hox Hoy Hw. unfold scan_row, for_range.
  rewrite u32_small by lia.
  replace (sw c * 3) with (3 * sw c) by lia. rewrite for_range_count3 by lia.
  destruct (for_iter_inv
              (fun i k => ox k = dx * i /\ oy k = dy * j
                          /\ written c val len (j * sw c + i) (target k))
              (pixel (3 * j)) 3 (Z.to_nat (sw c)) 0) with (s := k)
    as [k1 [E1 [Hox1 [Hoy1 Hw1]]]].
  - intros i k0 Hi [Hx [Hy [Hlen Hwr]]].
    destruct (pixel_spec i j (target k0)) as [t' [Ep [Hl' [Hnew Hold]]]];
      [lia | lia | exact Hlen |].
    exists {| ox := dx * (i + 1); oy := dy * j; target := t' |}.
    split.
    + rewrite <- Ep. replace (0 + i * 3) with (3 * i) by lia.
      f_equal. destruct k0 as [x0 y0 t0]; cbn in *. subst. reflexivity.
    + cbn. repeat split; [exact Hl'|].
      intros i' j' n Hi' Hj' Hlt Hn.
      destruct (Z.eq_dec (j' * sw c + i') (j * sw c + i)) as [Heq | Hne].
      * destruct (row_major_inj (sw c) i j i' j') as [-> ->]; [lia..|].
        apply Hnew; exact Hn.
      * rewrite Hold by lia. apply Hwr; try assumption. lia.
  - repeat split; try lia; try apply Hw.
    replace (j * sw c + 0) with (j * sw c) by lia. apply Hw.
  - rewrite E1. cbn [mbind option_bind].
    eexists. split; [reflexivity|]. cbn.
    rewrite Hoy1. split; [reflexivity|]. split.
    + rewrite u32_small by nia. lia.
    + rewrite Z2Nat.id in Hw1 by lia.
      replace ((j + 1) * sw c) with (j * sw c + sw c) by lia. exact Hw1.
Qed.

(** The two loops of a fast path write every pixel of the target. *)
Lemma scan_rows_spec (c : scale_ctx_s) (pixel : Z -> Z -> cursor -> option cursor)
  (dx dy : Z) (val : Z -> Z -> Z -> Z) (len : nat) (t : list Z) :
  0 <= sw c /\ 3 * sw c < 2 ^ 32 ->
  0 <= sh c /\ 3 * sh c < 2 ^ 32 ->
  0 <= dy /\ dy * sh c < 2 ^ 32 ->
  pixel_writes c pixel dx dy val len ->
  length t = len ->
  exists k, for_range (u32 (sh c * 3)) 3 (scan_row c pixel dy)
              {| ox := 0; oy := 0; target := t |} = Some k
    /\ length (target k) = len
    /\ forall i j n, 0 <= i < sw c -> 0 <= j < sh c -> 0 <= n < 3 ->
         load (target k) (3 * (j * sw c + i) + n) = Some (val i j n).
Proof.
  intros sw_range sh_range dy_range pixel_spec Hlen. unfold for_range.
  rewrite u32_small by lia.
  replace (sh c * 3) with (3 * sh c) by lia. rewrite for_range_count3 by lia.
  destruct (for_iter_inv
              (fun j k => ox k = 0 /\ oy k = dy * j /\ written c val len (j * sw c) (target k))
              (scan_row c pixel dy) 3 (Z.to_nat (sh c)) 0)
    with (s := {| ox := 0; oy := 0; target := t |}) as [k [E [_ [_ [Hl Hw]]]]].
  - intros j k0 Hj [Hx [Hy Hwr]].
    destruct (scan_row_spec c pixel dx dy val len j k0) as [k' [E' [Hx' [Hy' Hw']]]];
      [assumption | assumption | assumption | lia | assumption..|].
    exists k'. split; [|auto].
    rewrite <- E'. f_equal. lia.
  - cbn. repeat split; [lia | exact Hlen |]. intros; nia.
  - exists k. split; [exact E|]. split; [exact Hl|].
    intros i j n Hi Hj Hn. apply Hw; try lia.
    rewrite Z2Nat.id by lia. nia.
Qed.

(** A stream of no column: the rows leave the target alone. *)
Lemma scan_rows_empty (c : scale_ctx_s) pixel dy n :
  sw c = 0 ->
  forall x k, exists k', for_iter n x 3 (scan_row c pixel dy) k = Some k' /\ target k' = target k.
Proof.
  intros Hsw.
  assert (Hrow : forall x k, scan_row c pixel dy x k
                 = Some {| ox := 0; oy := u32 (oy k + dy); target := target k |}).
  { intros x k. unfold scan_row. rewrite Hsw. reflexivity. }
  induction n as [|n IH]; intros x k; cbn [for_iter].
  - eauto.
  - rewrite Hrow. cbn [mbind option_bind].
    destruct (IH (x + 3) {| ox := 0; oy := u32 (oy k + dy); target := target k |}) as [k' [E T]].
    exists k'. split; [exact E | exact T].
Qed.

Lemma copy_pixel_spec (c : scale_ctx_s) (from : list Z) :
  bpp c = 4 -> 4 * sw c <= row c -> row c * sh c < 2 ^ 32 ->
  Z.of_nat (length from) = row c * sh c ->
  pixel_writes c (copy_pixel c from) 4 1
    (fun i j n => default 0 (load from (j * row c + 4 * i + n)))
    (Z.to_nat (3 * sw c * sh c)).
Proof.
  intros Hbpp Hrow Hfit Hfrom i j t Hi Hj Hlen.
  unfold copy_pixel. cbn [ox oy target]. rewrite Hbpp.
  assert (Hpix : j * sw c + i < sw c * sh c) by nia.
  assert (Hsrc : j * row c + 4 * i + 3 < row c * sh c) by nia.
  rewrite (u32_small (3 * i + 3 * j * sw c)) by nia.
  rewrite (u32_small (4 * i + 1 * j * row c)) by nia.
  replace (3 * i + 3 * j * sw c) with (3 * (j * sw c + i)) by lia.
  replace (4 * i + 1 * j * row c) with (j * row c + 4 * i) by lia.
  set (p := 3 * (j * sw c + i)). set (o := j * row c + 4 * i).
  rewrite !u32_small by (unfold p, o; nia).
  rewrite !Z.add_0_r.
  destruct (load_in_range from o) as [b0 B0]; [unfold o; nia|].
  destruct (load_in_range from (o + 1)) as [b1 B1]; [unfold o; nia|].
  destruct (load_in_range from (o + 2)) as [b2 B2]; [unfold o; nia|].
  destruct (store3 t p b0 b1 b2) as (t1 & t2 & t3 & S1 & S2 & S3 & L3 & R0 & R1 & R2 & Rq);
    [unfold p; nia | unfold p; nia |].
  rewrite B0. cbn [mbind option_bind]. rewrite S1. cbn [mbind option_bind].
  rewrite B1. cbn [mbind option_bind]. rewrite S2. cbn [mbind option_bind].
  rewrite B2. cbn [mbind option_bind]. rewrite S3. cbn [mbind option_bind].
  exists t3. split; [do 2 f_equal; lia|]. split; [congruence|]. split; [|exact Rq].
  intros n Hn. assert (n = 0 \/ n = 1 \/ n = 2) as [-> | [-> | ->]] by lia.
  - rewrite !Z.add_0_r. fold o. rewrite B0. exact R0.
  - replace (j * row c + 4 * i + 1) with (o + 1) by (unfold o; lia). rewrite B1. exact R1.
  - replace (j * row c + 4 * i + 2) with (o + 2) by (unfold o; lia). rewrite B2. exact R2.
Qed.

(** Four bytes add up in an [int], and their average is a byte. *)
Lemma average_bytes a b c d :
  0 <= a < 256 -> 0 <= b < 256 -> 0 <= c < 256 -> 0 <= d < 256 ->
  average a b c d = (a + b + c + d) / 4 /\ a + b + c + d < 2 ^ 31.
Proof.
  intros Ha Hb Hc Hd. unfold average, u8.
  rewrite Z.shiftr_div_pow2 by lia. change (2 ^ 2) with 4.
  split; [|lia]. apply Z.mod_small.
  split; [apply Z.div_pos; lia|]. apply Z.div_lt_upper_bound; lia.
Qed.

Lemma block_bounds (bp rw s_w s_h i j n : Z) :
  3 <= bp -> (2 * s_w) * bp <= rw -> 0 <= i < s_w -> 0 <= j < s_h -> 0 <= n < 3 ->
  0 <= rw /\ 0 <= i * bp /\ 0 <= j * rw
  /\ (2 * j + 1) * rw + (2 * i + 1) * bp + n < rw * (2 * s_h).
Proof.
  intros Hb Hr Hi Hj Hn.
  assert (A0 : 0 <= i * bp) by nia.
  assert (A1 : (2 * i + 2) * bp <= (2 * s_w) * bp) by (apply Z.mul_le_mono_nonneg_r; lia).
  assert (A2 : 0 <= rw) by lia.
  assert (A3 : (2 * j + 2) * rw <= (2 * s_h) * rw) by (apply Z.mul_le_mono_nonneg_r; lia).
  assert (A4 : 0 <= j * rw) by nia.
  repeat split; lia.
Qed.

Lemma half_channel_spec (c : scale_ctx_s) (from : list Z) (i j n : Z) :
  3 <= bpp c -> (2 * sw c) * bpp c <= row c -> row c * (2 * sh c) < 2 ^ 32 ->
  row c * (2 * sh c) <= Z.of_nat (length from) ->
  0 <= i < sw c -> 0 <= j < sh c -> 0 <= n < 3 ->
  half_channel c from
    (2 * bpp c * i + 2 * j * row c) (2 * bpp c * i + bpp c + 2 * j * row c)
    (2 * bpp c * i + (2 * j + 1) * row c) (2 * bpp c * i + bpp c + (2 * j + 1) * row c) n
  = Some (block c from i j n).
Proof.
  intros Hbpp Hrow Hfit Hfrom Hi Hj Hn. unfold half_channel, block.
  destruct (block_bounds (bpp c) (row c) (sw c) (sh c) i j n) as (H0 & Hib & Hjr & H1);
    [assumption..|].
  rewrite !u32_small by lia.
  replace (2 * bpp c * i + 2 * j * row c + n) with (2 * j * row c + 2 * i * bpp c + n) by lia.
  replace (2 * bpp c * i + bpp c + 2 * j * row c + n)
    with (2 * j * row c + (2 * i + 1) * bpp c + n) by lia.
  replace (2 * bpp c * i + (2 * j + 1) * row c + n)
    with ((2 * j + 1) * row c + 2 * i * bpp c + n) by lia.
  replace (2 * bpp c * i + bpp c + (2 * j + 1) * row c + n)
    with ((2 * j + 1) * row c + (2 * i + 1) * bpp c + n) by lia.
  destruct (load_in_range from (2 * j * row c + 2 * i * bpp c + n)) as [a ->]; [lia|].
  destruct (load_in_range from (2 * j * row c + (2 * i + 1) * bpp c + n)) as [b ->]; [lia|].
  destruct (load_in_range from ((2 * j + 1) * row c + 2 * i * bpp c + n)) as [c' ->]; [lia|].
  destruct (load_in_range from ((2 * j + 1) * row c + (2 * i + 1) * bpp c + n)) as [d ->]; [lia|].
  reflexivity.
Qed.

Lemma half_pixel_spec (c : scale_ctx_s) (from : list Z) :
  3 <= bpp c -> (2 * sw c) * bpp c <= row c -> row c * (2 * sh c) < 2 ^ 32 ->
  row c * (2 * sh c) <= Z.of_nat (length from) ->
  pixel_writes c (half_pixel c from) (2 * bpp c) 2 (block c from) (Z.to_nat (3 * sw c * sh c)).
Proof.
  intros Hbpp Hrow Hfit Hfrom i j t Hi Hj Hlen.
  unfold half_pixel. cbn [ox oy target].
  assert (Hpix : j * sw c + i < sw c * sh c) by nia.
  destruct (block_bounds (bpp c) (row c) (sw c) (sh c) i j 2) as (H0 & Hib & Hjr & H1);
    [assumption || lia..|].
  assert (Hout : 3 * sw c * sh c < 2 ^ 32) by nia.
  rewrite (u32_small (3 * i + 3 * j * sw c)) by nia.
  rewrite (u32_small (2 * bpp c * i + 0 + (2 * j + 0) * row c)) by lia.
  rewrite (u32_small (2 * bpp c * i + bpp c + (2 * j + 0) * row c)) by lia.
  rewrite (u32_small (2 * bpp c * i + 0 + (2 * j + 1) * row c)) by lia.
  rewrite (u32_small (2 * bpp c * i + bpp c + (2 * j + 1) * row c)) by lia.
  rewrite (u32_small (2 * bpp c * i + 2 * bpp c)) by nia.
  replace (3 * i + 3 * j * sw c) with (3 * (j * sw c + i)) by lia.
  replace (2 * bpp c * i + 0 + (2 * j + 0) * row c) with (2 * bpp c * i + 2 * j * row c) by lia.
  replace (2 * bpp c * i + bpp c + (2 * j + 0) * row c)
    with (2 * bpp c * i + bpp c + 2 * j * row c) by lia.
  replace (2 * bpp c * i + 0 + (2 * j + 1) * row c)
    with (2 * bpp c * i + (2 * j + 1) * row c) by lia.
  set (p := 3 * (j * sw c + i)).
  rewrite !(u32_small (p + _)) by (unfold p; nia).
  rewrite !Z.add_0_r.
  rewrite !half_channel_spec by (assumption || lia).
  destruct (store3 t p (block c from i j 0) (block c from i j 1) (block c from i j 2))
    as (t1 & t2 & t3 & S1 & S2 & S3 & L3 & R0 & R1 & R2 & Rq);
    [unfold p; nia | unfold p; nia |].
  cbn [mbind option_bind]. rewrite S1. cbn [mbind option_bind].
  rewrite S2. cbn [mbind option_bind]. rewrite S3. cbn [mbind option_bind].
  exists t3. split; [do 2 f_equal; lia|]. split; [congruence|]. split; [|exact Rq].
  intros n Hn. assert (n = 0 \/ n = 1 \/ n = 2) as [-> | [-> | ->]] by lia.
  - rewrite Z.add_0_r. exact R0.
  - exact R1.
  - exact R2.
Qed.

Lemma aligned_flag_kept flg :
  has_flag (set_flag (clear_flag flg GLC_CTX_BGR) GLC_CTX_BGR) GLC_CTX_DWORD_ALIGNED
  = has_flag flg GLC_CTX_DWORD_ALIGNED.
Proof.
  rewrite has_flag_set_other by reflexivity. apply has_flag_clear_other. reflexivity.
Qed.

Lemma input_bpp_range flg : 3 <= input_bpp flg <= 4.
Proof. unfold input_bpp. destruct (has_flag flg GLC_CTX_BGRA); lia. Qed.

Lemma input_row_bounds flg wd :
  0 <= wd -> wd * input_bpp flg <= input_row flg wd <= wd * input_bpp flg + 7.
Proof.
  intros Hw. unfold input_row. cbv zeta.
  pose proof (Z.mod_pos_bound (wd * input_bpp flg) 8 ltac:(lia)).
  destruct (has_flag flg GLC_CTX_DWORD_ALIGNED); cbn [andb]; [|lia].
  destruct (wd * input_bpp flg mod 8 =? 0) eqn:E; cbn [negb]; lia.
Qed.

(** The node [scale_ctx_msg] sets up for a stream scaled by 1 ([k = 0],
    BGRA frames) or by 1/2 ([k = 1]). *)
Lemma configure_fast (k flg wd ht : Z) :
  k = 0 \/ k = 1 ->
  (k = 0 -> has_flag flg GLC_CTX_BGRA = true) ->
  has_flag flg GLC_CTX_BGRA = true \/ has_flag flg GLC_CTX_BGR = true ->
  0 <= wd < 2 ^ 32 -> 0 <= ht < 2 ^ 32 ->
  exists c, configure (F64.dyadic 1 k) (ctx_msg flg wd ht) = Some c
    /\ flags c = flg /\ scale c = F64.dyadic 1 k /\ process c = 1
    /\ sw c = wd / 2 ^ k /\ sh c = ht / 2 ^ k /\ bpp c = input_bpp flg
    /\ (input_row flg wd < 2 ^ 32 -> row c = input_row flg wd).
Proof.
  intros Hk Hk0 Hfmt Hw Hh.
  unfold configure, scale_ctx_msg, scale_get_ctx, ctx_msg. cbn [find_ctx cm_ctx].
  cbn [lookup list_lookup mbind option_bind].
  unfold ctx_msg_node. cbn [cm_flags cm_w cm_h flags w h bpp new_ctx].
  assert (Hfast : SFeqb (F64.dyadic 1 k) (F64.dyadic 1 1) || SFeqb (F64.dyadic 1 k) F64.one
                  = true)
    by (destruct Hk as [-> | ->]; reflexivity).
  assert (Hskip : negb (has_flag flg GLC_CTX_BGRA) && SFeqb (F64.dyadic 1 k) F64.one
                  && has_flag flg GLC_CTX_BGR = false).
  { destruct Hk as [-> | ->]; [rewrite Hk0 by reflexivity; reflexivity|].
    rewrite andb_false_r. reflexivity. }
  rewrite Hskip, Hfast.
  rewrite !scaled_size by assumption. cbn [mbind option_bind].
  eexists. split; [reflexivity|]. cbn [flags scale process sw sh bpp row].
  assert (Hbpp : (if has_flag flg GLC_CTX_BGRA then 4
                  else if has_flag flg GLC_CTX_BGR then 3 else 0) = input_bpp flg).
  { unfold input_bpp. destruct (has_flag flg GLC_CTX_BGRA) eqn:Ea; [reflexivity|].
    destruct Hfmt as [Hf | Hf]; [discriminate|]. rewrite Hf. reflexivity. }
  repeat split; [exact Hbpp|].
  intros Hrow. rewrite Hbpp.
  assert (Hal : has_flag (if has_flag flg GLC_CTX_BGRA
                          then set_flag (clear_flag flg GLC_CTX_BGR) GLC_CTX_BGR else flg)
                  GLC_CTX_DWORD_ALIGNED = has_flag flg GLC_CTX_DWORD_ALIGNED).
  { destruct (has_flag flg GLC_CTX_BGRA); [apply aligned_flag_kept | reflexivity]. }
  rewrite Hal.
  pose proof (input_row_bounds flg wd ltac:(lia)) as Hb.
  pose proof (input_bpp_range flg) as Hbr.
  assert (Hpos : 0 <= wd * input_bpp flg) by nia.
  rewrite (u32_small (wd * input_bpp flg)) by lia.
  unfold input_row in *. cbv zeta in *.
  pose proof (Z.mod_pos_bound (wd * input_bpp flg) 8 ltac:(lia)).
  destruct (has_flag flg GLC_CTX_DWORD_ALIGNED); cbn [andb] in *; [|reflexivity].
  destruct (wd * input_bpp flg mod 8 =? 0) eqn:E; cbn [negb] in *; [reflexivity|].
  rewrite (u32_small (8 - _)) by lia. rewrite u32_small by lia. reflexivity.
Qed.

Lemma unit_scale_projects (flg wd ht : Z) (from : list Z) :
  has_flag flg GLC_CTX_BGRA = true ->
  0 <= wd < 2 ^ 32 -> 0 <= ht < 2 ^ 32 ->
  input_row flg wd * ht < 2 ^ 32 ->
  Z.of_nat (length from) = input_row flg wd * ht ->
  exists out,
    scale_frame F64.one (ctx_msg flg wd ht) from = Some out
    /\ Z.of_nat (length out) = 3 * wd * ht
    /\ forall i j n, 0 <= i < wd -> 0 <= j < ht -> 0 <= n < 3 ->
         load out (3 * (j * wd + i) + n) = load from (j * input_row flg wd + 4 * i + n).
Proof.
  intros Hfmt Hw Hh Hfit Hlen.
  destruct (configure_fast 0 flg wd ht) as (c & Ec & Hfl & Hsc & Hpr & Hsw & Hsh & Hbpp & Hrow);
    [auto | auto | auto | assumption.. |].
  change (F64.dyadic 1 0) with F64.one in *.
  change (2 ^ 0) with 1 in *. rewrite Z.div_1_r in Hsw, Hsh.
  assert (Hb4 : input_bpp flg = 4) by (unfold input_bpp; rewrite Hfmt; reflexivity).
  pose proof (input_row_bounds flg wd ltac:(lia)) as Hrb. rewrite Hb4 in Hrb.
  unfold scale_frame. rewrite Ec. cbn [mbind option_bind]. rewrite Hpr.
  change (1 =? 0) with false. cbv iota.
  unfold scale_pic_msg, target_size. rewrite Hsc, Hfl, Hfmt, Hsw, Hsh.
  change (SFeqb F64.one F64.one && true) with true. cbv iota.
  assert (ht = 0 \/ 0 < ht) as [-> | Hhpos] by lia.
  { rewrite !Z.mul_0_r, Z.mul_0_l. change (u32 0) with 0. cbn.
    eexists. split; [reflexivity|]. split; [reflexivity|]. intros; lia. }
  assert (wd = 0 \/ 0 < wd) as [-> | Hwpos] by lia.
  { unfold for_range.
    destruct (scan_rows_empty c (copy_pixel c from) 1
                (Z.to_nat ((u32 (ht * 3) + 3 - 1) / 3)) Hsw 0
                {| ox := 0; oy := 0; target := replicate (Z.to_nat (u32 (0 * ht * 3))) 0 |})
      as [k' [E T]].
    rewrite E. cbn [fmap option_fmap option_map]. rewrite T. cbn [target].
    eexists. split; [reflexivity|]. split; [|intros; lia].
    rewrite length_replicate. change (u32 (0 * ht * 3)) with 0. lia. }
  assert (Hrow' : row c = input_row flg wd) by (apply Hrow; nia).
  assert (Hout : 3 * wd * ht < 2 ^ 32) by nia.
  destruct (scan_rows_spec c (copy_pixel c from) 4 1
              (fun i j n => default 0 (load from (j * row c + 4 * i + n)))
              (Z.to_nat (3 * sw c * sh c))
              (replicate (Z.to_nat (u32 (wd * ht * 3))) 0)) as [k [E [Hl Hv]]].
  - rewrite Hsw. nia.
  - rewrite Hsh. nia.
  - rewrite Hsh. lia.
  - apply copy_pixel_spec; rewrite ?Hsw, ?Hsh, ?Hrow'; lia.
  - rewrite length_replicate, Hsw, Hsh. f_equal. rewrite u32_small by lia. lia.
  - rewrite Hsh in E. rewrite E. cbn [fmap option_fmap option_map].
    eexists. split; [reflexivity|]. split.
    + rewrite Hl, Hsw, Hsh. lia.
    + intros i j n Hi Hj Hn. rewrite Hsw, Hsh in Hv. rewrite Hv by assumption.
      rewrite Hrow'.
      destruct (load_in_range from (j * input_row flg wd + 4 * i + n)) as [b ->]; [nia|].
      reflexivity.
Qed.

Lemma half_scale_blocks (flg wd ht : Z) (from : list Z) :
  has_flag flg GLC_CTX_BGRA = true \/ has_flag flg GLC_CTX_BGR = true ->
  0 <= wd < 2 ^ 32 -> 0 <= ht < 2 ^ 32 ->
  input_row flg wd * ht < 2 ^ 32 ->
  Z.of_nat (length from) = input_row flg wd * ht ->
  Forall (fun b => 0 <= b < 256) from ->
  exists out,
    scale_frame (F64.dyadic 1 1) (ctx_msg flg wd ht) from = Some out
    /\ Z.of_nat (length out) = 3 * (wd / 2) * (ht / 2)
    /\ forall i j n, 0 <= i < wd / 2 -> 0 <= j < ht / 2 -> 0 <= n < 3 ->
         exists a b c d,
           load from ((2 * j) * input_row flg wd + (2 * i) * input_bpp flg + n) = Some a
           /\ load from ((2 * j) * input_row flg wd + (2 * i + 1) * input_bpp flg + n) = Some b
           /\ load from ((2 * j + 1) * input_row flg wd + (2 * i) * input_bpp flg + n) = Some c
           /\ load from ((2 * j + 1) * input_row flg wd + (2 * i + 1) * input_bpp flg + n)
              = Some d
           /\ a + b + c + d < 2 ^ 31
           /\ load out (3 * (j * (wd / 2) + i) + n) = Some (Z.shiftr (a + b + c + d) 2).
Proof.
  intros Hfmt Hw Hh Hfit Hlen Hbytes.
  destruct (configure_fast 1 flg wd ht) as (c & Ec & Hfl & Hsc & Hpr & Hsw & Hsh & Hbpp & Hrow);
    [auto | intros; discriminate | assumption.. |].
  change (2 ^ 1) with 2 in *.
  pose proof (input_bpp_range flg) as Hbr.
  pose proof (input_row_bounds flg wd ltac:(lia)) as Hrb.
  destruct (half_bounds wd ltac:(lia)) as [Hsw0 Hsw2].
  destruct (half_bounds ht ltac:(lia)) as [Hsh0 Hsh2].
  unfold scale_frame. rewrite Ec. cbn [mbind option_bind]. rewrite Hpr.
  change (1 =? 0) with false. cbv iota.
  unfold scale_pic_msg, target_size. rewrite Hsc, Hsw, Hsh.
  change (SFeqb (F64.dyadic 1 1) F64.one) with false.
  change (SFeqb (F64.dyadic 1 1) (F64.dyadic 1 1)) with true. cbn [andb]. cbv iota.
  set (s_w := wd / 2) in *. set (s_h := ht / 2) in *.
  assert (s_h = 0 \/ 0 < s_h) as [Hz | Hhpos] by lia.
  { rewrite Hz. rewrite !Z.mul_0_r, Z.mul_0_l. change (u32 0) with 0. cbn.
    eexists. split; [reflexivity|]. split; [reflexivity|]. intros; lia. }
  assert (s_w = 0 \/ 0 < s_w) as [Hz | Hwpos] by lia.
  { unfold for_range.
    destruct (scan_rows_empty c (half_pixel c from) 2
                (Z.to_nat ((u32 (s_h * 3) + 3 - 1) / 3)) ltac:(lia) 0
                {| ox := 0; oy := 0; target := replicate (Z.to_nat (u32 (s_w * s_h * 3))) 0 |})
      as [k' [E T]].
    rewrite E. cbn [fmap option_fmap option_map]. rewrite T. cbn [target].
    eexists. split; [reflexivity|]. split; [|intros; lia].
    rewrite length_replicate, Hz. change (u32 (0 * s_h * 3)) with 0. lia. }
  assert (Hr0 : 0 <= input_row flg wd) by nia.
  assert (Hr1 : input_row flg wd * 1 <= input_row flg wd * ht)
    by (apply Z.mul_le_mono_nonneg_l; lia).
  assert (Hr2 : input_row flg wd * (2 * s_h) <= input_row flg wd * ht)
    by (apply Z.mul_le_mono_nonneg_l; lia).
  assert (Hr3 : (2 * s_w) * input_bpp flg <= wd * input_bpp flg)
    by (apply Z.mul_le_mono_nonneg_r; lia).
  assert (Hrow' : row c = input_row flg wd) by (apply Hrow; lia).
  assert (Hout : 3 * s_w * s_h < 2 ^ 32) by nia.
  assert (Hfit2 : row c * (2 * sh c) < 2 ^ 32) by (rewrite Hrow', Hsh; nia).
  assert (Hrow2 : (2 * sw c) * bpp c <= row c) by (rewrite Hrow', Hsw, Hbpp; nia).
  assert (Hfrom2 : row c * (2 * sh c) <= Z.of_nat (length from)) by (rewrite Hrow', Hsh; nia).
  destruct (scan_rows_spec c (half_pixel c from) (2 * bpp c) 2 (block c from)
              (Z.to_nat (3 * sw c * sh c))
              (replicate (Z.to_nat (u32 (s_w * s_h * 3))) 0)) as [k [E [Hl Hv]]].
  - rewrite Hsw. nia.
  - rewrite Hsh. nia.
  - rewrite Hsh. lia.
  - apply half_pixel_spec; try assumption; lia.
  - rewrite length_replicate, Hsw, Hsh. f_equal. rewrite u32_small by lia. lia.
  - rewrite Hsh in E. rewrite E. cbn [fmap option_fmap option_map].
    eexists. split; [reflexivity|]. split.
    + rewrite Hl, Hsw, Hsh. lia.
    + intros i j n Hi Hj Hn. rewrite Hsw, Hsh in Hv. rewrite Hv by assumption.
      unfold block. rewrite Hrow', Hbpp.
      destruct (block_bounds (input_bpp flg) (input_row flg wd) s_w s_h i j n)
        as (H0 & Hib & Hjr & H1); [lia | nia | lia..|].
      destruct (load_in_range from (2 * j * input_row flg wd + 2 * i * input_bpp flg + n))
        as [a Ea]; [nia|].
      destruct (load_in_range from (2 * j * input_row flg wd + (2 * i + 1) * input_bpp flg + n))
        as [b Eb]; [nia|].
      destruct (load_in_range from ((2 * j + 1) * input_row flg wd + 2 * i * input_bpp flg + n))
        as [c' Ec']; [nia|].
      destruct (load_in_range from
                  ((2 * j + 1) * input_row flg wd + (2 * i + 1) * input_bpp flg + n))
        as [d Ed]; [nia|].
      exists a, b, c', d. rewrite Ea, Eb, Ec', Ed. cbn [default from_option]. unfold id.
      destruct (average_bytes a b c' d) as [Hav Hsum]; [eapply load_byte; eassumption..|].
      repeat split; try reflexivity; [exact Hsum|].
      rewrite Hav. rewrite Z.shiftr_div_pow2 by lia. reflexivity.
Qed.

(** C7.  At scale 1.0 a BGRA stream leaves the scaler as BGR: for every
    frame of [ht] rows of [wd] pixels (rows padded when the stream is
    dword aligned) the call succeeds, the output has [3 * wd * ht] bytes,
    and byte [n] of output pixel [(i, j)] is byte [n] of input pixel
    [(i, j)]; the alpha bytes and the padding are gone.  The 2x1 frame of
    the scenario gives [10, 20, 30, 40, 50, 60]. *)
Theorem unit_scale_bgra_drops_alpha :
  (forall (flg wd ht : Z) (from : list Z),
     has_flag flg GLC_CTX_BGRA = true ->
     0 <= wd < 2 ^ 32 -> 0 <= ht < 2 ^ 32 ->
     input_row flg wd * ht < 2 ^ 32 ->
     Z.of_nat (length from) = input_row flg wd * ht ->
     exists out,
       scale_frame F64.one (ctx_msg flg wd ht) from = Some out
       /\ Z.of_nat (length out) = 3 * wd * ht
       /\ forall i j n, 0 <= i < wd -> 0 <= j < ht -> 0 <= n < 3 ->
            load out (3 * (j * wd + i) + n) = load from (j * input_row flg wd + 4 * i + n))
  /\ scale_frame F64.one (ctx_msg GLC_CTX_BGRA 2 1) [10; 20; 30; 255; 40; 50; 60; 128]
     = Some [10; 20; 30; 40; 50; 60].
Proof. split; [exact unit_scale_projects | reflexivity]. Qed.

Lemma unit_scale_bgra_drops_alpha_witness :
  input_row (GLC_CTX_BGRA + GLC_CTX_DWORD_ALIGNED) 1 = 8
  /\ exists out,
       scale_frame F64.one (ctx_msg (GLC_CTX_BGRA + GLC_CTX_DWORD_ALIGNED) 1 2)
         [1; 2; 3; 4; 0; 0; 0; 0; 5; 6; 7; 8; 0; 0; 0; 0] = Some out
       /\ Z.of_nat (length out) = 3 * 1 * 2
       /\ forall i j n, 0 <= i < 1 -> 0 <= j < 2 -> 0 <= n < 3 ->
            load out (3 * (j * 1 + i) + n)
            = load [1; 2; 3; 4; 0; 0; 0; 0; 5; 6; 7; 8; 0; 0; 0; 0]
                (j * input_row (GLC_CTX_BGRA + GLC_CTX_DWORD_ALIGNED) 1 + 4 * i + n).
Proof.
  split; [reflexivity|].
  apply (proj1 unit_scale_bgra_drops_alpha);
    [reflexivity | lia | lia | reflexivity | reflexivity].
Defined.

(** C8.  At scale 0.5 every byte of the output is the integer average
    [(a + b + c + d) >> 2] of the same channel of the four pixels of a
    2x2 block of the input; the sum is formed in an [int] and stays below
    [2^31].  The 2x2 frame of the scenario gives the pixel (15, 15, 15). *)
Theorem half_scale_averages_blocks :
  (forall (flg wd ht : Z) (from : list Z),
     has_flag flg GLC_CTX_BGRA = true \/ has_flag flg GLC_CTX_BGR = true ->
     0 <= wd < 2 ^ 32 -> 0 <= ht < 2 ^ 32 ->
     input_row flg wd * ht < 2 ^ 32 ->
     Z.of_nat (length from) = input_row flg wd * ht ->
     Forall (fun b => 0 <= b < 256) from ->
     exists out,
       scale_frame (F64.dyadic 1 1) (ctx_msg flg wd ht) from = Some out
       /\ Z.of_nat (length out) = 3 * (wd / 2) * (ht / 2)
       /\ forall i j n, 0 <= i < wd / 2 -> 0 <= j < ht / 2 -> 0 <= n < 3 ->
            exists a b c d,
              load from ((2 * j) * input_row flg wd + (2 * i) * input_bpp flg + n) = Some a
              /\ load from ((2 * j) * input_row flg wd + (2 * i + 1) * input_bpp flg + n)
                 = Some b
              /\ load from ((2 * j + 1) * input_row flg wd + (2 * i) * input_bpp flg + n)
                 = Some c
              /\ load from ((2 * j + 1) * input_row flg wd + (2 * i + 1) * input_bpp flg + n)
                 = Some d
              /\ a + b + c + d < 2 ^ 31
              /\ load out (3 * (j * (wd / 2) + i) + n) = Some (Z.shiftr (a + b + c + d) 2))
  /\ scale_frame (F64.dyadic 1 1) (ctx_msg GLC_CTX_BGR 2 2)
       [0; 0; 0; 10; 10; 10; 20; 20; 20; 30; 30; 30] = Some [15; 15; 15].
Proof. split; [exact half_scale_blocks | reflexivity]. Qed.

Lemma half_scale_averages_blocks_witness :
  exists out,
    scale_frame (F64.dyadic 1 1) (ctx_msg GLC_CTX_BGR 2 2)
      [0; 0; 0; 10; 10; 10; 20; 20; 20; 30; 30; 30] = Some out
    /\ Z.of_nat (length out) = 3 * (2 / 2) * (2 / 2)
    /\ forall i j n, 0 <= i < 2 / 2 -> 0 <= j < 2 / 2 -> 0 <= n < 3 ->
         exists a b c d,
           load [0; 0; 0; 10; 10; 10; 20; 20; 20; 30; 30; 30]
             ((2 * j) * input_row GLC_CTX_BGR 2 + (2 * i) * input_bpp GLC_CTX_BGR + n) = Some a
           /\ load [0; 0; 0; 10; 10; 10; 20; 20; 20; 30; 30; 30]
                ((2 * j) * input_row GLC_CTX_BGR 2 + (2 * i + 1) * input_bpp GLC_CTX_BGR + n)
              = Some b
           /\ load [0; 0; 0; 10; 10; 10; 20; 20; 20; 30; 30; 30]
                ((2 * j + 1) * input_row GLC_CTX_BGR 2 + (2 * i) * input_bpp GLC_CTX_BGR + n)
              = Some c
           /\ load [0; 0; 0; 10; 10; 10; 20; 20; 20; 30; 30; 30]
                ((2 * j + 1) * input_row GLC_CTX_BGR 2
                 + (2 * i + 1) * input_bpp GLC_CTX_BGR + n) = Some d
           /\ a + b + c + d < 2 ^ 31
           /\ load out (3 * (j * (2 / 2) + i) + n) = Some (Z.shiftr (a + b + c + d) 2).
Proof.
  apply (proj1 half_scale_averages_blocks);
    [right; reflexivity | lia | lia | reflexivity | reflexivity |].
  repeat (constructor; [lia|]). constructor.
Defined.

(** C5.  The generator is meant to pick a ratio that keeps every fetch
    inside the frame, and it does not.  For a 2x3 BGR stream scaled by
    0.75 the target is 1x2, the first ratio tried, [d = 2] at [r = 0],
    passes both tests ([d * (sh - 1) + 1 = 3] is not above [h = 3]), and
    the lower taps of target pixel (0, 1) are at row [2 + 1 = 3]: the
    offsets 18 and 21 stored in [pos] are at and past the end of the 18
    byte frame, and [scale_pic_msg] reads there: the third tap of that
    pixel is a fetch of [from[18]]. *)
Theorem bilinear_map_reads_past_frame :
  exists c,
    configure (F64.dyadic 3 2) (ctx_msg GLC_CTX_BGR 2 3) = Some c
    /\ (sw c, sh c, row c * h c) = (1, 2, 18)
    /\ ratio c 0 = F32.of_Z 2
    /\ overshoots (ratio c 0) (sh c) (h c) || overshoots (ratio c 0) (sw c) (w c) = false
    /\ load (pos c) 6 = Some 18
    /\ load (pos c) 7 = Some 21
    /\ tap c (replicate 18 7) 4 2 0 = None
    /\ scale_pic_msg c (replicate 18 7) (replicate 6 0) = None.
Proof.
  eexists. split; [vm_compute; reflexivity|].
  vm_compute. repeat split.
Qed.

(** C6.  The weights are meant to lie in [0, 1], and they do not.  The
    generator takes the integer part of the source column from [ofx],
    which it accumulates by repeated addition of [d], and the fraction
    from the product [x * d]; the two round differently.  For a 32x2 BGR
    stream scaled by 0.875 ([sw = 28], [d = 32 / 28]) and target pixel
    (21, 0) the sum is one ulp below 24, so the column is 23, and the
    product is one ulp above 24: [fx1] is above 1 and [fx0] below 0, and
    the weights stored at [factor[84]] and [factor[85]] are [- 2^-19]
    and [1 + 2^-19]. *)
Theorem bilinear_weight_out_of_range :
  exists c,
    configure (F64.dyadic 7 3) (ctx_msg GLC_CTX_BGR 32 2) = Some c
    /\ sw c = 28
    /\ load (factor c) (4 * 21 + 0) = Some (S754_finite true 8388608 (-42))
    /\ load (factor c) (4 * 21 + 1) = Some (S754_finite false 8388624 (-23))
    /\ SFltb (S754_finite true 8388608 (-42)) fzero = true
    /\ SFltb F32.one (S754_finite false 8388624 (-23)) = true
    /\ unit_weight (S754_finite true 8388608 (-42)) = false
    /\ unit_weight (S754_finite false 8388624 (-23)) = false.
Proof.
  eexists. split; [vm_compute; reflexivity|].
  vm_compute. repeat split.
Qed.

End ScaleFacts.

(** ** The tracker and the info sink *)

(** Every node of the tracker keeps the id 0 that [calloc] gave it, so a
    lookup of another id misses, and each VIDEO_FORMAT submission for a
    stream whose id is not 0 puts one more node at the head. *)
Lemma find_video_zero (l : list Tracker.tracker_video_s) (id : Z) :
  Forall (fun v => Tracker.tv_id v = 0) l -> id <> 0 -> Tracker.find_video l id = None.
Proof.
  intros Hall Hid. induction Hall as [|v l Hv _ IH]; cbn [Tracker.find_video]; [reflexivity|].
  rewrite Hv. destruct (0 =? id) eqn:E; [apply Z.eqb_eq in E; congruence|].
  rewrite IH. reflexivity.
Qed.

Lemma submit_video_format_grows (t : Tracker.tracker_s) (m : glc_video_format_message_t) :
  Forall (fun v => Tracker.tv_id v = 0) (Tracker.video_streams t) ->
  vfm_id m <> 0 ->
  Tracker.video_streams (Tracker.tracker_submit t (GLC_MESSAGE_VIDEO_FORMAT m))
  = Tracker.store_format m Tracker.calloc_video :: Tracker.video_streams t
  /\ Forall (fun v => Tracker.tv_id v = 0)
       (Tracker.video_streams (Tracker.tracker_submit t (GLC_MESSAGE_VIDEO_FORMAT m))).
Proof.
  intros Hall Hid. cbn [Tracker.tracker_submit]. unfold Tracker.tracker_get_video_stream.
  rewrite (find_video_zero _ _ Hall Hid). cbn [Tracker.video_streams alter list_alter].
  split; [reflexivity|]. constructor; [reflexivity | exact Hall].
Qed.

(** C1.  The tracker is meant to hold one VIDEO_FORMAT record per stream
    id, the latest one.  [tracker_get_video_stream] never stores the id in
    the node it allocates, so a stream whose id is not 0 is never found
    again: two VIDEO_FORMAT submissions for stream 1 leave two nodes, and
    a replay calls the callback twice for that stream, the later message
    first and the stale one after it. *)
Theorem tracker_duplicates_nonzero_stream :
  let t := Tracker.tracker_submit
             (Tracker.tracker_submit Tracker.tracker_init
                (GLC_MESSAGE_VIDEO_FORMAT (Tracker.fmt 1 640 480)))
             (GLC_MESSAGE_VIDEO_FORMAT (Tracker.fmt 1 800 600)) in
  Tracker.video_formats_of 1 (Tracker.replay t)
  = [Tracker.fmt 1 800 600; Tracker.fmt 1 640 480]
  /\ map Tracker.tv_id (Tracker.video_streams t) = [0; 0].
Proof. split; reflexivity. Qed.

(** What one frame adds to the tally of a BGR or BGRA stream, as long as
    the products do not wrap: the payload, and 8 bytes more per row when
    the stream is dword aligned and its rows need no padding. *)
Lemma frame_bytes_excess (v : Info.info_video_stream_s) :
  Info.format v = GLC_VIDEO_BGR \/ Info.format v = GLC_VIDEO_BGRA ->
  0 <= Info.w v -> 0 <= Info.h v ->
  Info.h v * (4 * Info.w v + 8) < 2 ^ 32 ->
  Info.frame_bytes v
  = Info.spec_payload_size (Info.format v) (Info.flags v) (Info.w v) (Info.h v)
    + (if has_flag (Info.flags v) GLC_VIDEO_DWORD_ALIGNED
          && (Info.w v * (if Info.format v =? GLC_VIDEO_BGRA then 4 else 3) mod 8 =? 0)
       then 8 * Info.h v else 0).
Proof.
  intros Hf Hw Hh Hb.
  unfold Info.frame_bytes, Info.spec_payload_size.
  assert (Hsmall : forall bpp, 3 <= bpp <= 4 ->
            u32 (Info.w v * Info.h v * bpp)
            + u32 (Info.h v * u32 (8 - u32 (Info.w v * bpp) mod 8))
            = Info.h v * (Info.w v * bpp + (8 - (Info.w v * bpp) mod 8))).
  { intros bpp Hbpp.
    pose proof (Z.mod_pos_bound (Info.w v * bpp) 8 ltac:(lia)) as Hm.
    assert (0 <= Info.w v * bpp) by nia.
    assert (0 <= Info.h v * (Info.w v * bpp)) by nia.
    assert (Info.h v * (Info.w v * bpp) <= Info.h v * (4 * Info.w v))
      by (apply Z.mul_le_mono_nonneg_l; nia).
    assert (0 <= Info.h v * 8) by lia.
    destruct (Z.eq_dec (Info.h v) 0) as [E0|E0].
    - rewrite E0, !Z.mul_0_r, !Z.mul_0_l. reflexivity.
    - assert (Info.w v * bpp < 2 ^ 32) by nia.
      rewrite (u32_small (Info.w v * bpp)) by lia.
      rewrite (u32_small (8 - _)) by lia.
      assert (0 <= Info.h v * (8 - (Info.w v * bpp) mod 8) <= Info.h v * 8)
        by (split; [nia | apply Z.mul_le_mono_nonneg_l; lia]).
      rewrite !u32_small by nia. lia. }
  assert (Hplain : forall bpp, 3 <= bpp <= 4 ->
            u32 (Info.w v * Info.h v * bpp) = Info.h v * (Info.w v * bpp)).
  { intros bpp Hbpp.
    assert (0 <= Info.h v * (Info.w v * bpp)) by nia.
    assert (Info.h v * (Info.w v * bpp) <= Info.h v * (4 * Info.w v))
      by (apply Z.mul_le_mono_nonneg_l; nia).
    rewrite u32_small by nia. lia. }
  destruct Hf as [Hf|Hf]; rewrite Hf; cbn [Z.eqb GLC_VIDEO_BGR GLC_VIDEO_BGRA
    GLC_VIDEO_YCBCR_420JPEG Pos.eqb];
    destruct (has_flag (Info.flags v) GLC_VIDEO_DWORD_ALIGNED); cbn [andb negb].
  - rewrite Hsmall by lia.
    destruct (Info.w v * 3 mod 8 =? 0) eqn:E; cbn [negb].
    + apply Z.eqb_eq in E. rewrite E. lia.
    + lia.
  - rewrite Hplain by lia. lia.
  - rewrite Hsmall by lia.
    destruct (Info.w v * 4 mod 8 =? 0) eqn:E; cbn [negb].
    + apply Z.eqb_eq in E. rewrite E. lia.
    + lia.
  - rewrite Hplain by lia. lia.
Qed.

(** C2.  The tally is meant to be the sum of the payload sizes, and it is
    not for a dword aligned stream whose rows need no padding: the code
    adds [h * (8 - (w * bpp) % 8)] without testing that the remainder is
    not 0, which is 8 more bytes per row.  One frame of a dword aligned
    2x1 BGRA stream has a payload of 8 bytes, as the producer computes it
    in [gl_capture_calc_geometry], and is tallied as 16. *)
Theorem info_tally_pads_aligned_rows :
  Info.tally (Info.info_process Info.aligned_bgra_2x1) 1 = 16
  /\ Info.spec_payload_size GLC_VIDEO_BGRA GLC_VIDEO_DWORD_ALIGNED 2 1 = 8
  /\ (let v := GlCapture.gl_capture_calc_geometry GlCapture.gl_capture_init
                 (GlCapture.new_stream (GlCapture.calm 0) 7 9) 2 1 in
      GlCapture.row v * GlCapture.ch v = 8).
Proof. repeat split; reflexivity. Qed.

(** ** The capture *)

Module CaptureFacts.
Import GlCapture.

(** *** Stop and drain *)




Lemma stop_when_stopped (g : gl_capture_s) (sleeps : list sleep) :
  has_flag (g_flags g) GL_CAPTURE_CAPTURING = false -> gl_capture_stop g sleeps = Some g.
Proof. intros H. unfold gl_capture_stop. rewrite H. reflexivity. Qed.

(** Nobody to clear a bit: the drain never ends. *)
Lemma clear_from_stuck (n : nat) :
  forall k l i v,
  length l = (k + n)%nat -> (k <= i)%nat -> l !! i = Some v -> capturing v = true ->
  clear_from n k [] l = None.
Proof.
  induction n as [|n IH]; intros k l i v Hlen Hki Hi Hc.
  - apply lookup_lt_Some in Hi. lia.
  - cbn [clear_from poll].
    destruct (l !! k) as [vk|] eqn:Ek; [|reflexivity].
    destruct (capturing vk) eqn:Eck; [reflexivity|]. cbn [mbind option_bind].
    assert (Hne : i <> k) by (intros ->; congruence).
    apply (IH (S k) _ i v).
    + rewrite length_alter. lia.
    + lia.
    + rewrite list_lookup_alter_ne by congruence. exact Hi.
    + exact Hc.
Qed.

Lemma stop_stuck (g : gl_capture_s) :
  has_flag (g_flags g) GL_CAPTURE_CAPTURING = true ->
  Exists (fun v => capturing v = true) (video g) ->
  gl_capture_stop g [] = None.
Proof.
  intros Hcap Hex. unfold gl_capture_stop, gl_capture_clear_video_streams. rewrite Hcap.
  cbn [video set_g_flags].
  apply Exists_exists in Hex. destruct Hex as [v [Hin Hc]].
  apply list_elem_of_lookup in Hin. destruct Hin as [i Hi].
  rewrite (clear_from_stuck _ 0%nat (video g) i v);
    [reflexivity | reflexivity | lia | exact Hi | exact Hc].
Qed.


(** C10.  With the component flag CAPTURING clear, [frame()] returns 0
    at once: the component is the same after the call, no node was made
    or touched and the buffer saw nothing. *)
Theorem frame_idle_when_stopped (g : gl_capture_s) (e : world) (d dr : Z) :
  has_flag (g_flags g) GL_CAPTURE_CAPTURING = false ->
  gl_capture_frame g e d dr = Some (0, g, []).
Proof. intros H. unfold gl_capture_frame. rewrite H. reflexivity. Qed.

Lemma frame_idle_when_stopped_witness :
  gl_capture_frame window_set (calm 5) 7 9 = Some (0, window_set, []).
Proof. apply frame_idle_when_stopped. reflexivity. Defined.




(** C9.  A setter that returns a nonzero code leaves the component as it
    was; the codes are those of the configuration errors. *)
Theorem setter_error_keeps_state (d2q : spec_float -> Z -> Z * Z)
  (divq : Z * Z -> Z * Z -> Z * Z) (c : call) (g g' : gl_capture_s) (ret : Z)
  (evs : list event) :
  is_setter c = true ->
  run d2q divq c g = Some (ret, g', evs) ->
  ret <> 0 ->
  g' = g /\ evs = [] /\ In ret [EALREADY; ENOTSUP; EINVAL; EAGAIN].
Proof.
  intros Hc. destruct c; try discriminate Hc; cbn [run]; unfold quiet.
  - unfold gl_capture_set_buffer. destruct (negb (to g =? 0)); cbn [fst snd];
      intros [= <- <- <-] Hr; [|contradiction]. cbn. auto 8.
  - unfold gl_capture_set_read_buffer.
    destruct ((buffer =? GL_FRONT) || (buffer =? GL_BACK)); cbn [fst snd];
      intros [= <- <- <-] Hr; [contradiction|]. cbn. auto 8.
  - unfold gl_capture_set_fps. destruct (SFleb fps fzero); [|destruct (snd _ =? 0)];
      cbn [mbind option_bind fst snd]; [| discriminate |];
      intros [= <- <- <-] Hr; [|contradiction]. cbn. auto 8.
  - unfold gl_capture_set_pack_alignment. destruct ((pa =? 1) || (pa =? 8)); cbn [fst snd];
      intros [= <- <- <-] Hr; [contradiction|]. cbn. auto 8.
  - unfold gl_capture_try_pbo. destruct (negb (on =? 0)); cbn [fst snd];
      [intros [= <- <- <-] Hr; contradiction|].
    destruct (has_flag (g_flags g) GL_CAPTURE_USE_PBO); cbn [fst snd];
      intros [= <- <- <-] Hr; [|contradiction]. cbn. auto 8.
  - unfold gl_capture_set_pixel_format. destruct ((fm =? GL_BGRA) || (fm =? GL_BGR));
      cbn [fst snd]; intros [= <- <- <-] Hr; [contradiction|]. cbn. auto 8.
Qed.

Lemma setter_error_keeps_state_witness :
  run (fun _ _ => (1, 1)) (fun a _ => a) (SetPixelFormat 0) started = Some (ENOTSUP, started, [])
  /\ In ENOTSUP [EALREADY; ENOTSUP; EINVAL; EAGAIN].
Proof.
  split; [reflexivity|].
  apply (setter_error_keeps_state (fun _ _ => (1, 1)) (fun a _ => a) (SetPixelFormat 0)
           started started ENOTSUP []); [reflexivity | reflexivity | discriminate].
Defined.

(** *** The schedule of [frame()] *)

Lemma update_without_pbo g e v :
  has_flag (g_flags g) GL_CAPTURE_USE_PBO = false ->
  has_flag (g_flags g) GL_CAPTURE_TRY_PBO = false ->
  fst (fst (gl_capture_update_video_stream g e v)) = g.
Proof.
  intros Hu Ht. unfold gl_capture_update_video_stream. rewrite Hu, Ht. cbn [negb andb].
  destruct (if negb (e_geom_w e
                     =? w (if format v =? 0 then gl_capture_init_video_format g e v else v))
               || negb (e_geom_h e
                        =? h (if format v =? 0 then gl_capture_init_video_format g e v else v))
            then _ else _) as [v2 ev1].
  destruct (if has_flag (flags v2) GLC_VIDEO_NEED_COLOR_UPDATE then _ else _) as [v3 ev2].
  reflexivity.
Qed.

(** The four calls of the pacing scenario, on the component they find. *)
Lemma calm_frame_first t :
  33333333 <= t < 2 ^ 64 ->
  exists evs, gl_capture_frame started (calm t) 7 9 = Some (0, after_first, evs)
              /\ existsb is_frame evs = true.
Proof.
  intros Ht. unfold gl_capture_frame. cbv -[too_early].
  match goal with |- context [too_early ?g ?v ?n] => assert (E : too_early g v n = false) end.
  { unfold too_early. cbn [andb negb last fps_period].
    rewrite Z.sub_0_r, u64_small by lia.
    destruct (t <? 33333333) eqn:E; [lia | reflexivity]. }
  rewrite E. eexists. split; reflexivity.
Qed.

Lemma calm_frame_dropped t :
  33333333 <= t < 66666666 ->
  gl_capture_frame after_first (calm t) 7 9 = Some (0, after_first, []).
Proof.
  intros Ht. unfold gl_capture_frame. cbv -[too_early].
  match goal with |- context [too_early ?g ?v ?n] => assert (E : too_early g v n = true) end.
  { unfold too_early. cbn [andb negb last fps_period].
    rewrite u64_small by lia.
    destruct (t - 33333333 <? 33333333) eqn:E; [reflexivity | lia]. }
  rewrite E. reflexivity.
Qed.

Lemma calm_frame_second t :
  66666666 <= t < 2 ^ 64 ->
  exists evs, gl_capture_frame after_first (calm t) 7 9 = Some (0, after_second, evs)
              /\ existsb is_frame evs = true.
Proof.
  intros Ht. unfold gl_capture_frame. cbv -[too_early].
  match goal with |- context [too_early ?g ?v ?n] => assert (E : too_early g v n = false) end.
  { unfold too_early. cbn [andb negb last fps_period].
    rewrite u64_small by lia.
    destruct (t - 33333333 <? 33333333) eqn:E; [lia | reflexivity]. }
  rewrite E. eexists. split; reflexivity.
Qed.

Lemma calm_frame_third t :
  99999999 <= t < 2 ^ 64 ->
  exists evs, gl_capture_frame after_second (calm t) 7 9 = Some (0, after_third, evs)
              /\ existsb is_frame evs = true.
Proof.
  intros Ht. unfold gl_capture_frame. cbv -[too_early].
  match goal with |- context [too_early ?g ?v ?n] => assert (E : too_early g v n = false) end.
  { unfold too_early. cbn [andb negb last fps_period].
    rewrite u64_small by lia.
    destruct (t - 66666666 <? 33333333) eqn:E; [lia | reflexivity]. }
  rewrite E. eexists. split; reflexivity.
Qed.

Lemma pacing_window t0 :
  33333333 <= t0 < 56666666 ->
  pacing started 7 9 [t0; t0 + 10000000; t0 + 40000000; t0 + 70000000]
  = Some [true; false; true; true].
Proof.
  intros Ht. cbn [pacing].
  destruct (calm_frame_first t0) as [e1 [E1 B1]]; [lia|].
  rewrite E1. cbn [mbind option_bind].
  rewrite calm_frame_dropped by lia. cbn [mbind option_bind].
  destruct (calm_frame_second (t0 + 40000000)) as [e3 [E3 B3]]; [lia|].
  rewrite E3. cbn [mbind option_bind].
  destruct (calm_frame_third (t0 + 70000000)) as [e4 [E4 B4]]; [lia|].
  rewrite E4. cbn [mbind option_bind].
  rewrite B1, B3, B4. reflexivity.
Qed.

(** C3 as stated fails.  [last_publish_time] starts at 0 and moves on by
    one period (and the rational fix) for each published frame, whatever
    the time of the call: with a first call one second after the clock
    started, all four calls of the scenario publish a frame, and with a
    first call at time 0 the first call publishes none.  A call past the
    period publishes no frame when the buffer is busy, or when it only
    starts the first PBO transfer. *)
Lemma frame_pacing_late_start :
  pacing started 7 9 [1000000000; 1010000000; 1040000000; 1070000000]
  = Some [true; true; true; true]
  /\ pacing started 7 9 [0; 10000000; 40000000; 70000000] = Some [false; false; true; true]
  /\ emits (gl_capture_frame started (busy 1000000000) 7 9) = Some false
  /\ emits (gl_capture_frame (snd (gl_capture_try_pbo started 1)) (with_pbo 1000000000) 7 9)
     = Some false.
Proof. repeat split; vm_compute; reflexivity. Qed.

End CaptureFacts.

(** ** More on the tracker *)

Module TrackerFacts.
Import Tracker.

Lemma tracker_of_snoc (msgs : list glc_message) (m : glc_message) :
  tracker_of (msgs ++ [m]) = tracker_submit (tracker_of msgs) m.
Proof. unfold tracker_of. rewrite fold_left_app. reflexivity. Qed.

Lemma find_audio_zero (l : list tracker_audio_s) (id : Z) :
  Forall (fun a => ta_id a = 0) l -> id <> 0 -> find_audio l id = None.
Proof.
  intros Hall Hid. induction Hall as [|a l Ha _ IH]; cbn [find_audio]; [reflexivity|].
  rewrite Ha. destruct (0 =? id) eqn:E; [apply Z.eqb_eq in E; congruence|].
  rewrite IH. reflexivity.
Qed.

Lemma Forall_alter_keeps {A} (P : A -> Prop) (f : A -> A) (k : nat) (l : list A) :
  (forall x, P x -> P (f x)) -> Forall P l -> Forall P (alter f k l).
Proof.
  intros Hf Hl. revert k. induction Hl as [|x l Hx Hl IH]; intros k.
  - destruct k; constructor.
  - destruct k as [|k]; cbn [alter list_alter].
    + constructor; [apply Hf; exact Hx | exact Hl].
    + constructor; [exact Hx | apply IH].
Qed.

Lemma submit_keeps_zero_ids (t : tracker_s) (m : glc_message) :
  Forall (fun v => tv_id v = 0) (video_streams t) ->
  Forall (fun a => ta_id a = 0) (audio_streams t) ->
  Forall (fun v => tv_id v = 0) (video_streams (tracker_submit t m))
  /\ Forall (fun a => ta_id a = 0) (audio_streams (tracker_submit t m)).
Proof.
  intros Hv Ha. destruct m; cbn [tracker_submit]; try (split; assumption).
  - unfold tracker_get_video_stream.
    destruct (find_video (video_streams t) (vfm_id m)); cbn [video_streams audio_streams].
    + split; [|exact Ha]. apply Forall_alter_keeps; [intros x Hx; exact Hx | exact Hv].
    + split; [|exact Ha]. constructor; [reflexivity | exact Hv].
  - unfold tracker_get_audio_stream.
    destruct (find_audio (audio_streams t) (afm_id m)); cbn [video_streams audio_streams].
    + split; [exact Hv|]. apply Forall_alter_keeps; [intros x Hx; exact Hx | exact Ha].
    + split; [exact Hv|]. constructor; [reflexivity | exact Ha].
  - unfold tracker_get_video_stream.
    destruct (find_video (video_streams t) (clr_id m)); cbn [video_streams audio_streams].
    + split; [|exact Ha]. apply Forall_alter_keeps; [intros x Hx; exact Hx | exact Hv].
    + split; [|exact Ha]. constructor; [reflexivity | exact Hv].
Qed.

Lemma ids_zero (msgs : list glc_message) :
  Forall (fun v => tv_id v = 0) (video_streams (tracker_of msgs))
  /\ Forall (fun a => ta_id a = 0) (audio_streams (tracker_of msgs)).
Proof.
  induction msgs as [|m msgs IH] using rev_ind.
  - split; constructor.
  - rewrite tracker_of_snoc. destruct IH as [Hv Ha]. apply submit_keeps_zero_ids; assumption.
Qed.

(** No node of the tracker ever carries the id of its stream: whatever
    was submitted, the [id] field of every video node and of every audio
    node is the 0 that [calloc] left there. *)
Theorem tracker_ids_stay_zero (msgs : list glc_message) :
  Forall (fun v => tv_id v = 0) (video_streams (tracker_of msgs))
  /\ Forall (fun a => ta_id a = 0) (audio_streams (tracker_of msgs)).
Proof. exact (ids_zero msgs). Qed.

(** An AUDIO_FORMAT message for a stream whose id is not 0 never finds
    the node of an earlier one: each submission puts a new node at the
    head of the audio list, and the older records of the stream stay
    behind it. *)
Theorem tracker_audio_format_grows (msgs : list glc_message) (m : glc_audio_format_message_t) :
  afm_id m <> 0 ->
  audio_streams (tracker_of (msgs ++ [GLC_MESSAGE_AUDIO_FORMAT m]))
  = store_audio_format m calloc_audio :: audio_streams (tracker_of msgs)
  /\ video_streams (tracker_of (msgs ++ [GLC_MESSAGE_AUDIO_FORMAT m]))
     = video_streams (tracker_of msgs).
Proof.
  intros Hid. rewrite tracker_of_snoc. cbn [tracker_submit].
  unfold tracker_get_audio_stream.
  rewrite (find_audio_zero _ _ (proj2 (ids_zero msgs)) Hid).
  cbn [video_streams audio_streams alter list_alter]. split; reflexivity.
Qed.

Lemma tracker_audio_format_grows_witness :
  audio_streams (tracker_of ([GLC_MESSAGE_AUDIO_FORMAT
                                {| afm_id := 3; afm_flags := 0; afm_rate := 44100;
                                   afm_channels := 2; afm_format := 1 |}]
                             ++ [GLC_MESSAGE_AUDIO_FORMAT
                                   {| afm_id := 3; afm_flags := 0; afm_rate := 48000;
                                      afm_channels := 2; afm_format := 1 |}]))
  = store_audio_format {| afm_id := 3; afm_flags := 0; afm_rate := 48000;
                          afm_channels := 2; afm_format := 1 |} calloc_audio
    :: audio_streams (tracker_of [GLC_MESSAGE_AUDIO_FORMAT
                                    {| afm_id := 3; afm_flags := 0; afm_rate := 44100;
                                       afm_channels := 2; afm_format := 1 |}]).
Proof.
  apply (tracker_audio_format_grows
           [GLC_MESSAGE_AUDIO_FORMAT {| afm_id := 3; afm_flags := 0; afm_rate := 44100;
                                        afm_channels := 2; afm_format := 1 |}]
           {| afm_id := 3; afm_flags := 0; afm_rate := 48000;
              afm_channels := 2; afm_format := 1 |}).
  cbn. lia.
Defined.

Lemma find_video_head_zero (v : tracker_video_s) (l : list tracker_video_s) :
  tv_id v = 0 -> find_video (v :: l) 0 = Some 0%nat.
Proof. intros Hv. cbn [find_video]. rewrite Hv. reflexivity. Qed.

(** A message of video stream 0 is stored in the node at the head of the
    list, the one made last, whatever stream it was made for: a
    VIDEO_FORMAT of stream 0 replaces the format held there, and a COLOR
    of stream 0 the colour.  On an empty list it makes the first node. *)
Theorem tracker_stream_zero_takes_head (msgs : list glc_message) :
  (forall (m : glc_video_format_message_t) v l,
     vfm_id m = 0 ->
     video_streams (tracker_of msgs) = v :: l ->
     video_streams (tracker_of (msgs ++ [GLC_MESSAGE_VIDEO_FORMAT m])) = store_format m v :: l)
  /\ (forall (m : glc_color_message_t) v l,
        clr_id m = 0 ->
        video_streams (tracker_of msgs) = v :: l ->
        video_streams (tracker_of (msgs ++ [GLC_MESSAGE_COLOR m])) = store_color m v :: l)
  /\ (forall (m : glc_video_format_message_t),
        vfm_id m = 0 ->
        video_streams (tracker_of msgs) = [] ->
        video_streams (tracker_of (msgs ++ [GLC_MESSAGE_VIDEO_FORMAT m]))
        = [store_format m calloc_video]).
Proof.
  pose proof (proj1 (ids_zero msgs)) as Hz.
  split; [|split].
  - intros m v l Hm Hl. rewrite tracker_of_snoc. cbn [tracker_submit].
    unfold tracker_get_video_stream. rewrite Hl in *. rewrite Hm.
    rewrite find_video_head_zero by (inversion Hz; assumption).
    cbn [video_streams]. rewrite Hl. reflexivity.
  - intros m v l Hm Hl. rewrite tracker_of_snoc. cbn [tracker_submit].
    unfold tracker_get_video_stream. rewrite Hl in *. rewrite Hm.
    rewrite find_video_head_zero by (inversion Hz; assumption).
    cbn [video_streams]. rewrite Hl. reflexivity.
  - intros m Hm Hl. rewrite tracker_of_snoc. cbn [tracker_submit].
    unfold tracker_get_video_stream. rewrite Hl. cbn [find_video video_streams].
    reflexivity.
Qed.

Lemma tracker_stream_zero_takes_head_witness :
  video_streams (tracker_of ([GLC_MESSAGE_VIDEO_FORMAT (fmt 5 640 480)]
                             ++ [GLC_MESSAGE_VIDEO_FORMAT (fmt 0 800 600)]))
  = [store_format (fmt 0 800 600) (store_format (fmt 5 640 480) calloc_video)].
Proof.
  apply (proj1 (tracker_stream_zero_takes_head [GLC_MESSAGE_VIDEO_FORMAT (fmt 5 640 480)])
           (fmt 0 800 600) (store_format (fmt 5 640 480) calloc_video) []);
    reflexivity.
Defined.

Lemma iterate_video_visit {A} (cb : glc_message -> A -> Z * A) (l : list tracker_video_s)
  (rest : list glc_message) (arg : A) :
  visit cb (flat_map video_records l ++ rest) arg
  = (let '(ret, arg1) := iterate_video cb l arg in
     if negb (ret =? 0) then (ret, arg1) else visit cb rest arg1).
Proof.
  revert arg. induction l as [|v l IH]; intros arg; cbn [flat_map iterate_video app].
  - reflexivity.
  - unfold video_records.
    destruct (has_flag (tv_flags v) TRACKER_VIDEO_FORMAT);
      destruct (has_flag (tv_flags v) TRACKER_VIDEO_COLOR); cbn [app visit].
    + destruct (cb (GLC_MESSAGE_VIDEO_FORMAT (tv_format v)) arg) as [r1 a1].
      destruct (negb (r1 =? 0)) eqn:E1; [rewrite E1; reflexivity|].
      destruct (cb (GLC_MESSAGE_COLOR (tv_color v)) a1) as [r2 a2].
      destruct (negb (r2 =? 0)) eqn:E2; [rewrite E2; reflexivity|].
      apply IH.
    + destruct (cb (GLC_MESSAGE_VIDEO_FORMAT (tv_format v)) arg) as [r1 a1].
      destruct (negb (r1 =? 0)) eqn:E1; [rewrite E1; reflexivity|].
      cbn [Z.eqb negb]. apply IH.
    + cbn [Z.eqb negb].
      destruct (cb (GLC_MESSAGE_COLOR (tv_color v)) arg) as [r2 a2].
      destruct (negb (r2 =? 0)) eqn:E2; [rewrite E2; reflexivity|].
      apply IH.
    + cbn [Z.eqb negb]. apply IH.
Qed.

Lemma iterate_audio_visit {A} (cb : glc_message -> A -> Z * A) (l : list tracker_audio_s)
  (arg : A) :
  visit cb (flat_map audio_records l) arg = iterate_audio cb l arg.
Proof.
  revert arg. induction l as [|a l IH]; intros arg; cbn [flat_map iterate_audio].
  - reflexivity.
  - unfold audio_records. destruct (has_flag (ta_flags a) TRACKER_AUDIO_FORMAT); cbn [app visit].
    + destruct (cb (GLC_MESSAGE_AUDIO_FORMAT (ta_format a)) arg) as [r1 a1].
      destruct (negb (r1 =? 0)); [reflexivity | apply IH].
    + cbn [Z.eqb negb]. apply IH.
Qed.

(** [tracker_iterate_state] hands the callback the records of the video
    nodes, newest node first and the format of a node before its colour,
    and then those of the audio nodes; it stops at the first call that
    returns a nonzero code and returns that code, else it returns 0.  With
    a callback that never refuses, the replay is the list of the records. *)
Theorem tracker_iterate_visits_records :
  (forall (A : Type) (cb : glc_message -> A -> Z * A) (t : tracker_s) (arg : A),
     tracker_iterate_state cb t arg = visit cb (records t) arg)
  /\ (forall t : tracker_s, replay t = records t).
Proof.
  assert (H : forall (A : Type) (cb : glc_message -> A -> Z * A) (t : tracker_s) (arg : A),
             tracker_iterate_state cb t arg = visit cb (records t) arg).
  { intros A cb t arg. unfold tracker_iterate_state, records.
    rewrite iterate_video_visit.
    destruct (iterate_video cb (video_streams t) arg) as [ret arg1].
    destruct (negb (ret =? 0)); [reflexivity|]. symmetry. apply iterate_audio_visit. }
  split; [exact H|].
  intros t. unfold replay. rewrite H.
  assert (G : forall l log, visit record_callback l log = (0, log ++ l)).
  { induction l as [|m l IH]; intros log; cbn [visit].
    - rewrite app_nil_r. reflexivity.
    - unfold record_callback at 1. cbn [Z.eqb negb]. rewrite IH, <- app_assoc. reflexivity. }
  rewrite G. reflexivity.
Qed.

End TrackerFacts.

(** ** More on the info sink *)

Module InfoFacts.
Import Info.

Lemma video_node_cons (v : info_video_stream_s) (l : list info_video_stream_s) (i : Z) :
  video_node (v :: l) i = if id v =? i then Some v else video_node l i.
Proof.
  unfold video_node. cbn [find_video]. destruct (id v =? i); [reflexivity|].
  destruct (find_video l i); reflexivity.
Qed.

Lemma audio_node_cons (a : info_audio_stream_s) (l : list info_audio_stream_s) (i : Z) :
  audio_node (a :: l) i = if a_id a =? i then Some a else audio_node l i.
Proof.
  unfold audio_node. cbn [find_audio]. destruct (a_id a =? i); [reflexivity|].
  destruct (find_audio l i); reflexivity.
Qed.

Lemma find_video_none (l : list info_video_stream_s) (i : Z) :
  find_video l i = None -> video_node l i = None /\ ~ In i (map id l).
Proof.
  induction l as [|v l IH]; cbn [find_video map In]; [intros _; split; [reflexivity | tauto]|].
  destruct (id v =? i) eqn:E; [discriminate|].
  destruct (find_video l i) eqn:F; [discriminate|]. intros _.
  destruct (IH eq_refl) as [H1 H2]. rewrite video_node_cons, E. split; [exact H1|].
  apply Z.eqb_neq in E. tauto.
Qed.

Lemma find_audio_none (l : list info_audio_stream_s) (i : Z) :
  find_audio l i = None -> audio_node l i = None /\ ~ In i (map a_id l).
Proof.
  induction l as [|a l IH]; cbn [find_audio map In]; [intros _; split; [reflexivity | tauto]|].
  destruct (a_id a =? i) eqn:E; [discriminate|].
  destruct (find_audio l i) eqn:F; [discriminate|]. intros _.
  destruct (IH eq_refl) as [H1 H2]. rewrite audio_node_cons, E. split; [exact H1|].
  apply Z.eqb_neq in E. tauto.
Qed.

Lemma find_video_some (l : list info_video_stream_s) (i : Z) (k : nat) :
  find_video l i = Some k -> exists v, l !! k = Some v /\ id v = i.
Proof.
  revert k. induction l as [|v l IH]; intros k; cbn [find_video]; [discriminate|].
  destruct (id v =? i) eqn:E.
  - intros [= <-]. exists v. split; [reflexivity | apply Z.eqb_eq; exact E].
  - destruct (find_video l i) as [k'|]; [|discriminate]. intros [= <-].
    destruct (IH k' eq_refl) as (v' & H1 & H2). exists v'. split; assumption.
Qed.

Lemma find_audio_some (l : list info_audio_stream_s) (i : Z) (k : nat) :
  find_audio l i = Some k -> exists a, l !! k = Some a /\ a_id a = i.
Proof.
  revert k. induction l as [|v l IH]; intros k; cbn [find_audio]; [discriminate|].
  destruct (a_id v =? i) eqn:E.
  - intros [= <-]. exists v. split; [reflexivity | apply Z.eqb_eq; exact E].
  - destruct (find_audio l i) as [k'|]; [|discriminate]. intros [= <-].
    destruct (IH k' eq_refl) as (v' & H1 & H2). exists v'. split; assumption.
Qed.

(** Updating the node found for stream [j] updates what a lookup of [j]
    gives and leaves every other stream as it was. *)
Lemma video_node_alter (f : info_video_stream_s -> info_video_stream_s)
  (l : list info_video_stream_s) (j i : Z) (k : nat) :
  (forall v, id (f v) = id v) ->
  find_video l j = Some k ->
  video_node (alter f k l) i = (if i =? j then f <$> video_node l j else video_node l i)
  /\ map id (alter f k l) = map id l.
Proof.
  intros Hf. revert k. induction l as [|v l IH]; intros k; cbn [find_video]; [discriminate|].
  destruct (id v =? j) eqn:E.
  - intros [= <-]. cbn [alter list_alter map]. rewrite !video_node_cons, Hf, E.
    apply Z.eqb_eq in E. split; [|reflexivity].
    destruct (i =? j) eqn:E2.
    + apply Z.eqb_eq in E2. subst i. rewrite E, Z.eqb_refl. reflexivity.
    + destruct (id v =? i) eqn:E3; [|reflexivity].
      apply Z.eqb_eq in E3. apply Z.eqb_neq in E2. congruence.
  - destruct (find_video l j) as [k'|] eqn:F; [|discriminate]. intros [= <-].
    cbn [alter list_alter map]. destruct (IH k' eq_refl) as [H1 H2].
    rewrite !video_node_cons, E, H1, H2. split; [|reflexivity].
    destruct (id v =? i) eqn:E3; [|reflexivity].
    destruct (i =? j) eqn:E2; [|reflexivity].
    apply Z.eqb_eq in E3. apply Z.eqb_eq in E2. apply Z.eqb_neq in E. congruence.
Qed.

Lemma audio_node_alter (f : info_audio_stream_s -> info_audio_stream_s)
  (l : list info_audio_stream_s) (j i : Z) (k : nat) :
  (forall a, a_id (f a) = a_id a) ->
  find_audio l j = Some k ->
  audio_node (alter f k l) i = (if i =? j then f <$> audio_node l j else audio_node l i)
  /\ map a_id (alter f k l) = map a_id l.
Proof.
  intros Hf. revert k. induction l as [|v l IH]; intros k; cbn [find_audio]; [discriminate|].
  destruct (a_id v =? j) eqn:E.
  - intros [= <-]. cbn [alter list_alter map]. rewrite !audio_node_cons, Hf, E.
    apply Z.eqb_eq in E. split; [|reflexivity].
    destruct (i =? j) eqn:E2.
    + apply Z.eqb_eq in E2. subst i. rewrite E, Z.eqb_refl. reflexivity.
    + destruct (a_id v =? i) eqn:E3; [|reflexivity].
      apply Z.eqb_eq in E3. apply Z.eqb_neq in E2. congruence.
  - destruct (find_audio l j) as [k'|] eqn:F; [|discriminate]. intros [= <-].
    cbn [alter list_alter map]. destruct (IH k' eq_refl) as [H1 H2].
    rewrite !audio_node_cons, E, H1, H2. split; [|reflexivity].
    destruct (a_id v =? i) eqn:E3; [|reflexivity].
    destruct (i =? j) eqn:E2; [|reflexivity].
    apply Z.eqb_eq in E3. apply Z.eqb_eq in E2. apply Z.eqb_neq in E. congruence.
Qed.

(** The node [info_get_video_stream] hands out, updated by [f]. *)
Lemma video_get_alter (f : info_video_stream_s -> info_video_stream_s)
  (l : list info_video_stream_s) (j i : Z) :
  (forall v, id (f v) = id v) ->
  NoDup (map id l) ->
  let '(k, l1) := info_get_video_stream l j in
  video_node (alter f k l1) i
  = (if i =? j then Some (f (default (calloc_video j) (video_node l j))) else video_node l i)
  /\ NoDup (map id (alter f k l1)).
Proof.
  intros Hf Hnd. unfold info_get_video_stream.
  destruct (find_video l j) as [k|] eqn:F.
  - destruct (video_node_alter f l j i k Hf F) as [H1 H2]. rewrite H1, H2.
    split; [|exact Hnd]. destruct (i =? j); [|reflexivity].
    unfold video_node. rewrite F. cbn [mbind option_bind].
    destruct (find_video_some l j k F) as (v & Hv & _). rewrite Hv. reflexivity.
  - destruct (find_video_none l j F) as [Hn Hin].
    cbn [alter list_alter map]. rewrite video_node_cons, Hf. cbn [id calloc_video].
    rewrite Hn. cbn [default from_option].
    split; [|apply NoDup_cons_2; [rewrite list_elem_of_In; exact Hin | exact Hnd]].
    rewrite (Z.eqb_sym j i). destruct (i =? j); reflexivity.
Qed.

Lemma audio_get_alter (f : info_audio_stream_s -> info_audio_stream_s)
  (l : list info_audio_stream_s) (j i : Z) :
  (forall a, a_id (f a) = a_id a) ->
  NoDup (map a_id l) ->
  let '(k, l1) := info_get_audio_stream l j in
  audio_node (alter f k l1) i
  = (if i =? j then Some (f (default (calloc_audio j) (audio_node l j))) else audio_node l i)
  /\ NoDup (map a_id (alter f k l1)).
Proof.
  intros Hf Hnd. unfold info_get_audio_stream.
  destruct (find_audio l j) as [k|] eqn:F.
  - destruct (audio_node_alter f l j i k Hf F) as [H1 H2]. rewrite H1, H2.
    split; [|exact Hnd]. destruct (i =? j); [|reflexivity].
    unfold audio_node. rewrite F. cbn [mbind option_bind].
    destruct (find_audio_some l j k F) as (v & Hv & _). rewrite Hv. reflexivity.
  - destruct (find_audio_none l j F) as [Hn Hin].
    cbn [alter list_alter map]. rewrite audio_node_cons, Hf. cbn [a_id calloc_audio].
    rewrite Hn. cbn [default from_option].
    split; [|apply NoDup_cons_2; [rewrite list_elem_of_In; exact Hin | exact Hnd]].
    rewrite (Z.eqb_sym j i). destruct (i =? j); reflexivity.
Qed.

Lemma count_frame_id lvl t v : id (count_frame lvl t v) = id v.
Proof. unfold count_frame. destruct (_ && _); reflexivity. Qed.

(** One message: the lists keep distinct ids, and the nodes after it. *)
Lemma callback_step (info : info_s) (m : glc_message) (i : Z) :
  NoDup (map id (video_list info)) -> NoDup (map a_id (audio_list info)) ->
  NoDup (map id (video_list (info_read_callback info m)))
  /\ NoDup (map a_id (audio_list (info_read_callback info m)))
  /\ video_node (video_list (info_read_callback info m)) i
     = match m with
       | GLC_MESSAGE_VIDEO_FORMAT f =>
           if i =? vfm_id f
           then Some (set_format f (default (calloc_video (vfm_id f))
                                      (video_node (video_list info) (vfm_id f))))
           else video_node (video_list info) i
       | GLC_MESSAGE_VIDEO_FRAME hd =>
           if i =? vfh_id hd
           then Some (count_frame (level info) (vfh_time hd)
                        (default (calloc_video (vfh_id hd))
                           (video_node (video_list info) (vfh_id hd))))
           else video_node (video_list info) i
       | _ => video_node (video_list info) i
       end
  /\ audio_node (audio_list (info_read_callback info m)) i
     = match m with
       | GLC_MESSAGE_AUDIO_DATA hd =>
           if i =? adh_id hd
           then Some (count_packet (adh_size hd)
                        (default (calloc_audio (adh_id hd))
                           (audio_node (audio_list info) (adh_id hd))))
           else audio_node (audio_list info) i
       | _ => audio_node (audio_list info) i
       end.
Proof.
  intros Hv Ha. destruct m as [|hd|fm|af|hd|cl|ty]; cbn [info_read_callback];
    try (repeat split; assumption).
  - unfold video_frame_info.
    pose proof (video_get_alter (count_frame (level info) (vfh_time hd)) (video_list info)
                  (vfh_id hd) i (count_frame_id _ _) Hv) as H.
    destruct (info_get_video_stream (video_list info) (vfh_id hd)) as [k l].
    cbn [video_list audio_list]. destruct H as [H1 H2]. repeat split; assumption.
  - unfold video_format_info.
    pose proof (video_get_alter (set_format fm) (video_list info)
                  (vfm_id fm) i (fun v => eq_refl) Hv) as H.
    destruct (info_get_video_stream (video_list info) (vfm_id fm)) as [k l].
    cbn [video_list audio_list]. destruct H as [H1 H2]. repeat split; assumption.
  - unfold audio_data_info.
    pose proof (audio_get_alter (count_packet (adh_size hd)) (audio_list info)
                  (adh_id hd) i (fun a => eq_refl) Ha) as H.
    destruct (info_get_audio_stream (audio_list info) (adh_id hd)) as [k l].
    cbn [video_list audio_list]. destruct H as [H1 H2]. repeat split; assumption.
Qed.

Lemma info_process_snoc (msgs : list glc_message) (m : glc_message) :
  info_process (msgs ++ [m]) = info_read_callback (info_process msgs) m.
Proof. unfold info_process. rewrite fold_left_app. reflexivity. Qed.

Lemma ids_unique (msgs : list glc_message) :
  NoDup (map id (video_list (info_process msgs)))
  /\ NoDup (map a_id (audio_list (info_process msgs))).
Proof.
  induction msgs as [|m msgs IH] using rev_ind.
  - split; constructor.
  - rewrite info_process_snoc. destruct IH as [Hv Ha].
    destruct (callback_step (info_process msgs) m 0 Hv Ha) as (H1 & H2 & _). split; assumption.
Qed.

(** Unlike the tracker, the info sink stores the id in the node it
    allocates: whatever the messages, no two video nodes and no two audio
    nodes carry the same id. *)
Theorem info_ids_unique (msgs : list glc_message) :
  NoDup (map id (video_list (info_process msgs)))
  /\ NoDup (map a_id (audio_list (info_process msgs))).
Proof. exact (ids_unique msgs). Qed.

Lemma u64_succ (z : Z) : u64 (u64 z + 1) = u64 (z + 1).
Proof. unfold u64. apply Zplus_mod_idemp_l. Qed.

Lemma u64_add_l (a b : Z) : u64 (u64 a + b) = u64 (a + b).
Proof. unfold u64. apply Zplus_mod_idemp_l. Qed.

Lemma count_frame_pictures lvl t v : pictures (count_frame lvl t v) = u64 (pictures v + 1).
Proof. unfold count_frame. destruct (_ && _); reflexivity. Qed.

(** The frame counter of a stream is the number of VIDEO_FRAME messages
    that carried its id, modulo [2^64]; a VIDEO_FORMAT message, also one
    that changes the geometry of the stream, and the messages of other
    streams leave it alone. *)
Theorem info_counts_pictures (msgs : list glc_message) (i : Z) :
  pictures_of (info_process msgs) i
  = u64 (Z.of_nat (length (filter (fun m => is_frame_of i m = true) msgs))).
Proof.
  induction msgs as [|m msgs IH] using rev_ind; [reflexivity|].
  rewrite info_process_snoc, filter_app, length_app, Nat2Z.inj_add.
  destruct (ids_unique msgs) as [Hv Ha].
  destruct (callback_step (info_process msgs) m i Hv Ha) as (_ & _ & Hn & _).
  unfold pictures_of in *. rewrite Hn.
  destruct m as [|hd|fm|af|hd|cl|ty]; cbn [is_frame_of filter list_filter length];
    rewrite ?Z.add_0_r; try exact IH.
  - rewrite (Z.eqb_sym (vfh_id hd) i). destruct (i =? vfh_id hd) eqn:E.
    + apply Z.eqb_eq in E. subst i.
      rewrite decide_True by reflexivity. cbn [from_option length].
      rewrite count_frame_pictures.
      destruct (video_node (video_list (info_process msgs)) (vfh_id hd)) as [v|];
        cbn [default from_option] in *; unfold Datatypes.id.
      * rewrite IH, u64_succ. reflexivity.
      * cbn [pictures calloc_video]. change (Z.of_nat 1) with 1.
        rewrite <- (u64_succ (Z.of_nat _)), <- IH. reflexivity.
    + rewrite decide_False by discriminate. cbn [length]. rewrite Z.add_0_r. exact IH.
  - destruct (i =? vfm_id fm) eqn:E; [|exact IH].
    apply Z.eqb_eq in E. subst i. cbn [from_option].
    destruct (video_node (video_list (info_process msgs)) (vfm_id fm)) as [v|];
      cbn [default from_option set_format pictures calloc_video] in *;
      unfold Datatypes.id; exact IH.
Qed.

Lemma count_packet_fields (size : Z) (a : info_audio_stream_s) :
  packets (count_packet size a) = u64 (packets a + 1)
  /\ a_bytes (count_packet size a) = u64 (a_bytes a + size).
Proof. split; reflexivity. Qed.

Lemma audio_sizes_snoc (i : Z) (msgs : list glc_message) (m : glc_message) :
  audio_sizes_of i (msgs ++ [m])
  = audio_sizes_of i msgs
    ++ match m with
       | GLC_MESSAGE_AUDIO_DATA hd => if adh_id hd =? i then [adh_size hd] else []
       | _ => []
       end.
Proof.
  unfold audio_sizes_of. rewrite omap_app. f_equal.
  destruct m as [|hd|fm|af|hd|cl|ty]; try reflexivity.
  cbn. destruct (adh_id hd =? i); reflexivity.
Qed.

Lemma sum_snoc (l : list Z) (x : Z) : fold_right Z.add 0 (l ++ [x]) = fold_right Z.add 0 l + x.
Proof. induction l as [|y l IH]; cbn [app fold_right]; lia. Qed.

(** The counters of an audio stream: the number of AUDIO_DATA messages
    that carried its id and the sum of the sizes they announced, both
    modulo [2^64]; no other message changes them. *)
Theorem info_counts_audio (msgs : list glc_message) (i : Z) :
  packets_of (info_process msgs) i = u64 (Z.of_nat (length (audio_sizes_of i msgs)))
  /\ audio_bytes_of (info_process msgs) i = u64 (fold_right Z.add 0 (audio_sizes_of i msgs)).
Proof.
  induction msgs as [|m msgs IH] using rev_ind; [split; reflexivity|].
  rewrite info_process_snoc, audio_sizes_snoc.
  destruct (ids_unique msgs) as [Hv Ha].
  destruct (callback_step (info_process msgs) m i Hv Ha) as (_ & _ & _ & Hn).
  unfold packets_of, audio_bytes_of in *. rewrite Hn. destruct IH as [IHp IHb].
  destruct m as [|hd|fm|af|hd|cl|ty]; rewrite ?app_nil_r; try (split; assumption).
  rewrite (Z.eqb_sym (adh_id hd) i). destruct (i =? adh_id hd) eqn:E.
  - apply Z.eqb_eq in E. subst i. rewrite length_app, Nat2Z.inj_add, sum_snoc.
    cbn [from_option length]. change (Z.of_nat 1) with 1.
    destruct (count_packet_fields (adh_size hd)
                (default (calloc_audio (adh_id hd))
                   (audio_node (audio_list (info_process msgs)) (adh_id hd)))) as [-> ->].
    destruct (audio_node (audio_list (info_process msgs)) (adh_id hd)) as [a|];
      cbn [default from_option] in *; unfold Datatypes.id.
    + rewrite IHp, IHb, u64_succ, u64_add_l. split; reflexivity.
    + cbn [packets a_bytes calloc_audio].
      rewrite <- (u64_succ (Z.of_nat _)), <- (u64_add_l (fold_right _ _ _)), <- IHp, <- IHb.
      split; reflexivity.
  - rewrite app_nil_r. split; assumption.
Qed.

Lemma tally_node (info : info_s) (i : Z) :
  tally info i = from_option bytes 0 (video_node (video_list info) i).
Proof.
  unfold tally, video_node. destruct (find_video (video_list info) i); reflexivity.
Qed.

Lemma count_frame_unformatted lvl t v :
  format v = 0 -> bytes v = 0 ->
  format (count_frame lvl t v) = 0 /\ bytes (count_frame lvl t v) = 0.
Proof.
  intros Hf Hb. unfold count_frame, frame_bytes. rewrite Hf, Hb.
  destruct (_ && _); split; reflexivity.
Qed.

(** The frames of a stream whose VIDEO_FORMAT never came are counted as
    pictures and add nothing to the byte tally: the node made for them has
    format 0, which is none of the three formats that [video_frame_info]
    knows. *)
Theorem info_unformatted_frames_add_nothing (msgs : list glc_message) (i : Z) :
  Forall (fun m => is_format_of i m = false) msgs ->
  tally (info_process msgs) i = 0
  /\ pictures_of (info_process msgs) i
     = u64 (Z.of_nat (length (filter (fun m => is_frame_of i m = true) msgs))).
Proof.
  intros Hall. split; [|apply info_counts_pictures].
  rewrite tally_node.
  assert (H : forall v, video_node (video_list (info_process msgs)) i = Some v ->
                        format v = 0 /\ bytes v = 0).
  { induction msgs as [|m msgs IH] using rev_ind; [discriminate|].
    apply Forall_app in Hall. destruct Hall as [Hall Hm].
    apply Forall_cons in Hm. destruct Hm as [Hm _].
    specialize (IH Hall).
    rewrite info_process_snoc.
    destruct (ids_unique msgs) as [Hv Ha].
    destruct (callback_step (info_process msgs) m i Hv Ha) as (_ & _ & Hn & _).
    rewrite Hn. destruct m as [|hd|fm|af|hd|cl|ty]; try exact IH.
    - destruct (i =? vfh_id hd) eqn:E; [|exact IH].
      apply Z.eqb_eq in E. subst i. intros v [= <-].
      destruct (video_node (video_list (info_process msgs)) (vfh_id hd)) as [v0|];
        cbn [default from_option]; unfold Datatypes.id.
      + destruct (IH v0 eq_refl) as [Hf Hb]. apply count_frame_unformatted; assumption.
      + apply count_frame_unformatted; reflexivity.
    - cbn [is_format_of] in Hm. rewrite (Z.eqb_sym i), Hm. exact IH. }
  destruct (video_node (video_list (info_process msgs)) i) as [v|]; [|reflexivity].
  cbn [from_option]. apply (H v eq_refl).
Qed.

Lemma info_unformatted_frames_add_nothing_witness :
  tally (info_process [GLC_MESSAGE_VIDEO_FRAME {| vfh_id := 1; vfh_time := 5 |};
                       GLC_MESSAGE_VIDEO_FORMAT (Tracker.fmt 2 640 480);
                       GLC_MESSAGE_VIDEO_FRAME {| vfh_id := 1; vfh_time := 9 |}]) 1 = 0.
Proof.
  apply (info_unformatted_frames_add_nothing
           [GLC_MESSAGE_VIDEO_FRAME {| vfh_id := 1; vfh_time := 5 |};
            GLC_MESSAGE_VIDEO_FORMAT (Tracker.fmt 2 640 480);
            GLC_MESSAGE_VIDEO_FRAME {| vfh_id := 1; vfh_time := 9 |}] 1).
  repeat (constructor; [reflexivity|]). constructor.
Defined.

Lemma frame_bytes_excess_witness :
  frame_bytes {| id := 1; flags := GLC_VIDEO_DWORD_ALIGNED; format := GLC_VIDEO_BGRA;
                 w := 640; h := 480; pictures := 0; bytes := 0; fps := 0;
                 last_fps_time := 0; fps_time := 0 |}
  = spec_payload_size GLC_VIDEO_BGRA GLC_VIDEO_DWORD_ALIGNED 640 480 + 8 * 480.
Proof.
  apply (frame_bytes_excess
           {| id := 1; flags := GLC_VIDEO_DWORD_ALIGNED; format := GLC_VIDEO_BGRA;
              w := 640; h := 480; pictures := 0; bytes := 0; fps := 0;
              last_fps_time := 0; fps_time := 0 |});
    cbn; [right; reflexivity | lia | lia | lia].
Defined.

Lemma report_all_some {A : Type} (now : Z) (fi fc fb : A -> Z) (l : list A) :
  now / 1000000000 <> 0 ->
  exists rs, report_all (fun x => report now (fi x) (fc x) (fb x)) l = Some rs
             /\ map r_id rs = map fi l /\ map r_count rs = map fc l
             /\ map r_bytes rs = map fb l
             /\ map r_bps rs = map (fun x => fb x / (now / 1000000000)) l.
Proof.
  intros Hs. induction l as [|x l IH]; cbn [report_all].
  - exists []. repeat split; reflexivity.
  - destruct IH as (rs & E & H1 & H2 & H3 & H4).
    rewrite E.
    assert (R : report now (fi x) (fc x) (fb x)
                = Some {| r_id := fi x; r_count := fc x;
                          r_rate := F64.div (F64.of_Z (fc x))
                                      (F64.div (F64.of_Z now) (F64.of_Z 1000000000));
                          r_bytes := fb x; r_bps := fb x / (now / 1000000000) |}).
    { unfold report. destruct (now / 1000000000 =? 0) eqn:Z0;
        [apply Z.eqb_eq in Z0; contradiction | reflexivity]. }
    rewrite R. cbn [mbind option_bind].
    eexists. split; [reflexivity|]. cbn [map r_id r_count r_bytes r_bps].
    rewrite H1, H2, H3, H4. repeat split; reflexivity.
Qed.

Lemma report_all_none {A : Type} (now : Z) (fi fc fb : A -> Z) (l : list A) :
  now / 1000000000 = 0 -> l <> [] ->
  report_all (fun x => report now (fi x) (fc x) (fb x)) l = None.
Proof.
  intros Hs Hl. destruct l as [|x l]; [contradiction|].
  cbn [report_all].
  assert (R : report now (fi x) (fc x) (fb x) = None) by (unfold report; rewrite Hs; reflexivity).
  rewrite R. reflexivity.
Qed.

(** The final report divides the bytes of every stream by the whole
    seconds of the last timestamp.  When the stream ended in its first
    second and there is a video or an audio stream to report, that is an
    integer division by zero; from one second on, every stream is
    reported with [bytes / seconds] and both lists are freed. *)
Theorem info_finish_divides_by_seconds (info : info_s) :
  (0 <= time info < 1000000000 ->
   video_list info <> [] \/ audio_list info <> [] ->
   info_finish_callback info = None)
  /\ (1000000000 <= time info ->
      exists vr ar,
        info_finish_callback info
        = Some (vr, ar, {| time := time info; level := level info;
                           video_list := []; audio_list := [] |})
        /\ map r_id vr = map id (video_list info)
        /\ map r_bps vr = map (fun v => bytes v / (time info / 1000000000)) (video_list info)
        /\ map r_id ar = map a_id (audio_list info)
        /\ map r_bps ar
           = map (fun a => a_bytes a / (time info / 1000000000)) (audio_list info)).
Proof.
  split.
  - intros Ht Hl. assert (Hs : time info / 1000000000 = 0) by (apply Z.div_small; exact Ht).
    unfold info_finish_callback.
    destruct (video_list info) as [|v l] eqn:Ev.
    + destruct Hl as [Hl|Hl]; [contradiction|].
      cbn [report_all mbind option_bind].
      rewrite (report_all_none (time info) a_id packets a_bytes _ Hs Hl). reflexivity.
    + rewrite (report_all_none (time info) id pictures bytes (v :: l) Hs) by discriminate.
      reflexivity.
  - intros Ht.
    assert (Hs : time info / 1000000000 <> 0).
    { pose proof (Z.div_le_mono 1000000000 (time info) 1000000000 ltac:(lia) Ht) as H.
      rewrite Z.div_same in H by lia. lia. }
    unfold info_finish_callback.
    destruct (report_all_some (time info) id pictures bytes (video_list info) Hs)
      as (vr & Ev & V1 & _ & _ & V4).
    destruct (report_all_some (time info) a_id packets a_bytes (audio_list info) Hs)
      as (ar & Ea & A1 & _ & _ & A4).
    rewrite Ev. cbn [mbind option_bind]. rewrite Ea. cbn [mbind option_bind].
    exists vr, ar. repeat split; assumption.
Qed.

Lemma info_finish_divides_by_seconds_witness :
  info_finish_callback
    (info_process [GLC_MESSAGE_VIDEO_FORMAT (Tracker.fmt 1 640 480);
                   GLC_MESSAGE_VIDEO_FRAME {| vfh_id := 1; vfh_time := 500000000 |}])
  = None.
Proof.
  apply (proj1 (info_finish_divides_by_seconds
                  (info_process [GLC_MESSAGE_VIDEO_FORMAT (Tracker.fmt 1 640 480);
                                 GLC_MESSAGE_VIDEO_FRAME
                                   {| vfh_id := 1; vfh_time := 500000000 |}]))).
  - cbn. lia.
  - left. discriminate.
Defined.

End InfoFacts.

(** ** More on the scaler *)

Module ScaleStreamFacts.
Import Scale.

Lemma has_flag_set_same (f m : Z) : m <> 0 -> has_flag (set_flag f m) m = true.
Proof.
  intros Hm. unfold has_flag, set_flag.
  rewrite Z.land_lor_distr_l, Z.land_diag.
  destruct (Z.lor (Z.land f m) m =? 0) eqn:E; [|reflexivity].
  apply Z.eqb_eq, Z.lor_eq_0_iff in E. tauto.
Qed.

Lemma find_ctx_some (l : list scale_ctx_s) (i : Z) (k : nat) :
  find_ctx l i = Some k -> exists c, l !! k = Some c /\ ctx c = i.
Proof.
  revert k. induction l as [|c l IH]; intros k; cbn [find_ctx]; [discriminate|].
  destruct (ctx c =? i) eqn:E.
  - intros [= <-]. exists c. split; [reflexivity | apply Z.eqb_eq; exact E].
  - destruct (find_ctx l i) as [k'|]; [|discriminate]. intros [= <-].
    destruct (IH k' eq_refl) as (c' & H1 & H2). exists c'. split; assumption.
Qed.

Lemma ctx_node_cons (c : scale_ctx_s) (l : list scale_ctx_s) (i : Z) :
  ctx_node (c :: l) i = if ctx c =? i then Some c else ctx_node l i.
Proof.
  unfold ctx_node. cbn [find_ctx]. destruct (ctx c =? i); [reflexivity|].
  destruct (find_ctx l i); reflexivity.
Qed.

Lemma find_ctx_none (l : list scale_ctx_s) (i : Z) :
  find_ctx l i = None -> ctx_node l i = None /\ ~ In i (map ctx l).
Proof.
  induction l as [|c l IH]; cbn [find_ctx map In]; [intros _; split; [reflexivity | tauto]|].
  destruct (ctx c =? i) eqn:E; [discriminate|].
  destruct (find_ctx l i) eqn:F; [discriminate|]. intros _.
  destruct (IH eq_refl) as [H1 H2]. rewrite ctx_node_cons, E. split; [exact H1|].
  apply Z.eqb_neq in E. tauto.
Qed.

Lemma ctx_node_insert (c1 : scale_ctx_s) (l : list scale_ctx_s) (j i : Z) (k : nat) :
  ctx c1 = j ->
  find_ctx l j = Some k ->
  ctx_node (<[k := c1]> l) i = (if i =? j then Some c1 else ctx_node l i)
  /\ map ctx (<[k := c1]> l) = map ctx l.
Proof.
  intros Hc. revert k. induction l as [|c l IH]; intros k; cbn [find_ctx]; [discriminate|].
  destruct (ctx c =? j) eqn:E.
  - intros [= <-]. change (<[0%nat := c1]> (c :: l)) with (c1 :: l). cbn [map].
    rewrite !ctx_node_cons, Hc.
    apply Z.eqb_eq in E. rewrite E. split; [|reflexivity].
    rewrite (Z.eqb_sym j i). destruct (i =? j); reflexivity.
  - destruct (find_ctx l j) as [k'|] eqn:F; [|discriminate]. intros [= <-].
    change (<[S k' := c1]> (c :: l)) with (c :: <[k' := c1]> l). cbn [map].
    destruct (IH k' eq_refl) as [H1 H2].
    rewrite !ctx_node_cons, H1, H2. split; [|reflexivity].
    destruct (ctx c =? i) eqn:E3; [|reflexivity].
    destruct (i =? j) eqn:E2; [|reflexivity].
    apply Z.eqb_eq in E3. apply Z.eqb_eq in E2. apply Z.eqb_neq in E. congruence.
Qed.

Lemma ctx_msg_node_ctx (s : spec_float) (msg : glc_ctx_message_t) (c0 c1 : scale_ctx_s)
  (msg' : glc_ctx_message_t) :
  ctx_msg_node s msg c0 = Some (c1, msg') -> ctx c1 = ctx c0.
Proof.
  intros H. unfold ctx_msg_node in H. cbv zeta in H. cbn [w h flags ctx] in H.
  destruct (negb _ && _ && _) in H; [injection H as <- _; reflexivity|].
  destruct (f_to_unsigned 32 (F64.mul s (F64.of_Z (cm_w msg)))) as [sw1|];
    cbn [mbind option_bind] in H; [|discriminate].
  destruct (f_to_unsigned 32 (F64.mul s (F64.of_Z (cm_h msg)))) as [sh1|];
    cbn [mbind option_bind] in H; [|discriminate].
  destruct (SFeqb s (F64.dyadic 1 1) || SFeqb s F64.one);
    [injection H as <- _; reflexivity|].
  destruct (find_ratio _ _ _) as [[r d]|] in H; cbn [mbind option_bind] in H; [|discriminate].
  destruct (generate_map _ _) as [m|] in H; cbn [mbind option_bind] in H; [|discriminate].
  injection H as <- _. reflexivity.
Qed.

(** The streams of the scaler do not mix.  [scale_get_ctx] stores the id
    in the node it allocates, so no two nodes carry the same id; a
    context message configures the node of its own stream, and the node
    of every other stream is after the call what it was before. *)
Theorem scale_streams_are_independent (s : spec_float) (l l' : list scale_ctx_s)
  (msg msg' : glc_ctx_message_t) :
  NoDup (map ctx l) ->
  scale_ctx_msg s l msg = Some (l', msg') ->
  NoDup (map ctx l')
  /\ (exists c, ctx_node l' (cm_ctx msg) = Some c /\ ctx c = cm_ctx msg)
  /\ forall i, i <> cm_ctx msg -> ctx_node l' i = ctx_node l i.
Proof.
  intros Hnd. unfold scale_ctx_msg, scale_get_ctx.
  destruct (find_ctx l (cm_ctx msg)) as [k|] eqn:F.
  - destruct (find_ctx_some l _ k F) as (c0 & Hc0 & Hid). rewrite Hc0.
    cbn [mbind option_bind].
    destruct (ctx_msg_node s msg c0) as [[c1 m1]|] eqn:E; [|discriminate].
    cbn [mbind option_bind]. intros [= <- <-].
    pose proof (ctx_msg_node_ctx _ _ _ _ _ E) as Hc1. rewrite Hid in Hc1.
    split; [|split].
    + rewrite (proj2 (ctx_node_insert c1 l _ 0 k Hc1 F)). exact Hnd.
    + exists c1. rewrite (proj1 (ctx_node_insert c1 l _ (cm_ctx msg) k Hc1 F)).
      rewrite Z.eqb_refl. split; [reflexivity | exact Hc1].
    + intros i Hi. rewrite (proj1 (ctx_node_insert c1 l _ i k Hc1 F)).
      destruct (i =? cm_ctx msg) eqn:E2; [apply Z.eqb_eq in E2; contradiction | reflexivity].
  - destruct (find_ctx_none l _ F) as [Hn Hin]. cbn [lookup list_lookup mbind option_bind].
    destruct (ctx_msg_node s msg (new_ctx (cm_ctx msg))) as [[c1 m1]|] eqn:E; [|discriminate].
    cbn [mbind option_bind]. intros [= <- <-].
    pose proof (ctx_msg_node_ctx _ _ _ _ _ E) as Hc1. cbn [ctx new_ctx] in Hc1.
    change (<[0%nat := c1]> (new_ctx (cm_ctx msg) :: l)) with (c1 :: l). cbn [map].
    split; [|split].
    + rewrite Hc1. apply NoDup_cons_2; [rewrite list_elem_of_In; exact Hin | exact Hnd].
    + exists c1. split; [|exact Hc1]. rewrite ctx_node_cons, Hc1, Z.eqb_refl. reflexivity.
    + intros i Hi. rewrite ctx_node_cons, Hc1.
      destruct (cm_ctx msg =? i) eqn:E2; [apply Z.eqb_eq in E2; congruence | reflexivity].
Qed.

Lemma scale_streams_are_independent_witness :
  exists l' msg',
    scale_ctx_msg (F64.dyadic 1 1) [new_ctx 2] (ctx_msg GLC_CTX_BGR 4 4) = Some (l', msg')
    /\ ctx_node l' 2 = ctx_node [new_ctx 2] 2.
Proof.
  assert (Hnd : NoDup (map ctx [new_ctx 2])).
  { apply NoDup_cons_2; [rewrite list_elem_of_In; cbn; tauto | constructor]. }
  destruct (scale_ctx_msg (F64.dyadic 1 1) [new_ctx 2] (ctx_msg GLC_CTX_BGR 4 4))
    as [[l' msg']|] eqn:E; [|vm_compute in E; discriminate E].
  exists l', msg'. split; [reflexivity|].
  apply (proj2 (proj2 (scale_streams_are_independent _ _ _ _ _ Hnd E))). cbn. lia.
Defined.

(** At scale 1.0 a stream that is BGR already is left alone: the context
    message goes on as it came, the node is not marked for processing, and
    every frame of the stream is copied as it is, whatever its size. *)
Theorem unit_scale_bgr_passes_through (flg wd ht : Z) (from : list Z) :
  has_flag flg GLC_CTX_BGR = true ->
  has_flag flg GLC_CTX_BGRA = false ->
  exists c,
    scale_ctx_msg F64.one [] (ctx_msg flg wd ht) = Some ([c], ctx_msg flg wd ht)
    /\ process c = 0 /\ sw c = wd /\ sh c = ht
    /\ scale_picture [c] 1 from = Some ([c], from).
Proof.
  intros Hbgr Hbgra.
  unfold scale_ctx_msg, scale_get_ctx, ctx_msg. cbn [find_ctx cm_ctx].
  cbn [lookup list_lookup mbind option_bind].
  unfold ctx_msg_node. cbn [cm_flags cm_w cm_h flags w h new_ctx].
  rewrite Hbgra, Hbgr. change (SFeqb F64.one F64.one) with true. cbn [negb andb].
  cbn [mbind option_bind insert list_insert].
  eexists. split; [reflexivity|]. cbn [process sw sh ctx new_ctx].
  repeat split.
Qed.

Lemma unit_scale_bgr_passes_through_witness :
  exists c,
    scale_ctx_msg F64.one [] (ctx_msg (GLC_CTX_BGR + GLC_CTX_DWORD_ALIGNED) 3 1)
    = Some ([c], ctx_msg (GLC_CTX_BGR + GLC_CTX_DWORD_ALIGNED) 3 1)
    /\ scale_picture [c] 1 [1; 2; 3; 4; 5; 6; 7; 8; 9; 0; 0; 0; 0; 0; 0; 0]
       = Some ([c], [1; 2; 3; 4; 5; 6; 7; 8; 9; 0; 0; 0; 0; 0; 0; 0]).
Proof.
  destruct (unit_scale_bgr_passes_through (GLC_CTX_BGR + GLC_CTX_DWORD_ALIGNED) 3 1
              [1; 2; 3; 4; 5; 6; 7; 8; 9; 0; 0; 0; 0; 0; 0; 0] eq_refl eq_refl)
    as (c & H1 & _ & _ & _ & H2).
  exists c. split; assumption.
Defined.

Lemma get_ctx_node (l : list scale_ctx_s) (i : Z) :
  exists c0, snd (scale_get_ctx l i) !! fst (scale_get_ctx l i) = Some c0.
Proof.
  unfold scale_get_ctx. destruct (find_ctx l i) as [k|] eqn:F; cbn [fst snd].
  - destruct (find_ctx_some l i k F) as (c0 & H & _). exists c0. exact H.
  - exists (new_ctx i). reflexivity.
Qed.

(** What goes on to the next stage for a stream that is scaled by 1/2,
    or converted from BGRA at scale 1: the context message announces the
    scaled size and rows that are not padded, and it has the BGR bit set
    when the stream was BGR or BGRA.  The BGRA bit of a BGRA stream is
    still set in it: the code clears and sets the same bit, BGR. *)
Theorem scaled_message_flags (k flg wd ht : Z) (l : list scale_ctx_s) :
  k = 0 \/ k = 1 ->
  (k = 0 -> has_flag flg GLC_CTX_BGRA = true) ->
  0 <= wd < 2 ^ 32 -> 0 <= ht < 2 ^ 32 ->
  exists l' msg',
    scale_ctx_msg (F64.dyadic 1 k) l (ctx_msg flg wd ht) = Some (l', msg')
    /\ cm_w msg' = wd / 2 ^ k /\ cm_h msg' = ht / 2 ^ k
    /\ has_flag (cm_flags msg') GLC_CTX_DWORD_ALIGNED = false
    /\ has_flag (cm_flags msg') GLC_CTX_BGRA = has_flag flg GLC_CTX_BGRA
    /\ has_flag (cm_flags msg') GLC_CTX_BGR
       = has_flag flg GLC_CTX_BGRA || has_flag flg GLC_CTX_BGR.
Proof.
  intros Hk Hk0 Hw Hh.
  unfold scale_ctx_msg.
  destruct (get_ctx_node l (cm_ctx (ctx_msg flg wd ht))) as [c0 Hc0].
  destruct (scale_get_ctx l (cm_ctx (ctx_msg flg wd ht))) as [n l1]. cbn [fst snd] in Hc0.
  rewrite Hc0. cbn [mbind option_bind].
  unfold ctx_msg_node, ctx_msg. cbn [cm_flags cm_w cm_h cm_ctx flags w h].
  assert (Hfast : SFeqb (F64.dyadic 1 k) (F64.dyadic 1 1) || SFeqb (F64.dyadic 1 k) F64.one
                  = true)
    by (destruct Hk as [-> | ->]; reflexivity).
  assert (Hskip : negb (has_flag flg GLC_CTX_BGRA) && SFeqb (F64.dyadic 1 k) F64.one
                  && has_flag flg GLC_CTX_BGR = false).
  { destruct Hk as [-> | ->]; [rewrite Hk0 by reflexivity; reflexivity|].
    rewrite andb_false_r. reflexivity. }
  rewrite Hskip, Hfast.
  rewrite !scaled_size by assumption. cbn [mbind option_bind].
  eexists _, _. split; [reflexivity|]. cbn [cm_w cm_h cm_flags].
  split; [reflexivity|]. split; [reflexivity|].
  set (flags1 := if has_flag flg GLC_CTX_BGRA
                 then set_flag (clear_flag flg GLC_CTX_BGR) GLC_CTX_BGR else flg).
  assert (Ha : has_flag flags1 GLC_CTX_BGRA = has_flag flg GLC_CTX_BGRA).
  { unfold flags1. destruct (has_flag flg GLC_CTX_BGRA) eqn:E; [|exact E].
    rewrite has_flag_set_other by reflexivity.
    rewrite has_flag_clear_other by reflexivity. exact E. }
  assert (Hb : has_flag flags1 GLC_CTX_BGR
               = has_flag flg GLC_CTX_BGRA || has_flag flg GLC_CTX_BGR).
  { unfold flags1. destruct (has_flag flg GLC_CTX_BGRA); [|reflexivity].
    apply has_flag_set_same. discriminate. }
  destruct (has_flag flags1 GLC_CTX_DWORD_ALIGNED) eqn:Ed.
  - split; [apply has_flag_clear_same; reflexivity|].
    rewrite !has_flag_clear_other by reflexivity. split; assumption.
  - repeat split; assumption.
Qed.

Lemma scaled_message_flags_witness :
  exists l' msg',
    scale_ctx_msg (F64.dyadic 1 0) []
      (ctx_msg (GLC_CTX_BGRA + GLC_CTX_DWORD_ALIGNED) 640 480) = Some (l', msg')
    /\ cm_w msg' = 640 / 2 ^ 0 /\ cm_h msg' = 480 / 2 ^ 0
    /\ has_flag (cm_flags msg') GLC_CTX_DWORD_ALIGNED = false
    /\ has_flag (cm_flags msg') GLC_CTX_BGRA
       = has_flag (GLC_CTX_BGRA + GLC_CTX_DWORD_ALIGNED) GLC_CTX_BGRA
    /\ has_flag (cm_flags msg') GLC_CTX_BGR
       = has_flag (GLC_CTX_BGRA + GLC_CTX_DWORD_ALIGNED) GLC_CTX_BGRA
         || has_flag (GLC_CTX_BGRA + GLC_CTX_DWORD_ALIGNED) GLC_CTX_BGR.
Proof.
  apply (scaled_message_flags 0 (GLC_CTX_BGRA + GLC_CTX_DWORD_ALIGNED) 640 480 []);
    [left; reflexivity | reflexivity | lia | lia].
Defined.

Lemma for_range_first {S} (bound : Z) (body : Z -> S -> option S) (s : S) :
  1 <= bound -> body 0 s = None -> for_range bound 1 body s = None.
Proof.
  intros Hb H0. unfold for_range.
  replace ((bound + 1 - 1) / 1) with bound by (rewrite Z.div_1_r; lia).
  destruct (Z.to_nat bound) as [|n] eqn:E; [lia|].
  cbn [for_iter]. rewrite H0. reflexivity.
Qed.

(** A stream that changes from BGRA to BGR while the scale is 1.0 is
    not left alone as a fresh BGR stream is: the second context message
    takes the branch that skips the set up and leaves [process] as the
    first one set it, so the frames still go to [scale_pic_msg], which
    now takes the bilinear path and reads a scale map that was never
    made. *)
Theorem format_change_keeps_processing (flg1 flg2 w1 h1 w2 h2 : Z) (from : list Z) :
  has_flag flg1 GLC_CTX_BGRA = true ->
  has_flag flg2 GLC_CTX_BGR = true ->
  has_flag flg2 GLC_CTX_BGRA = false ->
  0 <= w1 < 2 ^ 32 -> 0 <= h1 < 2 ^ 32 ->
  1 <= w2 -> 1 <= h2 ->
  exists l1 m1 c,
    scale_ctx_msg F64.one [] (ctx_msg flg1 w1 h1) = Some (l1, m1)
    /\ scale_ctx_msg F64.one l1 (ctx_msg flg2 w2 h2) = Some ([c], ctx_msg flg2 w2 h2)
    /\ process c = 1 /\ pos c = [] /\ (sw c, sh c) = (w2, h2)
    /\ scale_picture [c] 1 from = None.
Proof.
  intros Hbgra1 Hbgr2 Hbgra2 Hw1 Hh1 Hw2 Hh2.
  destruct (scaled_message_flags 0 flg1 w1 h1 [] (or_introl eq_refl) (fun _ => Hbgra1) Hw1 Hh1)
    as (l1 & m1 & E1 & _).
  exists l1, m1.
  assert (Hl1 : exists c1, l1 = [c1] /\ ctx c1 = 1 /\ process c1 = 1 /\ pos c1 = []).
  { revert E1. unfold scale_ctx_msg, scale_get_ctx, ctx_msg. cbn [find_ctx cm_ctx].
    cbn [lookup list_lookup mbind option_bind].
    unfold ctx_msg_node. cbn [cm_flags cm_w cm_h flags w h new_ctx].
    rewrite Hbgra1. cbn [negb andb].
    change (F64.one) with (F64.dyadic 1 0). rewrite !scaled_size by (auto; lia).
    cbn [mbind option_bind]. change (SFeqb (F64.dyadic 1 0) (F64.dyadic 1 1)) with false.
    change (SFeqb (F64.dyadic 1 0) (F64.dyadic 1 0)) with true. cbn [orb].
    cbn [mbind option_bind insert list_insert]. intros [= <- _].
    eexists. split; [reflexivity|]. repeat split. }
  destruct Hl1 as (c1 & -> & Hid & Hp & Hpos).
  set (c2 := {| ctx := ctx c1; flags := flg2; w := w2; h := h2; sw := w2; sh := h2;
                bpp := bpp c1; row := row c1; scale := F64.one; process := process c1;
                pos := pos c1; factor := factor c1 |}).
  assert (E2 : scale_ctx_msg F64.one [c1] (ctx_msg flg2 w2 h2)
               = Some ([c2], ctx_msg flg2 w2 h2)).
  { unfold scale_ctx_msg, scale_get_ctx, ctx_msg. cbn [find_ctx cm_ctx]. rewrite Hid.
    cbn [Z.eqb Pos.eqb lookup list_lookup mbind option_bind].
    unfold ctx_msg_node. cbn [cm_flags cm_w cm_h flags w h].
    rewrite Hbgra2, Hbgr2. change (SFeqb F64.one F64.one) with true. cbn [negb andb].
    reflexivity. }
  exists c2. split; [exact E1|]. split; [exact E2|].
  cbn [process pos sw sh c2]. split; [exact Hp|]. split; [exact Hpos|]. split; [reflexivity|].
  assert (Hpic : forall to, scale_pic_msg c2 from to = None).
  { intros to. unfold scale_pic_msg.
    change (scale c2) with F64.one. change (flags c2) with flg2.
    change (sh c2) with h2. change (sw c2) with w2.
    rewrite Hbgra2. change (SFeqb F64.one F64.one) with true. cbn [andb].
    change (SFeqb F64.one (F64.dyadic 1 1)) with false. cbv iota.
    apply for_range_first; [exact Hh2|].
    apply for_range_first; [exact Hw2|].
    unfold bilinear_pixel, bilinear_channel, tap.
    change (pos c2) with (pos c1). rewrite Hpos. reflexivity. }
  unfold scale_picture, scale_get_ctx. cbn [find_ctx].
  change (ctx c2) with (ctx c1). rewrite Hid.
  cbn [Z.eqb Pos.eqb lookup list_lookup mbind option_bind].
  change (process c2) with (process c1). rewrite Hp. cbn [Z.eqb].
  rewrite Hpic. reflexivity.
Qed.

Lemma format_change_keeps_processing_witness :
  exists l1 m1 c,
    scale_ctx_msg F64.one [] (ctx_msg GLC_CTX_BGRA 2 1) = Some (l1, m1)
    /\ scale_ctx_msg F64.one l1 (ctx_msg GLC_CTX_BGR 2 1) = Some ([c], ctx_msg GLC_CTX_BGR 2 1)
    /\ process c = 1 /\ pos c = [] /\ (sw c, sh c) = (2, 1)
    /\ scale_picture [c] 1 [10; 20; 30; 40; 50; 60] = None.
Proof.
  apply (format_change_keeps_processing GLC_CTX_BGRA GLC_CTX_BGR 2 1 2 1
           [10; 20; 30; 40; 50; 60]); try reflexivity; lia.
Defined.

End ScaleStreamFacts.

(** ** The search for the sampling ratio *)

Module ScaleRatioFacts.
Import Scale.

Lemma shr_fexp_kept (prec emax : Z) (m : positive) (e : Z) :
  Z.pos (digits2_pos m) = prec -> 3 - emax - prec <= e ->
  shr_fexp prec emax (Z.pos m) e loc_Exact
  = ({| shr_m := Z.pos m; shr_r := false; shr_s := false |}, e).
Proof.
  intros Hd He. unfold shr_fexp, fexp, emin. cbn [Zdigits2]. rewrite Hd.
  replace (Z.max (prec + e - prec) (3 - emax - prec) - e) with 0 by lia.
  reflexivity.
Qed.

Lemma shr_fexp_shifted (prec emax : Z) (m : positive) (e : Z) (n : positive) :
  Z.pos (digits2_pos m) = prec -> 3 - emax - prec <= e ->
  shr_fexp prec emax (Z.pos (Pos.iter xO m n)) (e - Z.pos n) loc_Exact
  = ({| shr_m := Z.pos m; shr_r := false; shr_s := false |}, e).
Proof.
  intros Hd He. unfold shr_fexp, fexp, emin. cbn [Zdigits2].
  rewrite digits2_shift, Hd.
  replace (Z.max (prec + Z.pos n + (e - Z.pos n) - prec) (3 - emax - prec) - (e - Z.pos n))
    with (Z.pos n) by lia.
  cbn [shr shr_record_of_loc]. rewrite shr_exact. f_equal. lia.
Qed.

Lemma round_aux_kept (prec emax : Z) (m : positive) (e : Z) :
  Z.pos (digits2_pos m) = prec -> 3 - emax - prec <= e <= emax - prec ->
  binary_round_aux prec emax false (Z.pos m) e loc_Exact = S754_finite false m e.
Proof.
  intros Hd He. unfold binary_round_aux.
  rewrite shr_fexp_kept by lia.
  cbn [shr_m shr_r shr_s loc_of_shr_record round_nearest_even].
  rewrite shr_fexp_kept by lia. cbn [shr_m].
  destruct (e <=? emax - prec) eqn:E; [reflexivity | lia].
Qed.

(** A positive integer of at most 24 binary digits is a [float]. *)
Lemma float_of_small (p : positive) :
  Z.pos (digits2_pos p) <= 24 ->
  exists m e, F32.of_Z (Z.pos p) = S754_finite false m e.
Proof.
  intros Hd.
  unfold F32.of_Z, F32.prec, F32.emax, binary_normalize, binary_round, shl_align, fexp, emin.
  replace (Z.max (Z.pos (digits2_pos p) + 0 - 24) (3 - 128 - 24))
    with (Z.pos (digits2_pos p) - 24) by lia.
  destruct (Z.pos (digits2_pos p) - 24 - 0) as [|q|q] eqn:E; try lia.
  - eexists _, _. apply round_aux_kept; lia.
  - eexists _, _. apply round_aux_kept; [rewrite digits2_shift|]; lia.
Qed.

Lemma float_of_index (z : Z) :
  0 <= z < 2 ^ 24 ->
  F32.of_Z z = S754_zero false \/ exists m e, F32.of_Z z = S754_finite false m e.
Proof.
  intros Hz. destruct z as [|p|p]; [left; reflexivity | right | lia].
  apply float_of_small. apply digits2_bound; lia.
Qed.

(** The size of a frame, as a [double], is not below 1. *)
Lemma size_not_below_one (z : Z) :
  1 <= z < 2 ^ 32 -> SFltb (F64.of_Z z) F64.one = false.
Proof.
  intros Hz. destruct z as [|p|p]; try lia.
  assert (Hd : Z.pos (digits2_pos p) <= 32) by (apply digits2_bound; lia).
  rewrite of_Z_pos by lia.
  change F64.one with (S754_finite false 4503599627370496 (-52)).
  unfold SFltb, SFcompare.
  destruct (Z.compare_spec (Z.pos (digits2_pos p) - 53) (-52)) as [E|E|E]; [| lia | reflexivity].
  assert (Hp : p = 1%positive) by (destruct p; cbn [digits2_pos] in E; lia).
  subst p. reflexivity.
Qed.

Lemma zero_ratio_passes (n bound : Z) :
  1 <= n < 2 ^ 24 -> 1 <= bound < 2 ^ 32 ->
  overshoots (S754_zero false) n bound = false.
Proof.
  intros Hn Hb. unfold overshoots.
  rewrite u32_small by lia.
  destruct (float_of_index (n - 1) ltac:(lia)) as [-> | (m & e & ->)];
    (change (F64.add _ F64.one) with F64.one; apply size_not_below_one; exact Hb).
Qed.

Lemma ratio_at_width (c : scale_ctx_s) :
  1 <= sw c < 2 ^ 24 -> ratio c (w c) = S754_zero false.
Proof.
  intros Hsw. unfold ratio. rewrite Z.sub_diag.
  destruct (float_of_index (sw c) ltac:(lia)) as [E | (m & e & E)].
  - destruct (sw c) as [|p|p]; try lia.
    destruct (float_of_small p) as (m & e & E'); [apply digits2_bound; lia|]. congruence.
  - rewrite E. reflexivity.
Qed.

Lemma find_ratio_from (c : scale_ctx_s) (n k : nat) (r : Z) :
  1 <= w c < 2 ^ 32 -> 1 <= h c < 2 ^ 32 ->
  1 <= sw c < 2 ^ 24 -> 1 <= sh c < 2 ^ 24 ->
  0 <= r -> Z.of_nat n = w c - r ->
  exists r1,
    find_ratio (S n + k) c r = Some (r1, ratio c r1)
    /\ r <= r1 <= w c
    /\ overshoots (ratio c r1) (sh c) (h c) || overshoots (ratio c r1) (sw c) (w c) = false
    /\ forall r', r <= r' < r1 ->
         overshoots (ratio c r') (sh c) (h c) || overshoots (ratio c r') (sw c) (w c) = true.
Proof.
  intros Hw Hh Hsw Hsh. revert r. induction n as [|n IH]; intros r Hr Hn.
  - assert (r = w c) by lia. subst r. cbn [plus find_ratio].
    rewrite ratio_at_width by assumption.
    rewrite !zero_ratio_passes by assumption. cbn [orb].
    exists (w c). rewrite ratio_at_width by assumption.
    rewrite !zero_ratio_passes by assumption.
    repeat split; lia.
  - change (S (S n) + k)%nat with (S (S n + k)). cbn [find_ratio].
    destruct (overshoots (ratio c r) (sh c) (h c) || overshoots (ratio c r) (sw c) (w c)) eqn:E.
    + rewrite u32_small by lia.
      destruct (IH (r + 1) ltac:(lia) ltac:(lia)) as (r1 & E1 & Hr1 & Hp & Hmin).
      exists r1. split; [exact E1|]. split; [lia|]. split; [exact Hp|].
      intros r' Hr'. assert (r' = r \/ r + 1 <= r') as [-> | H'] by lia; [exact E|].
      apply Hmin. lia.
    + exists r. split; [reflexivity|]. split; [lia|]. split; [exact E|]. intros r' Hr'. lia.
Qed.

(** The [do ... while] that picks the sampling ratio ends, for a frame of
    at least one pixel each way and a target of 1 to [2^24 - 1] pixels each
    way: it stops at the least [r <= w] whose ratio [d = (w - r) / sw]
    passes both tests, at [r = w] at the latest, where the ratio is 0. *)
Theorem ratio_search_ends (c : scale_ctx_s) :
  1 <= w c < 2 ^ 32 -> 1 <= h c < 2 ^ 32 ->
  1 <= sw c < 2 ^ 24 -> 1 <= sh c < 2 ^ 24 ->
  exists r,
    find_ratio (Z.to_nat (w c) + 2) c 0 = Some (r, ratio c r)
    /\ 0 <= r <= w c
    /\ overshoots (ratio c r) (sh c) (h c) || overshoots (ratio c r) (sw c) (w c) = false
    /\ forall r', 0 <= r' < r ->
         overshoots (ratio c r') (sh c) (h c) || overshoots (ratio c r') (sw c) (w c) = true.
Proof.
  intros Hw Hh Hsw Hsh.
  replace (Z.to_nat (w c) + 2)%nat with (S (Z.to_nat (w c)) + 1)%nat by lia.
  apply find_ratio_from; try assumption; lia.
Qed.

Lemma ratio_search_ends_witness :
  exists r,
    find_ratio (Z.to_nat 640 + 2)
      {| ctx := 1; flags := GLC_CTX_BGR; w := 640; h := 480; sw := 480; sh := 360;
         bpp := 3; row := 1920; scale := F64.dyadic 3 2; process := 1;
         pos := []; factor := [] |} 0
    = Some (r, ratio {| ctx := 1; flags := GLC_CTX_BGR; w := 640; h := 480; sw := 480;
                        sh := 360; bpp := 3; row := 1920; scale := F64.dyadic 3 2;
                        process := 1; pos := []; factor := [] |} r)
    /\ 0 <= r <= 640.
Proof.
  destruct (ratio_search_ends
              {| ctx := 1; flags := GLC_CTX_BGR; w := 640; h := 480; sw := 480; sh := 360;
                 bpp := 3; row := 1920; scale := F64.dyadic 3 2; process := 1;
                 pos := []; factor := [] |})
    as (r & E & Hr & _); cbn; try lia.
  exists r. split; [exact E | exact Hr].
Defined.

End ScaleRatioFacts.

(** ** More on the GL capture *)

Module CaptureGeometryFacts.
Import GlCapture.

(** With a crop rectangle set, the area [gl_capture_calc_geometry]
    computes lies inside the window, as long as the sums
    [crop_x + crop_w] and [crop_y + crop_h] do not wrap: it is no wider and
    no higher than asked, and [cy] is counted from the bottom of the
    window as OpenGL wants it.  A crop origin outside the window is
    replaced by 0. *)
Theorem crop_stays_in_window (g : gl_capture_s) (v : gl_capture_video_stream_s) (w' h' : Z) :
  has_flag (g_flags g) GL_CAPTURE_CROP = true ->
  0 <= w' < 2 ^ 32 -> 0 <= h' < 2 ^ 32 ->
  0 <= crop_x g -> 0 <= crop_w g -> crop_x g + crop_w g < 2 ^ 32 ->
  0 <= crop_y g -> 0 <= crop_h g -> crop_y g + crop_h g < 2 ^ 32 ->
  let v' := gl_capture_calc_geometry g v w' h' in
  w v' = w' /\ h v' = h'
  /\ 0 <= cx v' /\ 0 <= cw v' <= crop_w g /\ cx v' + cw v' <= w'
  /\ 0 <= cy v' /\ 0 <= ch v' <= crop_h g /\ cy v' + ch v' <= h'
  /\ cx v' = (if w' <? crop_x g then 0 else crop_x g)
  /\ cy v' = h' - ch v' - (if h' <? crop_y g then 0 else crop_y g).
Proof.
  intros Hc Hw Hh Hx0 Hw0 Hxw Hy0 Hh0 Hyh.
  unfold gl_capture_calc_geometry. rewrite Hc. cbv zeta.
  cbn [w h cx cy cw ch set_geometry].
  set (cx1 := if w' <? crop_x g then 0 else crop_x g).
  set (cy1 := if h' <? crop_y g then 0 else crop_y g).
  assert (Hcx : 0 <= cx1 <= w' /\ cx1 <= crop_x g).
  { unfold cx1. destruct (w' <? crop_x g) eqn:E; lia. }
  assert (Hcy : 0 <= cy1 <= h' /\ cy1 <= crop_y g).
  { unfold cy1. destruct (h' <? crop_y g) eqn:E; lia. }
  rewrite (u32_small (crop_w g + cx1)) by lia.
  rewrite (u32_small (crop_h g + cy1)) by lia.
  rewrite (u32_small (w' - cx1)) by lia.
  rewrite (u32_small (h' - cy1)) by lia.
  set (cw1 := if w' <? crop_w g + cx1 then w' - cx1 else crop_w g).
  set (ch1 := if h' <? crop_h g + cy1 then h' - cy1 else crop_h g).
  assert (Hcw : 0 <= cw1 <= crop_w g /\ cx1 + cw1 <= w').
  { unfold cw1. destruct (w' <? crop_w g + cx1) eqn:E; lia. }
  assert (Hch : 0 <= ch1 <= crop_h g /\ cy1 + ch1 <= h').
  { unfold ch1. destruct (h' <? crop_h g + cy1) eqn:E; lia. }
  rewrite (u32_small (h' - ch1 - cy1)) by lia.
  repeat split; lia.
Qed.

Lemma crop_stays_in_window_witness :
  let g := snd (gl_capture_crop gl_capture_init 600 10 100 1000) in
  let v' := gl_capture_calc_geometry g (new_stream (calm 0) 7 9) 640 480 in
  w v' = 640 /\ h v' = 480
  /\ 0 <= cx v' /\ 0 <= cw v' <= crop_w g /\ cx v' + cw v' <= 640
  /\ 0 <= cy v' /\ 0 <= ch v' <= crop_h g /\ cy v' + ch v' <= 480
  /\ cx v' = (if 640 <? crop_x g then 0 else crop_x g)
  /\ cy v' = 480 - ch v' - (if 480 <? crop_y g then 0 else crop_y g).
Proof.
  apply (crop_stays_in_window (snd (gl_capture_crop gl_capture_init 600 10 100 1000))
           (new_stream (calm 0) 7 9) 640 480); simpl; try reflexivity; lia.
Defined.

(** The stride [gl_capture_calc_geometry] computes is the length of a
    row of the captured area, padded up to the next multiple of the pack
    alignment: it is a multiple of it and less than one alignment above
    [cw * bpp]. *)
Theorem row_is_padded_to_alignment (g : gl_capture_s) (v : gl_capture_video_stream_s)
  (w' h' : Z) :
  0 < pack_alignment g ->
  0 <= cw (gl_capture_calc_geometry g v w' h') * bpp g ->
  cw (gl_capture_calc_geometry g v w' h') * bpp g + pack_alignment g <= 2 ^ 32 ->
  let v' := gl_capture_calc_geometry g v w' h' in
  row v' mod pack_alignment g = 0
  /\ cw v' * bpp g <= row v' < cw v' * bpp g + pack_alignment g.
Proof.
  intros Hpa. unfold gl_capture_calc_geometry.
  destruct (if has_flag (g_flags g) GL_CAPTURE_CROP then _ else _) as [[[cw' ch'] cx'] cy'].
  cbn [cw row set_geometry]. intros H0 Hb.
  pose proof (Z.mod_pos_bound (cw' * bpp g) (pack_alignment g) Hpa) as Hm.
  rewrite (u32_small (cw' * bpp g)) by lia.
  destruct (cw' * bpp g mod pack_alignment g =? 0) eqn:E; cbn [negb].
  - apply Z.eqb_eq in E. split; [exact E | lia].
  - apply Z.eqb_neq in E.
    rewrite (u32_small (pack_alignment g - _)) by lia.
    rewrite u32_small by lia.
    split; [|lia].
    pose proof (Z.div_mod (cw' * bpp g) (pack_alignment g) ltac:(lia)) as D.
    replace (cw' * bpp g + (pack_alignment g - cw' * bpp g mod pack_alignment g))
      with ((cw' * bpp g / pack_alignment g + 1) * pack_alignment g) by lia.
    apply Z.mod_mul. lia.
Qed.

Lemma row_is_padded_to_alignment_witness :
  let v' := gl_capture_calc_geometry
              (snd (gl_capture_set_pixel_format gl_capture_init GL_BGR))
              (new_stream (calm 0) 7 9) 641 480 in
  row v' mod 8 = 0 /\ 641 * 3 <= row v' < 641 * 3 + 8.
Proof.
  apply (row_is_padded_to_alignment
           (snd (gl_capture_set_pixel_format gl_capture_init GL_BGR))
           (new_stream (calm 0) 7 9) 641 480); vm_compute; try reflexivity; discriminate.
Defined.

End CaptureGeometryFacts.

Module CaptureScheduleFacts.
Import GlCapture.

Lemma u64_add_idem (a b : Z) : u64 (u64 a + b) = u64 (a + b).
Proof. unfold u64. apply Zplus_mod_idemp_l. Qed.

Lemma advance_plain (g : gl_capture_s) (v : gl_capture_video_stream_s) :
  0 < fps_rem_period g ->
  0 <= num_captured_frames v -> num_captured_frames v + 1 < 2 ^ 32 ->
  (num_captured_frames v + 1) mod fps_rem_period g <> 0 ->
  exists v1, advance g v = Some v1
    /\ last v1 = u64 (last v + fps_period g)
    /\ num_captured_frames v1 = num_captured_frames v + 1.
Proof.
  intros Hn H0 Hb Hm. unfold advance. cbv zeta.
  destruct (fps_rem_period g =? 0) eqn:E; [apply Z.eqb_eq in E; lia|].
  rewrite u32_small by lia. cbn [last set_stats].
  destruct ((num_captured_frames v + 1) mod fps_rem_period g =? 0) eqn:E2;
    [apply Z.eqb_eq in E2; contradiction|].
  eexists. split; [reflexivity|]. split; reflexivity.
Qed.

Lemma advance_fix (g : gl_capture_s) (v : gl_capture_video_stream_s) :
  0 < fps_rem_period g ->
  0 <= num_captured_frames v -> num_captured_frames v + 1 < 2 ^ 32 ->
  (num_captured_frames v + 1) mod fps_rem_period g = 0 ->
  exists v1, advance g v = Some v1
    /\ last v1 = u64 (last v + fps_period g + fps_rem g)
    /\ num_captured_frames v1 = num_captured_frames v + 1.
Proof.
  intros Hn H0 Hb Hm. unfold advance. cbv zeta.
  destruct (fps_rem_period g =? 0) eqn:E; [apply Z.eqb_eq in E; lia|].
  rewrite u32_small by lia. cbn [last set_stats]. rewrite Hm. cbn [Z.eqb].
  eexists. split; [reflexivity|]. split; [|reflexivity].
  cbn [last set_last]. apply u64_add_idem.
Qed.

Lemma advance_n_plain (g : gl_capture_s) (k : nat) :
  forall v,
  0 < fps_rem_period g ->
  0 <= num_captured_frames v -> num_captured_frames v + Z.of_nat k < 2 ^ 32 ->
  (forall j, 1 <= j <= Z.of_nat k -> (num_captured_frames v + j) mod fps_rem_period g <> 0) ->
  exists vk, advance_n g k v = Some vk
    /\ u64 (last vk) = u64 (last v + Z.of_nat k * fps_period g)
    /\ num_captured_frames vk = num_captured_frames v + Z.of_nat k.
Proof.
  induction k as [|k IH]; intros v Hn H0 Hb Hm.
  - exists v. cbn [advance_n]. change (Z.of_nat 0) with 0.
    rewrite Z.mul_0_l, !Z.add_0_r. repeat split.
  - cbn [advance_n].
    destruct (advance_plain g v Hn H0 ltac:(lia) (Hm 1 ltac:(lia))) as (v1 & E1 & L1 & N1).
    rewrite E1. cbn [mbind option_bind].
    destruct (IH v1 Hn ltac:(lia) ltac:(lia)) as (vk & Ek & Lk & Nk).
    { intros j Hj. rewrite N1. replace (num_captured_frames v + 1 + j)
        with (num_captured_frames v + (1 + j)) by lia. apply Hm. lia. }
    exists vk. split; [exact Ek|]. split; [|lia].
    rewrite Lk, L1, u64_add_idem. f_equal. lia.
Qed.

Lemma advance_n_snoc (g : gl_capture_s) (k : nat) :
  forall v, advance_n g (k + 1) v = advance_n g k v ≫= advance g.
Proof.
  induction k as [|k IH]; intros v; cbn [advance_n plus].
  - cbn [mbind option_bind]. destruct (advance g v); reflexivity.
  - destruct (advance g v) as [v1|]; cbn [mbind option_bind]; [apply IH | reflexivity].
Qed.

(** The rational fix keeps the frame rate exact.  Over [fps_rem_period]
    captured frames in a row, counted from a multiple of it, the
    schedule of a stream advances by [fps_rem_period * fps_period +
    fps_rem] nanoseconds, in 64 bit unsigned arithmetic: the fix is added
    once, with the last of these frames. *)
Theorem rational_fix_keeps_rate (g : gl_capture_s) (v : gl_capture_video_stream_s) :
  0 < fps_rem_period g ->
  0 <= num_captured_frames v ->
  num_captured_frames v + fps_rem_period g < 2 ^ 32 ->
  num_captured_frames v mod fps_rem_period g = 0 ->
  exists v',
    advance_n g (Z.to_nat (fps_rem_period g)) v = Some v'
    /\ last v' = u64 (last v + fps_rem_period g * fps_period g + fps_rem g)
    /\ num_captured_frames v' = num_captured_frames v + fps_rem_period g.
Proof.
  intros Hn H0 Hb Hm.
  set (n := fps_rem_period g) in *.
  replace (Z.to_nat n) with (Z.to_nat (n - 1) + 1)%nat by lia.
  rewrite advance_n_snoc.
  assert (Hmod : forall j, (num_captured_frames v + j) mod n = j mod n).
  { intros j. rewrite Zplus_mod, Hm, Z.add_0_l, Z.mod_mod by lia. reflexivity. }
  destruct (advance_n_plain g (Z.to_nat (n - 1)) v Hn H0 ltac:(lia)) as (vk & Ek & Lk & Nk).
  { intros j Hj. fold n. rewrite Hmod, Z.mod_small by lia. lia. }
  rewrite Ek. cbn [mbind option_bind].
  destruct (advance_fix g vk Hn ltac:(lia) ltac:(lia)) as (v' & E' & L' & N').
  { fold n. rewrite Nk, Z2Nat.id by lia.
    replace (num_captured_frames v + (n - 1) + 1) with (num_captured_frames v + n) by lia.
    rewrite Hmod. apply Z_mod_same_full. }
  exists v'. split; [exact E'|]. split; [|lia].
  rewrite L', <- Z.add_assoc, <- u64_add_idem, Lk, u64_add_idem, Z2Nat.id by lia.
  f_equal. lia.
Qed.

Lemma rational_fix_keeps_rate_witness :
  exists v',
    advance_n gl_capture_init (Z.to_nat (fps_rem_period gl_capture_init))
      (new_stream (calm 0) 7 9) = Some v'
    /\ last v' = u64 (last (new_stream (calm 0) 7 9)
                      + fps_rem_period gl_capture_init * fps_period gl_capture_init
                      + fps_rem gl_capture_init)
    /\ num_captured_frames v'
       = num_captured_frames (new_stream (calm 0) 7 9) + fps_rem_period gl_capture_init.
Proof.
  apply (rational_fix_keeps_rate gl_capture_init (new_stream (calm 0) 7 9));
    vm_compute; try reflexivity; discriminate.
Defined.

End CaptureScheduleFacts.

Module CaptureConfigFacts.
Import GlCapture.

Lemma same_config_refl (g : gl_capture_s) : same_config g g.
Proof. unfold same_config. repeat split. Qed.

Lemma same_config_trans (g1 g2 g3 : gl_capture_s) :
  same_config g1 g2 -> same_config g2 g3 -> same_config g1 g3.
Proof. unfold same_config. intros H1 H2. repeat split; etransitivity; (apply H2 || apply H1). Qed.

Lemma same_config_video (l : list gl_capture_video_stream_s) (g : gl_capture_s) :
  same_config g (set_video l g).
Proof. unfold same_config. repeat split. Qed.

Lemma same_config_flags (f : Z) (g : gl_capture_s) : same_config g (set_g_flags f g).
Proof. unfold same_config. repeat split. Qed.

Lemma same_config_handle (hd : Z) (g : gl_capture_s) : same_config g (set_libGL_handle hd g).
Proof. unfold same_config. repeat split. Qed.

Lemma init_pbo_config (g : gl_capture_s) (e : world) :
  same_config g (snd (gl_capture_init_pbo g e)).
Proof.
  unfold gl_capture_init_pbo. destruct (e_gl_extensions e) as [[|]|]; cbn [snd];
    try apply same_config_refl.
  destruct (e_dlopen e =? 0); [|destruct (e_procs e)]; cbn [snd]; apply same_config_handle.
Qed.

Lemma update_config (g : gl_capture_s) (e : world) (v : gl_capture_video_stream_s) :
  same_config g (fst (fst (gl_capture_update_video_stream g e v)))
  /\ video (fst (fst (gl_capture_update_video_stream g e v))) = video g.
Proof.
  unfold gl_capture_update_video_stream.
  set (g1 := if negb (has_flag (g_flags g) GL_CAPTURE_USE_PBO)
                && has_flag (g_flags g) GL_CAPTURE_TRY_PBO
             then _ else g).
  assert (H1 : same_config g g1 /\ video g1 = video g).
  { unfold g1. destruct (negb _ && _); [|split; [apply same_config_refl | reflexivity]].
    pose proof (init_pbo_config g e) as Hp.
    assert (Hv : video (snd (gl_capture_init_pbo g e)) = video g).
    { unfold gl_capture_init_pbo. destruct (e_gl_extensions e) as [[|]|]; cbn [snd];
        try reflexivity.
      destruct (e_dlopen e =? 0); [|destruct (e_procs e)]; reflexivity. }
    destruct (gl_capture_init_pbo g e) as [ret g']. cbn [snd] in Hp, Hv.
    destruct (ret =? 0); (split; [eapply same_config_trans; [exact Hp | apply same_config_flags]
                                 | exact Hv]). }
  clearbody g1.
  destruct (if negb (e_geom_w e =? w (if format v =? 0
                                        then gl_capture_init_video_format g1 e v else v))
               || negb (e_geom_h e =? h (if format v =? 0
                                           then gl_capture_init_video_format g1 e v else v))
            then _ else _) as [v2 ev1].
  destruct (if has_flag (flags v2) GLC_VIDEO_NEED_COLOR_UPDATE then _ else _) as [v3 ev2].
  exact H1.
Qed.

Lemma stop_config (g g' : gl_capture_s) (sleeps : list sleep) :
  gl_capture_stop g sleeps = Some g' -> same_config g g'.
Proof.
  unfold gl_capture_stop, gl_capture_clear_video_streams.
  destruct (has_flag (g_flags g) GL_CAPTURE_CAPTURING); [|intros [= <-]; apply same_config_refl].
  destruct (clear_from _ _ _ _) as [l|]; [|discriminate]. cbn [mbind option_bind].
  intros [= <-]. eapply same_config_trans; [apply same_config_flags | apply same_config_video].
Qed.

Lemma error_config (g g' : gl_capture_s) (sleeps : list sleep) (evs : list event) :
  gl_capture_error g sleeps = Some (g', evs) -> same_config g g'.
Proof.
  unfold gl_capture_error.
  destruct (has_flag (g_flags g) GL_CAPTURE_CAPTURING).
  - destruct (gl_capture_stop g sleeps) as [g1|] eqn:E; [|discriminate].
    cbn [mbind option_bind]. intros [= <- _]. eapply stop_config. exact E.
  - cbn [mbind option_bind]. intros [= <- _]. apply same_config_refl.
Qed.

Lemma finish_config (g g' : gl_capture_s) (e : world) (k : nat)
  (v : gl_capture_video_stream_s) (ret ret' : Z) (evs evs' : list event) :
  finish g e k v ret evs = Some (ret', g', evs') -> same_config g g'.
Proof.
  unfold finish. destruct (ret =? 0).
  - intros [= _ <- _]. apply same_config_video.
  - destruct (gl_capture_error _ _) as [[g2 ev2]|] eqn:E; [|discriminate].
    cbn [mbind option_bind]. intros [= _ <- _].
    eapply same_config_trans; [apply same_config_video | eapply error_config; exact E].
Qed.

Lemma publish_config (g g' : gl_capture_s) (e : world) (k : nat)
  (v : gl_capture_video_stream_s) (now ret' : Z) (evs evs' : list event) :
  publish g e k v now evs = Some (ret', g', evs') -> same_config g g'.
Proof.
  unfold publish, cancel. cbv zeta.
  repeat match goal with
         | |- context [if ?b then _ else _] =>
             match b with
             | context [if _ then _ else _] => fail 1
             | _ => destruct b
             end
         end;
    try (apply finish_config).
  all: destruct (advance g _) as [v3|]; [|discriminate]; cbn [mbind option_bind];
    apply finish_config.
Qed.

Lemma frame_config (g g' : gl_capture_s) (e : world) (d dr ret : Z) (evs : list event) :
  gl_capture_frame g e d dr = Some (ret, g', evs) -> same_config g g'.
Proof.
  unfold gl_capture_frame.
  destruct (negb (has_flag (g_flags g) GL_CAPTURE_CAPTURING));
    [intros [= _ <- _]; apply same_config_refl|].
  assert (H1 : same_config g (snd (gl_capture_get_video_stream g e d dr))).
  { unfold gl_capture_get_video_stream.
    destruct (match find_stream (video g) d dr with Some k => _ | None => _ end) as [k l].
    apply same_config_video. }
  destruct (gl_capture_get_video_stream g e d dr) as [k g1]. cbn [snd] in H1.
  destruct (video g1 !! k) as [v|]; [|discriminate]. cbn [mbind option_bind].
  destruct (too_early g1 v _).
  - intros H. eapply same_config_trans; [exact H1 | eapply finish_config; exact H].
  - pose proof (proj1 (update_config g1 e v)) as H2.
    destruct (gl_capture_update_video_stream g1 e v) as [[g2 v1] ev]. cbn [fst] in H2.
    cbv zeta. destruct (has_flag (g_flags g2) GL_CAPTURE_USE_PBO && _); intros H;
      (eapply same_config_trans; [exact H1|]; eapply same_config_trans; [exact H2|]).
    + eapply finish_config; exact H.
    + eapply publish_config; exact H.
Qed.

(** [frame()] writes the flags, the stream list and the handle of libGL
    and nothing else of the component: the read buffer, the frame period
    and its rational fix, the target buffer, the pixel format, the pack
    alignment and the crop rectangle are after the call what the setters
    made them, whatever happened during the call. *)
Theorem frame_keeps_config (g g' : gl_capture_s) (e : world) (d dr ret : Z)
  (evs : list event) :
  gl_capture_frame g e d dr = Some (ret, g', evs) -> same_config g g'.
Proof. apply frame_config. Qed.

Lemma frame_keeps_config_witness : same_config started after_first.
Proof.
  destruct (gl_capture_frame started (calm 33333333) 7 9) as [[[ret g'] evs]|] eqn:E;
    [|vm_compute in E; discriminate E].
  assert (Hg : g' = after_first) by (vm_compute in E; injection E as _ <- _; reflexivity).
  rewrite <- Hg. exact (frame_keeps_config _ _ _ _ _ _ _ E).
Defined.

Lemma config_ok_same (g g' : gl_capture_s) : same_config g g' -> config_ok g -> config_ok g'.
Proof.
  unfold same_config, config_ok.
  intros (-> & _ & _ & _ & _ & -> & -> & -> & _). tauto.
Qed.

Lemma run_config_ok (d2q : spec_float -> Z -> Z * Z) (divq : Z * Z -> Z * Z -> Z * Z)
  (c : call) (g g' : gl_capture_s) (ret : Z) (evs : list event) :
  config_ok g -> run d2q divq c g = Some (ret, g', evs) -> config_ok g'.
Proof.
  intros Hok. destruct c; cbn [run]; unfold quiet.
  - unfold gl_capture_set_buffer. destruct (negb (to g =? 0)); intros [= _ <- _]; exact Hok.
  - unfold gl_capture_set_read_buffer.
    destruct (buffer =? GL_FRONT) eqn:E1; [|destruct (buffer =? GL_BACK) eqn:E2];
      cbn [orb fst snd]; intros [= _ <- _]; try exact Hok;
      unfold config_ok in *; cbn [g_format bpp pack_alignment capture_buffer];
      (split; [tauto|]; split; [tauto|]).
    + left. apply Z.eqb_eq. exact E1.
    + right. apply Z.eqb_eq. exact E2.
  - unfold gl_capture_set_fps. destruct (SFleb fps fzero); [|destruct (snd _ =? 0)];
      cbn [mbind option_bind fst snd]; [| discriminate |];
      intros [= _ <- _]; exact Hok.
  - unfold gl_capture_set_pack_alignment.
    destruct (pa =? 1) eqn:E1; [|destruct (pa =? 8) eqn:E2];
      cbn [orb fst snd]; intros [= _ <- _]; try exact Hok;
      unfold config_ok in *; cbn [g_format bpp pack_alignment capture_buffer];
      (split; [tauto|]; split; [|tauto]).
    + left. apply Z.eqb_eq. exact E1.
    + right. apply Z.eqb_eq. exact E2.
  - unfold gl_capture_try_pbo. destruct (negb (on =? 0)); [|destruct (has_flag _ _)];
      cbn [fst snd]; intros [= _ <- _]; exact Hok.
  - unfold gl_capture_set_pixel_format.
    destruct (fm =? GL_BGRA) eqn:E1; [|destruct (fm =? GL_BGR) eqn:E2];
      cbn [orb fst snd]; intros [= _ <- _]; try exact Hok;
      unfold config_ok in *; cbn [g_format bpp pack_alignment capture_buffer];
      (split; [|tauto]).
    + left. split; [apply Z.eqb_eq; exact E1 | reflexivity].
    + right. split; [apply Z.eqb_eq; exact E2 | reflexivity].
  - unfold gl_capture_draw_indicator, toggle. destruct (negb (on =? 0)); cbn [fst snd];
      intros [= _ <- _]; exact Hok.
  - unfold gl_capture_ignore_time, toggle. destruct (negb (on =? 0)); cbn [fst snd];
      intros [= _ <- _]; exact Hok.
  - unfold gl_capture_lock_fps, toggle. destruct (negb (on =? 0)); cbn [fst snd];
      intros [= _ <- _]; exact Hok.
  - unfold gl_capture_crop. destruct (_ && _); cbn [fst snd]; intros [= _ <- _]; exact Hok.
  - intros [= _ <- _]. unfold gl_capture_set_attribute_window.
    destruct (gl_capture_get_video_stream g e d dr) as [k g1] eqn:E. cbn [snd].
    assert (H1 : same_config g g1).
    { revert E. unfold gl_capture_get_video_stream.
      destruct (match find_stream (video g) d dr with Some k => _ | None => _ end) as [k0 l].
      intros [= _ <-]. apply same_config_video. }
    apply (config_ok_same g); [|exact Hok].
    eapply same_config_trans; [exact H1 | apply same_config_video].
  - intros [= _ <- _]. exact Hok.
  - unfold gl_capture_start. destruct (to g =? 0); cbn [fst snd]; intros [= _ <- _]; exact Hok.
  - destruct (gl_capture_stop g sleeps) as [g1|] eqn:E; [|discriminate].
    cbn [mbind option_bind]. intros [= _ <- _].
    apply (config_ok_same g); [eapply stop_config; exact E | exact Hok].
  - intros H. apply (config_ok_same g); [eapply frame_config; exact H | exact Hok].
Qed.

(** Whatever is called on a component, in whatever order and with
    whatever arguments, the pixel format and the bytes per pixel stay
    consistent (BGRA with 4, BGR with 3), the pack alignment is 1 or 8 and
    the read buffer GL_FRONT or GL_BACK: a setter that refuses its
    argument changes nothing, and no other call writes these fields. *)
Theorem config_stays_ok (d2q : spec_float -> Z -> Z * Z) (divq : Z * Z -> Z * Z -> Z * Z)
  (cs : list call) (g' : gl_capture_s) (evs : list event) :
  run_all d2q divq cs gl_capture_init = Some (g', evs) -> config_ok g'.
Proof.
  assert (H : forall cs g g' evs, config_ok g -> run_all d2q divq cs g = Some (g', evs) ->
                                  config_ok g').
  { clear cs g' evs. induction cs as [|c cs IH]; intros g g' evs Hok; cbn [run_all].
    - intros [= <- _]. exact Hok.
    - destruct (run d2q divq c g) as [[[ret g1] ev1]|] eqn:E; [|discriminate].
      cbn [mbind option_bind].
      destruct (run_all d2q divq cs g1) as [[g2 ev2]|] eqn:E2; [|discriminate].
      cbn [mbind option_bind]. intros [= <- _].
      apply (IH g1 g2 ev2); [|exact E2]. eapply run_config_ok; [exact Hok | exact E]. }
  apply H. unfold config_ok. cbn. split; [left; split; reflexivity|].
  split; [right | left]; reflexivity.
Qed.

Lemma config_stays_ok_witness :
  config_ok (snd (gl_capture_set_pixel_format
                    (snd (gl_capture_set_pixel_format gl_capture_init GL_BGR)) 0)).
Proof.
  apply (config_stays_ok (fun _ _ => (1, 1)) (fun a _ => a)
           [SetPixelFormat GL_BGR; SetPixelFormat 0] _ []).
  reflexivity.
Defined.

End CaptureConfigFacts.

Module CaptureStreamFacts.
Import GlCapture.

Lemma find_stream_alter (f : gl_capture_video_stream_s -> gl_capture_video_stream_s)
  (l : list gl_capture_video_stream_s) (k : nat) (d dr : Z) :
  (forall v, dpy (f v) = dpy v /\ drawable (f v) = drawable v) ->
  find_stream (alter f k l) d dr = find_stream l d dr.
Proof.
  intros Hf. revert k. induction l as [|v l IH]; intros k; [reflexivity|].
  destruct k as [|k]; cbn [alter list_alter find_stream].
  - destruct (Hf v) as [-> ->]. reflexivity.
  - rewrite IH. reflexivity.
Qed.

Lemma find_stream_some (l : list gl_capture_video_stream_s) (d dr : Z) (k : nat) :
  find_stream l d dr = Some k -> exists v, l !! k = Some v /\ dpy v = d /\ drawable v = dr.
Proof.
  revert k. induction l as [|v l IH]; intros k; cbn [find_stream]; [discriminate|].
  destruct ((drawable v =? dr) && (dpy v =? d)) eqn:E.
  - intros [= <-]. apply andb_true_iff in E. destruct E as [E1 E2].
    exists v. repeat split; [apply Z.eqb_eq; exact E2 | apply Z.eqb_eq; exact E1].
  - destruct (find_stream l d dr) as [k'|]; [|discriminate]. intros [= <-].
    destruct (IH k' eq_refl) as (v' & H1 & H2). exists v'. split; assumption.
Qed.

Lemma acquire_twice (v : gl_capture_video_stream_s) : acquire (acquire v) = acquire v.
Proof.
  unfold acquire, set_flag. cbn [flags set_flags].
  rewrite <- Z.lor_assoc, Z.lor_diag. reflexivity.
Qed.

Lemma capturing_acquire (v : gl_capture_video_stream_s) : capturing (acquire v) = true.
Proof.
  unfold capturing, acquire. cbn [flags set_flags].
  unfold has_flag, set_flag. rewrite Z.land_lor_distr_l, Z.land_diag.
  destruct (Z.lor (Z.land (flags v) GLC_VIDEO_CAPTURING) GLC_VIDEO_CAPTURING =? 0) eqn:E;
    [|reflexivity].
  apply Z.eqb_eq, Z.lor_eq_0_iff in E. destruct E as [_ E]. discriminate E.
Qed.

Lemma alter_twice {A} (f : A -> A) (k : nat) (l : list A) :
  (forall x, f (f x) = f x) -> alter f k (alter f k l) = alter f k l.
Proof.
  intros Hf. revert k. induction l as [|x l IH]; intros [|k]; cbn [alter list_alter];
    try reflexivity.
  - rewrite Hf. reflexivity.
  - rewrite IH. reflexivity.
Qed.

(** [gl_capture_get_video_stream] hands out one node per pair of display
    and drawable.  The node it returns carries the pair and has its
    CAPTURING bit set; asking again for the same pair, at any later
    time, returns the same node and leaves the component as it is; and a
    call adds at most one node, at the head. *)
Theorem get_video_stream_reuses_node (g : gl_capture_s) (e e' : world) (d dr : Z) :
  let k := fst (gl_capture_get_video_stream g e d dr) in
  let g1 := snd (gl_capture_get_video_stream g e d dr) in
  gl_capture_get_video_stream g1 e' d dr = (k, g1)
  /\ (exists v, video g1 !! k = Some v
                /\ dpy v = d /\ drawable v = dr /\ capturing v = true)
  /\ (find_stream (video g) d dr = Some k /\ length (video g1) = length (video g)
      \/ find_stream (video g) d dr = None /\ k = 0%nat
         /\ video g1 = acquire (new_stream e d dr) :: video g).
Proof.
  cbv zeta.
  assert (Hacq : forall v, dpy (acquire v) = dpy v /\ drawable (acquire v) = drawable v)
    by (intros v; split; reflexivity).
  destruct (gl_capture_get_video_stream g e d dr) as [k g1] eqn:E. cbn [fst snd].
  revert E. unfold gl_capture_get_video_stream.
  destruct (find_stream (video g) d dr) as [k0|] eqn:F; intros [= <- <-];
    cbn [video set_video].
  - destruct (find_stream_some _ _ _ _ F) as (v & Hv & Hd & Hdr).
    split; [|split].
    + rewrite find_stream_alter, F by exact Hacq.
      rewrite alter_twice by apply acquire_twice. reflexivity.
    + exists (acquire v). rewrite list_lookup_alter_eq, Hv.
      repeat split; try assumption. apply capturing_acquire.
    + left. split; [reflexivity | apply length_alter].
  - split; [|split].
    + cbn [alter list_alter find_stream].
      cbn [drawable dpy acquire new_stream set_flags]. rewrite !Z.eqb_refl. cbn [andb].
      cbn [alter list_alter]. rewrite acquire_twice. reflexivity.
    + exists (acquire (new_stream e d dr)). repeat split.
    + right. repeat split.
Qed.

Lemma poll_idle (sleeps : list sleep) (k : nat) (l : list gl_capture_video_stream_s)
  (v : gl_capture_video_stream_s) :
  l !! k = Some v -> capturing v = false -> poll sleeps k l = Some (l, sleeps).
Proof. intros Hk Hc. destruct sleeps; cbn [poll]; rewrite Hk, Hc; reflexivity. Qed.

Lemma clear_from_idle (n : nat) :
  forall (k : nat) (sleeps : list sleep) (l : list gl_capture_video_stream_s),
  length l = (k + n)%nat ->
  Forall (fun v => capturing v = false) l ->
  exists l', clear_from n k sleeps l = Some l'
    /\ forall i, l' !! i = if decide (k <= i)%nat then set_last 0 <$> l !! i else l !! i.
Proof.
  induction n as [|n IH]; intros k sleeps l Hlen Hidle; cbn [clear_from].
  - exists l. split; [reflexivity|]. intros i.
    destruct (decide (k <= i)%nat) as [Hi|Hi]; [|reflexivity].
    rewrite lookup_ge_None_2 by lia. reflexivity.
  - destruct (lookup_lt_is_Some_2 l k ltac:(lia)) as [v Hv].
    assert (Hc : capturing v = false) by (rewrite Forall_lookup in Hidle; exact (Hidle _ _ Hv)).
    rewrite (poll_idle sleeps k l v Hv Hc). cbn [mbind option_bind].
    destruct (IH (S k) sleeps (alter (set_last 0) k l)) as (l' & E & Hl').
    + rewrite length_alter. lia.
    + apply Forall_lookup. intros i x Hx.
      destruct (decide (i = k)) as [-> | Hne].
      * rewrite list_lookup_alter_eq, Hv in Hx. cbn in Hx. injection Hx as <-. exact Hc.
      * rewrite list_lookup_alter_ne in Hx by congruence.
        rewrite Forall_lookup in Hidle. exact (Hidle _ _ Hx).
    + exists l'. split; [exact E|]. intros i. rewrite Hl'.
      destruct (decide (S k <= i)%nat) as [H1|H1]; destruct (decide (k <= i)%nat) as [H2|H2];
        try lia.
      * rewrite list_lookup_alter_ne by lia. reflexivity.
      * assert (i = k) by lia. subst i. rewrite list_lookup_alter_eq. reflexivity.
      * rewrite list_lookup_alter_ne by lia. reflexivity.
Qed.

Lemma stop_idle (g : gl_capture_s) (sleeps : list sleep) :
  has_flag (g_flags g) GL_CAPTURE_CAPTURING = true ->
  Forall (fun v => capturing v = false) (video g) ->
  gl_capture_stop g sleeps
  = Some (set_video (map (set_last 0) (video g))
            (set_g_flags (clear_flag (g_flags g) GL_CAPTURE_CAPTURING) g)).
Proof.
  intros Hcap Hidle. unfold gl_capture_stop, gl_capture_clear_video_streams. rewrite Hcap.
  cbn [video set_g_flags].
  destruct (clear_from_idle (length (video g)) 0 sleeps (video g) eq_refl Hidle)
    as (l' & E & Hl').
  rewrite E. cbn [mbind option_bind]. do 2 f_equal.
  apply list_eq. intros i. rewrite Hl', list_lookup_fmap.
  destruct (decide (0 <= i)%nat); [reflexivity | lia].
Qed.

(** A [stop()] that finds the component capturing and no frame in
    flight never sleeps: it returns, whatever the other threads would
    have done during a sleep, with the component flag cleared and the
    [last] of every stream set to 0, and changes nothing else. *)
Theorem stop_returns_when_idle (g : gl_capture_s) (sleeps : list sleep) :
  has_flag (g_flags g) GL_CAPTURE_CAPTURING = true ->
  Forall (fun v => capturing v = false) (video g) ->
  gl_capture_stop g sleeps
  = Some (set_video (map (set_last 0) (video g))
            (set_g_flags (clear_flag (g_flags g) GL_CAPTURE_CAPTURING) g)).
Proof. apply stop_idle. Qed.

Lemma stop_returns_when_idle_witness :
  gl_capture_stop after_first []
  = Some (set_video (map (set_last 0) (video after_first))
            (set_g_flags (clear_flag (g_flags after_first) GL_CAPTURE_CAPTURING) after_first)).
Proof.
  apply (stop_returns_when_idle after_first []); [reflexivity|].
  repeat (constructor; [reflexivity|]). constructor.
Defined.

End CaptureStreamFacts.

Module CaptureFrameFacts.
Import GlCapture.

(** *** What the update of a stream leaves alone *)

Lemma init_video_format_keeps (g : gl_capture_s) (e : world) (v : gl_capture_video_stream_s) :
  last (gl_capture_init_video_format g e v) = last v
  /\ id (gl_capture_init_video_format g e v) = id v
  /\ dpy (gl_capture_init_video_format g e v) = dpy v
  /\ drawable (gl_capture_init_video_format g e v) = drawable v
  /\ num_captured_frames (gl_capture_init_video_format g e v) = num_captured_frames v.
Proof.
  unfold gl_capture_init_video_format. destruct (pack_alignment g =? 8); repeat split.
Qed.

Lemma write_video_format_keeps (g : gl_capture_s) (e : world) (v : gl_capture_video_stream_s)
  (w' h' : Z) :
  last (fst (gl_capture_write_video_format_message g e v w' h')) = last v
  /\ id (fst (gl_capture_write_video_format_message g e v w' h')) = id v
  /\ dpy (fst (gl_capture_write_video_format_message g e v w' h')) = dpy v
  /\ drawable (fst (gl_capture_write_video_format_message g e v w' h')) = drawable v
  /\ num_captured_frames (fst (gl_capture_write_video_format_message g e v w' h'))
     = num_captured_frames v
  /\ frame_headers (snd (gl_capture_write_video_format_message g e v w' h')) = [].
Proof.
  unfold gl_capture_write_video_format_message, gl_capture_calc_geometry.
  destruct (if has_flag (g_flags g) GL_CAPTURE_CROP then _ else _) as [[[cw' ch'] cx'] cy'].
  cbv zeta. destruct (has_flag (g_flags g) GL_CAPTURE_USE_PBO); repeat split.
Qed.

Lemma update_color_keeps (e : world) (v : gl_capture_video_stream_s) :
  last (fst (gl_capture_update_color e v)) = last v
  /\ id (fst (gl_capture_update_color e v)) = id v
  /\ dpy (fst (gl_capture_update_color e v)) = dpy v
  /\ drawable (fst (gl_capture_update_color e v)) = drawable v
  /\ num_captured_frames (fst (gl_capture_update_color e v)) = num_captured_frames v
  /\ frame_headers (snd (gl_capture_update_color e v)) = [].
Proof.
  unfold gl_capture_update_color. cbv zeta.
  destruct (SFeqb _ _ && SFeqb _ _ && SFeqb _ _); [repeat split|].
  destruct (negb (e_color_open e =? 0)); [repeat split|].
  destruct (negb _ || negb _ || negb _); repeat split.
Qed.

Lemma update_keeps (g : gl_capture_s) (e : world) (v : gl_capture_video_stream_s) :
  last (snd (fst (gl_capture_update_video_stream g e v))) = last v
  /\ id (snd (fst (gl_capture_update_video_stream g e v))) = id v
  /\ dpy (snd (fst (gl_capture_update_video_stream g e v))) = dpy v
  /\ drawable (snd (fst (gl_capture_update_video_stream g e v))) = drawable v
  /\ num_captured_frames (snd (fst (gl_capture_update_video_stream g e v)))
     = num_captured_frames v
  /\ frame_headers (snd (gl_capture_update_video_stream g e v)) = [].
Proof.
  unfold gl_capture_update_video_stream.
  set (g1 := if negb (has_flag (g_flags g) GL_CAPTURE_USE_PBO)
                && has_flag (g_flags g) GL_CAPTURE_TRY_PBO
             then _ else g). clearbody g1.
  set (v1 := if format v =? 0 then gl_capture_init_video_format g1 e v else v).
  assert (H1 : last v1 = last v /\ id v1 = id v /\ dpy v1 = dpy v /\ drawable v1 = drawable v
               /\ num_captured_frames v1 = num_captured_frames v).
  { unfold v1. destruct (format v =? 0); [apply init_video_format_keeps | repeat split]. }
  clearbody v1.
  pose proof (write_video_format_keeps g1 e v1 (e_geom_w e) (e_geom_h e)) as H2.
  destruct (gl_capture_write_video_format_message g1 e v1 (e_geom_w e) (e_geom_h e))
    as [v2' ev1'].
  cbn [fst snd] in H2.
  set (r2 := if negb (e_geom_w e =? w v1) || negb (e_geom_h e =? h v1)
             then (v2', ev1') else (v1, [])).
  assert (H2' : last (fst r2) = last v /\ id (fst r2) = id v /\ dpy (fst r2) = dpy v
                /\ drawable (fst r2) = drawable v
                /\ num_captured_frames (fst r2) = num_captured_frames v
                /\ frame_headers (snd r2) = []).
  { unfold r2. destruct (negb _ || negb _); cbn [fst snd].
    - destruct H1 as (<- & <- & <- & <- & <-). exact H2.
    - destruct H1 as (-> & -> & -> & -> & ->). repeat split. }
  clearbody r2. destruct r2 as [v2 ev1]. cbn [fst snd] in H2'.
  pose proof (update_color_keeps e v2) as H3.
  destruct (gl_capture_update_color e v2) as [v3' ev2'].
  cbn [fst snd] in H3.
  set (r3 := if has_flag (flags v2) GLC_VIDEO_NEED_COLOR_UPDATE then (v3', ev2') else (v2, [])).
  assert (H3' : last (fst r3) = last v /\ id (fst r3) = id v /\ dpy (fst r3) = dpy v
                /\ drawable (fst r3) = drawable v
                /\ num_captured_frames (fst r3) = num_captured_frames v
                /\ frame_headers (snd r3) = []).
  { unfold r3. destruct (has_flag (flags v2) GLC_VIDEO_NEED_COLOR_UPDATE); cbn [fst snd].
    - destruct H2' as (<- & <- & <- & <- & <- & _). exact H3.
    - destruct H2' as (-> & -> & -> & -> & -> & _). repeat split. }
  clearbody r3. destruct r3 as [v3 ev2]. cbn [fst snd] in H3'.
  cbn [fst snd]. unfold frame_headers in *. rewrite omap_app.
  destruct H2' as (_ & _ & _ & _ & _ & ->). destruct H3' as (L & I & D & R & N & ->).
  destruct (has_flag (g_flags g1) GL_CAPTURE_DRAW_INDICATOR && (indicator_list v3 =? 0));
    repeat split; assumption.
Qed.

(** *** The node of the call and the end of a published frame *)

Lemma find_stream_valid (l : list gl_capture_video_stream_s) (d dr : Z) (k : nat) :
  find_stream l d dr = Some k ->
  exists v, l !! k = Some v /\ dpy v = d /\ drawable v = dr.
Proof.
  revert k. induction l as [|v l IH]; intros k; cbn [find_stream]; [discriminate|].
  destruct ((drawable v =? dr) && (dpy v =? d)) eqn:E.
  - intros [= <-]. apply andb_true_iff in E. destruct E as [E1 E2].
    exists v. repeat split; [apply Z.eqb_eq; exact E2 | apply Z.eqb_eq; exact E1].
  - destruct (find_stream l d dr) as [k'|]; [|discriminate]. intros [= <-].
    destruct (IH k' eq_refl) as (v' & H1 & H2). exists v'. split; assumption.
Qed.

Lemma find_stream_insert (l : list gl_capture_video_stream_s) (d dr : Z) (k : nat)
  (x : gl_capture_video_stream_s) :
  find_stream l d dr = Some k -> dpy x = d -> drawable x = dr ->
  find_stream (<[k := x]> l) d dr = Some k.
Proof.
  intros F Hd Hdr. revert k F. induction l as [|v l IH]; intros k; cbn [find_stream];
    [discriminate|].
  destruct ((drawable v =? dr) && (dpy v =? d)) eqn:E.
  - intros [= <-]. change (<[0%nat := x]> (v :: l)) with (x :: l). cbn [find_stream].
    rewrite Hd, Hdr, !Z.eqb_refl. reflexivity.
  - destruct (find_stream l d dr) as [k'|] eqn:F; [|discriminate]. intros [= <-].
    change (<[S k' := x]> (v :: l)) with (v :: <[k' := x]> l). cbn [find_stream].
    rewrite E, (IH k' eq_refl). reflexivity.
Qed.

Lemma find_stream_altered (f : gl_capture_video_stream_s -> gl_capture_video_stream_s)
  (l : list gl_capture_video_stream_s) (k : nat) (d dr : Z) :
  (forall v, dpy (f v) = dpy v /\ drawable (f v) = drawable v) ->
  find_stream (alter f k l) d dr = find_stream l d dr.
Proof.
  intros Hf. revert k. induction l as [|v l IH]; intros k; [reflexivity|].
  destruct k as [|k]; cbn [alter list_alter find_stream].
  - destruct (Hf v) as [-> ->]. reflexivity.
  - rewrite IH. reflexivity.
Qed.

(** The node [gl_capture_get_video_stream] hands out, and the list it
    sits in. *)
Lemma get_node (g : gl_capture_s) (e : world) (d dr : Z) :
  exists v0,
    video (snd (gl_capture_get_video_stream g e d dr))
      !! fst (gl_capture_get_video_stream g e d dr) = Some (acquire v0)
    /\ find_stream (video (snd (gl_capture_get_video_stream g e d dr))) d dr
       = Some (fst (gl_capture_get_video_stream g e d dr))
    /\ last v0 = last_publish_time g d dr
    /\ (v0 = new_stream e d dr /\ find_stream (video g) d dr = None
        \/ exists k, find_stream (video g) d dr = Some k /\ video g !! k = Some v0)
    /\ (forall i x, i <> fst (gl_capture_get_video_stream g e d dr) ->
        video (snd (gl_capture_get_video_stream g e d dr)) !! i = Some x ->
        exists j, video g !! j = Some x)
    /\ g_flags (snd (gl_capture_get_video_stream g e d dr)) = g_flags g
    /\ same_config g (snd (gl_capture_get_video_stream g e d dr)).
Proof.
  assert (Hacq : forall v, dpy (acquire v) = dpy v /\ drawable (acquire v) = drawable v)
    by (intros v; split; reflexivity).
  unfold gl_capture_get_video_stream, last_publish_time.
  destruct (find_stream (video g) d dr) as [k|] eqn:Ef; cbn [fst snd video set_video].
  - destruct (find_stream_valid _ _ _ _ Ef) as (v0 & Hv0 & _).
    exists v0. rewrite list_lookup_alter_eq, Hv0, find_stream_altered, Ef by exact Hacq.
    repeat split; try reflexivity.
    + right. exists k. split; [reflexivity | exact Hv0].
    + intros i x Hi Hx. rewrite list_lookup_alter_ne in Hx by congruence. eauto.
  - exists (new_stream e d dr). cbn [alter list_alter lookup list_lookup find_stream].
    cbn [drawable dpy acquire new_stream set_flags]. rewrite !Z.eqb_refl.
    repeat split; try reflexivity.
    + left. split; reflexivity.
    + intros [|i] x Hi Hx; [congruence|]. exists i. exact Hx.
Qed.

Lemma publish_ready (g : gl_capture_s) (e : world) (k : nat) (v : gl_capture_video_stream_s)
  (now : Z) (evs : list event) :
  has_flag (g_flags g) GL_CAPTURE_USE_PBO = false ->
  ready e = true ->
  fps_rem_period g <> 0 ->
  exists v3,
    publish g e k v now evs
    = Some (0, set_video (<[k := release v3]> (video g)) g,
            (evs ++ [Opened])
            ++ [Published (GLC_MESSAGE_VIDEO_FRAME {| vfh_id := id v; vfh_time := now |})
                  (u32 (row v * ch v))])
    /\ (last v3 = u64 (last v + fps_period g)
        \/ last v3 = u64 (u64 (last v + fps_period g) + fps_rem g))
    /\ dpy v3 = dpy v /\ drawable v3 = drawable v.
Proof.
  intros Hu Hready Hrem.
  unfold ready in Hready. rewrite !andb_true_iff in Hready.
  destruct Hready as [[[[Ho Hs] Hm] Hpc] Hd].
  unfold publish. rewrite Ho, Hs, Hm, Hpc, Hd, Hu. cbn [negb andb].
  unfold advance. destruct (fps_rem_period g =? 0) eqn:E; [apply Z.eqb_eq in E; contradiction|].
  cbn [mbind option_bind]. unfold finish. cbn [Z.eqb].
  eexists. split; [reflexivity|].
  destruct (gather_stats v =? 0);
    (destruct (_ mod fps_rem_period g =? 0); cbn [last dpy drawable set_last set_stats];
     repeat split; auto).
Qed.

(** A frame that is published carries the time the schedule works
    with: the clock, or with IGNORE_TIME the time the schedule had for
    the stream plus one period, so that the frames of such a capture are
    stamped one period apart whatever the clock says.  The call returns
    0, publishes this one frame and moves the schedule of the stream on
    by one period, or by one period and the rational fix. *)
Theorem published_frame_timestamp (g : gl_capture_s) (e : world) (d dr : Z) :
  has_flag (g_flags g) GL_CAPTURE_CAPTURING = true ->
  has_flag (g_flags g) GL_CAPTURE_USE_PBO = false ->
  has_flag (g_flags g) GL_CAPTURE_TRY_PBO = false ->
  ready e = true ->
  fps_rem_period g <> 0 ->
  has_flag (g_flags g) GL_CAPTURE_LOCK_FPS = true
  \/ has_flag (g_flags g) GL_CAPTURE_IGNORE_TIME = true
  \/ fps_period g <= u64 (e_now e - last_publish_time g d dr) ->
  exists g' evs hd payload,
    gl_capture_frame g e d dr = Some (0, g', evs)
    /\ frame_headers evs = [(hd, payload)]
    /\ vfh_time hd = (if has_flag (g_flags g) GL_CAPTURE_IGNORE_TIME
                      then u64 (last_publish_time g d dr + fps_period g)
                      else e_now e)
    /\ (last_publish_time g' d dr = u64 (last_publish_time g d dr + fps_period g)
        \/ last_publish_time g' d dr
           = u64 (u64 (last_publish_time g d dr + fps_period g) + fps_rem g)).
Proof.
  intros Hcap Hu Ht Hready Hrem Hdue.
  unfold gl_capture_frame. rewrite Hcap. cbn [negb].
  destruct (get_node g e d dr) as (v0 & Hk & Hfind & Hl & _ & _ & Hf & Hcfg).
  destruct (gl_capture_get_video_stream g e d dr) as [k g1]. cbn [fst snd] in *.
  rewrite Hk. cbn [mbind option_bind].
  assert (Hp : fps_period g1 = fps_period g) by apply Hcfg.
  assert (Hr : fps_rem g1 = fps_rem g) by apply Hcfg.
  assert (Hrp : fps_rem_period g1 = fps_rem_period g) by apply Hcfg.
  assert (Hlast : last (acquire v0) = last_publish_time g d dr) by exact Hl.
  rewrite Hf, Hp, Hlast.
  set (now := if has_flag (g_flags g) GL_CAPTURE_IGNORE_TIME
              then u64 (last_publish_time g d dr + fps_period g) else e_now e).
  assert (Hearly : too_early g1 (acquire v0) now = false).
  { unfold too_early, now. rewrite Hf, Hp, Hlast.
    destruct (has_flag (g_flags g) GL_CAPTURE_IGNORE_TIME); [apply andb_false_r|].
    destruct (has_flag (g_flags g) GL_CAPTURE_LOCK_FPS);
      [cbn [negb]; rewrite andb_false_r; reflexivity|].
    destruct Hdue as [Hd | [Hd | Hd]]; try discriminate.
    destruct (u64 (e_now e - last_publish_time g d dr) <? fps_period g) eqn:E;
      [lia | reflexivity]. }
  rewrite Hearly.
  pose proof (CaptureFacts.update_without_pbo g1 e (acquire v0)) as Hg2.
  rewrite Hf in Hg2. specialize (Hg2 Hu Ht).
  pose proof (update_keeps g1 e (acquire v0)) as (UL & UI & UD & UR & _ & UF).
  destruct (gl_capture_update_video_stream g1 e (acquire v0)) as [[g2 v1] evu].
  cbn [fst snd] in Hg2, UL, UI, UD, UR, UF. subst g2. cbv zeta.
  rewrite Hf, Hu. cbn [andb].
  set (v2 := set_stats (u32 (num_frames v1 + 1)) (num_captured_frames v1)
               (capture_time_ns v1) v1).
  destruct (publish_ready g1 e k v2 now evu) as (v3 & E & L3 & D3 & R3);
    [rewrite Hf; exact Hu | exact Hready | rewrite Hrp; exact Hrem |].
  rewrite E. eexists _, _, _, _. split; [reflexivity|].
  split; [|split].
  - unfold frame_headers in *. rewrite !omap_app, UF. reflexivity.
  - reflexivity.
  - unfold last_publish_time at 1 3. cbn [video set_video].
    assert (Hkey : dpy (release v3) = d /\ drawable (release v3) = dr).
    { cbn [dpy drawable release set_flags]. rewrite D3, R3.
      cbn [dpy drawable v2 set_stats]. rewrite UD, UR.
      destruct (find_stream_valid _ _ _ _ Hfind) as (x & Hx & Hxd & Hxr).
      rewrite Hk in Hx. injection Hx as <-. split; assumption. }
    rewrite (find_stream_insert _ _ _ _ _ Hfind (proj1 Hkey) (proj2 Hkey)).
    rewrite list_lookup_insert_eq by (apply lookup_lt_Some in Hk; exact Hk).
    cbn [from_option last release set_flags].
    assert (L2 : last v2 = last_publish_time g d dr) by (cbn [last v2 set_stats]; congruence).
    rewrite L2, Hp, Hr in L3. exact L3.
Qed.

Lemma published_frame_timestamp_witness :
  exists g' evs hd payload,
    gl_capture_frame (snd (gl_capture_ignore_time started 1)) (calm 5) 7 9 = Some (0, g', evs)
    /\ frame_headers evs = [(hd, payload)]
    /\ vfh_time hd = 33333333.
Proof.
  destruct (published_frame_timestamp (snd (gl_capture_ignore_time started 1)) (calm 5) 7 9)
    as (g' & evs & hd & payload & E & H1 & H2 & _);
    try reflexivity; [discriminate | right; left; reflexivity |].
  exists g', evs, hd, payload. split; [exact E|]. split; [exact H1 | exact H2].
Defined.

(** *** A packet call that fails *)

Lemma capturing_release (v : gl_capture_video_stream_s) : capturing (release v) = false.
Proof.
  unfold capturing, release. cbn [flags set_flags]. apply has_flag_clear_same. reflexivity.
Qed.

(** The first packet call after the open fails.  When the buffer is
    only busy ([EBUSY]) the frame is dropped: the call returns 0, the
    capture goes on and the schedule of the stream is not moved, so the
    next call tries again.  Any other error is returned to the caller
    and ends the capture: with no other frame in flight, the component
    flag is cleared, every stream is reset, the state is cancelled and
    so is the target buffer.  No frame is published either way. *)
Theorem frame_packet_error (g : gl_capture_s) (e : world) (d dr : Z) :
  has_flag (g_flags g) GL_CAPTURE_CAPTURING = true ->
  has_flag (g_flags g) GL_CAPTURE_USE_PBO = false ->
  has_flag (g_flags g) GL_CAPTURE_TRY_PBO = false ->
  has_flag (g_flags g) GL_CAPTURE_LOCK_FPS = true
  \/ has_flag (g_flags g) GL_CAPTURE_IGNORE_TIME = true
  \/ fps_period g <= u64 (e_now e - last_publish_time g d dr) ->
  e_open e = 0 ->
  e_setsize e <> 0 ->
  Forall (fun v => capturing v = false) (video g) ->
  exists g' evs,
    gl_capture_frame g e d dr
    = Some ((if e_setsize e =? EBUSY then 0 else e_setsize e), g', evs)
    /\ frame_headers evs = []
    /\ In Cancelled evs
    /\ (e_setsize e = EBUSY ->
        has_flag (g_flags g') GL_CAPTURE_CAPTURING = true
        /\ last_publish_time g' d dr = last_publish_time g d dr)
    /\ (e_setsize e <> EBUSY ->
        has_flag (g_flags g') GL_CAPTURE_CAPTURING = false
        /\ Forall drained (video g')
        /\ In StateCancelled evs
        /\ (to g <> 0 -> In BufferCancelled evs)).
Proof.
  intros Hcap Hu Ht Hdue Hopen Hsize Hidle.
  unfold gl_capture_frame. rewrite Hcap. cbn [negb].
  destruct (get_node g e d dr) as (v0 & Hk & Hfind & Hl & _ & Hothers & Hf & Hcfg).
  destruct (gl_capture_get_video_stream g e d dr) as [k g1]. cbn [fst snd] in *.
  rewrite Hk. cbn [mbind option_bind].
  assert (Hp : fps_period g1 = fps_period g) by apply Hcfg.
  assert (Hto : to g1 = to g) by apply Hcfg.
  assert (Hlast : last (acquire v0) = last_publish_time g d dr) by exact Hl.
  rewrite Hf, Hp, Hlast.
  set (now := if has_flag (g_flags g) GL_CAPTURE_IGNORE_TIME
              then u64 (last_publish_time g d dr + fps_period g) else e_now e).
  assert (Hearly : too_early g1 (acquire v0) now = false).
  { unfold too_early, now. rewrite Hf, Hp, Hlast.
    destruct (has_flag (g_flags g) GL_CAPTURE_IGNORE_TIME); [apply andb_false_r|].
    destruct (has_flag (g_flags g) GL_CAPTURE_LOCK_FPS);
      [cbn [negb]; rewrite andb_false_r; reflexivity|].
    destruct Hdue as [Hd | [Hd | Hd]]; try discriminate.
    destruct (u64 (e_now e - last_publish_time g d dr) <? fps_period g) eqn:E;
      [lia | reflexivity]. }
  rewrite Hearly.
  pose proof (CaptureFacts.update_without_pbo g1 e (acquire v0)) as Hg2.
  rewrite Hf in Hg2. specialize (Hg2 Hu Ht).
  pose proof (update_keeps g1 e (acquire v0)) as (UL & UI & UD & UR & _ & UF).
  destruct (gl_capture_update_video_stream g1 e (acquire v0)) as [[g2 v1] evu].
  cbn [fst snd] in Hg2, UL, UI, UD, UR, UF. subst g2. cbv zeta.
  rewrite Hf, Hu. cbn [andb].
  set (v2 := set_stats (u32 (num_frames v1 + 1)) (num_captured_frames v1)
               (capture_time_ns v1) v1).
  unfold publish. rewrite Hopen. cbn [Z.eqb negb].
  destruct (e_setsize e =? 0) eqn:Es; [apply Z.eqb_eq in Es; contradiction|]. cbn [negb].
  unfold cancel, finish.
  set (l2 := <[k := release v2]> (video g1)).
  assert (Hkey : dpy (release v2) = d /\ drawable (release v2) = dr).
  { cbn [dpy drawable release set_flags v2 set_stats]. rewrite UD, UR.
    destruct (find_stream_valid _ _ _ _ Hfind) as (x & Hx & Hxd & Hxr).
    rewrite Hk in Hx. injection Hx as <-. split; assumption. }
  assert (Hnoframe : forall tl, frame_headers tl = [] ->
            frame_headers (((evu ++ [Opened]) ++ [Cancelled]) ++ tl) = []).
  { intros tl Htl. unfold frame_headers in *. rewrite !omap_app, UF, Htl. reflexivity. }
  assert (Hcancelled : forall tl, In Cancelled (((evu ++ [Opened]) ++ [Cancelled]) ++ tl)).
  { intros tl. apply in_or_app. left. apply in_or_app. right. left. reflexivity. }
  destruct (e_setsize e =? EBUSY) eqn:Eb.
  - cbn [Z.eqb]. eexists _, _. split; [reflexivity|].
    split; [rewrite <- (app_nil_r (_ ++ [Cancelled])); apply Hnoframe; reflexivity|].
    split; [rewrite <- (app_nil_r (_ ++ [Cancelled])); apply Hcancelled|].
    split; [|intros Hne; apply Z.eqb_eq in Eb; contradiction].
    intros _. cbn [g_flags set_video]. rewrite Hf. split; [exact Hcap|].
    unfold last_publish_time at 1. cbn [video set_video]. fold l2. unfold l2.
    rewrite (find_stream_insert _ _ _ _ _ Hfind (proj1 Hkey) (proj2 Hkey)).
    rewrite list_lookup_insert_eq by (apply lookup_lt_Some in Hk; exact Hk).
    cbn [from_option last release set_flags v2 set_stats]. congruence.
  - rewrite Es.
    assert (Hidle2 : Forall (fun v => capturing v = false) l2).
    { apply Forall_lookup. intros i x Hx. unfold l2 in Hx.
      destruct (decide (i = k)) as [-> | Hne].
      - rewrite list_lookup_insert_eq in Hx by (apply lookup_lt_Some in Hk; exact Hk).
        injection Hx as <-. apply capturing_release.
      - rewrite list_lookup_insert_ne in Hx by congruence.
        destruct (Hothers i x Hne Hx) as [j Hj].
        rewrite Forall_lookup in Hidle. exact (Hidle _ _ Hj). }
    unfold gl_capture_error. cbn [g_flags set_video]. rewrite Hf, Hcap.
    rewrite (CaptureStreamFacts.stop_idle (set_video l2 g1) (e_sleeps e));
      [|cbn [g_flags set_video]; rewrite Hf; exact Hcap | exact Hidle2].
    cbn [mbind option_bind to set_video set_g_flags]. rewrite Hto.
    eexists _, _. split; [reflexivity|].
    split; [apply Hnoframe; destruct (to g =? 0); reflexivity|].
    split; [apply Hcancelled|].
    split; [intros Heq; apply Z.eqb_neq in Eb; contradiction|].
    intros _. cbn [g_flags video set_video set_g_flags]. rewrite Hf.
    split; [apply has_flag_clear_same; reflexivity|].
    split.
    + apply Forall_fmap. eapply Forall_impl; [exact Hidle2|].
      intros x Hx. split; [exact Hx | reflexivity].
    + split.
      * apply in_or_app. right. left. reflexivity.
      * intros Hto0. apply in_or_app. right. right.
        destruct (to g =? 0) eqn:E0; [apply Z.eqb_eq in E0; contradiction | left; reflexivity].
Qed.

Lemma frame_packet_error_witness :
  exists g' evs,
    gl_capture_frame started
      {| e_now := 40000000; e_before := 0; e_after := 0; e_done := 0;
         e_geom_w := 640; e_geom_h := 480; e_screen := 0;
         e_gamma_red := F32.one; e_gamma_green := F32.one; e_gamma_blue := F32.one;
         e_gl_extensions := Some false; e_dlopen := 0; e_procs := false;
         e_gen_list := 1; e_gen_buffer := 1; e_map_buffer := true;
         e_open := 0; e_setsize := 12; e_write_msg := 0; e_write_pic := 0; e_dma := 0;
         e_color_open := 0; e_color_write_hdr := 0; e_color_write_msg := 0;
         e_color_close := 0; e_new_id := 1; e_perf_log := false; e_sleeps := [] |} 7 9
    = Some (12, g', evs)
    /\ frame_headers evs = []
    /\ has_flag (g_flags g') GL_CAPTURE_CAPTURING = false.
Proof.
  destruct (frame_packet_error started
              {| e_now := 40000000; e_before := 0; e_after := 0; e_done := 0;
                 e_geom_w := 640; e_geom_h := 480; e_screen := 0;
                 e_gamma_red := F32.one; e_gamma_green := F32.one; e_gamma_blue := F32.one;
                 e_gl_extensions := Some false; e_dlopen := 0; e_procs := false;
                 e_gen_list := 1; e_gen_buffer := 1; e_map_buffer := true;
                 e_open := 0; e_setsize := 12; e_write_msg := 0; e_write_pic := 0;
                 e_dma := 0; e_color_open := 0; e_color_write_hdr := 0;
                 e_color_write_msg := 0; e_color_close := 0; e_new_id := 1;
                 e_perf_log := false; e_sleeps := [] |} 7 9)
    as (g' & evs & E & H1 & _ & _ & H2);
    try reflexivity;
    [right; right; vm_compute; discriminate | discriminate | constructor |].
  exists g', evs. split; [exact E|]. split; [exact H1|].
  apply H2. discriminate.
Defined.

End CaptureFrameFacts.

Module CaptureFirstFrameFacts.
Import GlCapture.

Lemma color_update_quiet (e : world) (v : gl_capture_video_stream_s) :
  format_messages (snd (gl_capture_update_color e v)) = []
  /\ frame_headers (snd (gl_capture_update_color e v)) = []
  /\ id (fst (gl_capture_update_color e v)) = id v
  /\ row (fst (gl_capture_update_color e v)) = row v
  /\ ch (fst (gl_capture_update_color e v)) = ch v.
Proof.
  unfold gl_capture_update_color. cbv zeta.
  destruct (SFeqb _ _ && SFeqb _ _ && SFeqb _ _); [repeat split|].
  destruct (negb (e_color_open e =? 0)); [repeat split|].
  destruct (negb _ || negb _ || negb _); repeat split.
Qed.

Lemma padded_row (gw gh bpp' pa : Z) :
  0 <= gw -> 0 <= gh -> 3 <= bpp' <= 4 -> pa = 1 \/ pa = 8 ->
  gh * (4 * gw + 8) < 2 ^ 32 -> gw <> 0 \/ gh <> 0 ->
  let row0 := u32 (gw * bpp') in
  let row1 := if negb (row0 mod pa =? 0) then u32 (row0 + u32 (pa - row0 mod pa)) else row0 in
  u32 (row1 * gh)
  = gh * (if (pa =? 8) && negb (gw * bpp' mod 8 =? 0)
          then gw * bpp' + (8 - gw * bpp' mod 8) else gw * bpp').
Proof.
  intros Hw Hh Hb Hpa Hsz Hnz. cbv zeta.
  assert (H0 : 0 <= gw * bpp') by nia.
  destruct (Z.eq_dec gh 0) as [-> | Hgh].
  - rewrite Z.mul_0_r, Z.mul_0_l. reflexivity.
  - assert (Hrow : gw * bpp' + 8 < 2 ^ 32) by nia.
    assert (A1 : 0 <= gh * (gw * bpp')) by (apply Z.mul_nonneg_nonneg; lia).
    assert (A2 : gh * (gw * bpp') <= gh * (4 * gw))
      by (apply Z.mul_le_mono_nonneg_l; nia).
    assert (A3 : 0 <= gh * 8) by lia.
    rewrite (u32_small (gw * bpp')) by lia.
    destruct Hpa as [-> | ->].
    + rewrite Z.mod_1_r. cbn [Z.eqb negb andb].
      rewrite (Z.mul_comm _ gh). rewrite u32_small by lia. reflexivity.
    + cbn [Z.eqb Pos.eqb andb].
      pose proof (Z.mod_pos_bound (gw * bpp') 8 ltac:(lia)) as Hm.
      destruct (gw * bpp' mod 8 =? 0) eqn:E; cbn [negb].
      * rewrite (Z.mul_comm _ gh). rewrite u32_small by lia. reflexivity.
      * rewrite (u32_small (8 - _)) by lia. rewrite (u32_small (gw * bpp' + _)) by lia.
        rewrite (Z.mul_comm _ gh).
        assert (A4 : gh * (gw * bpp' + (8 - gw * bpp' mod 8))
                     = gh * (gw * bpp') + gh * (8 - gw * bpp' mod 8)) by ring.
        assert (A5 : 0 <= gh * (8 - gw * bpp' mod 8) <= gh * 8)
          by (split; [apply Z.mul_nonneg_nonneg; lia | apply Z.mul_le_mono_nonneg_l; lia]).
        rewrite u32_small by lia. reflexivity.
Qed.

(** The first update of a stream: the format message it writes and the
    payload of the frames that follow. *)
Lemma update_new_stream (g : gl_capture_s) (e : world) (d dr : Z) :
  has_flag (g_flags g) GL_CAPTURE_USE_PBO = false ->
  has_flag (g_flags g) GL_CAPTURE_TRY_PBO = false ->
  has_flag (g_flags g) GL_CAPTURE_CROP = false ->
  config_ok g ->
  0 <= e_geom_w e -> 0 <= e_geom_h e ->
  e_geom_w e <> 0 \/ e_geom_h e <> 0 ->
  e_geom_h e * (4 * e_geom_w e + 8) < 2 ^ 32 ->
  exists v4 ev2,
    gl_capture_update_video_stream g e (acquire (new_stream e d dr))
    = (g, v4,
       [Opened;
        Published (GLC_MESSAGE_VIDEO_FORMAT
                     {| vfm_id := e_new_id e;
                        vfm_flags := if pack_alignment g =? 8
                                     then GLC_VIDEO_DWORD_ALIGNED else 0;
                        vfm_width := e_geom_w e; vfm_height := e_geom_h e;
                        vfm_format := if g_format g =? GL_BGRA
                                      then GLC_VIDEO_BGRA else GLC_VIDEO_BGR |}) 0] ++ ev2)
    /\ id v4 = e_new_id e
    /\ u32 (row v4 * ch v4)
       = Info.spec_payload_size
           (if g_format g =? GL_BGRA then GLC_VIDEO_BGRA else GLC_VIDEO_BGR)
           (if pack_alignment g =? 8 then GLC_VIDEO_DWORD_ALIGNED else 0)
           (e_geom_w e) (e_geom_h e)
    /\ format_messages ev2 = [] /\ frame_headers ev2 = [].
Proof.
  intros Hu Ht Hc Hok Hw Hh Hnz Hsz.
  unfold gl_capture_update_video_stream. rewrite Hu, Ht. cbn [negb andb].
  change (format (acquire (new_stream e d dr)) =? 0) with true. cbv iota.
  set (v1 := gl_capture_init_video_format g e (acquire (new_stream e d dr))).
  assert (Hv1 : w v1 = 0 /\ h v1 = 0 /\ id v1 = e_new_id e
                /\ format v1 = (if g_format g =? GL_BGRA then GLC_VIDEO_BGRA else GLC_VIDEO_BGR)
                /\ flags v1 = (if pack_alignment g =? 8 then 7 else 6)).
  { unfold v1, gl_capture_init_video_format. destruct (pack_alignment g =? 8); repeat split. }
  destruct Hv1 as (W1 & H1 & I1 & F1 & G1).
  assert (Hgeom : negb (e_geom_w e =? w v1) || negb (e_geom_h e =? h v1) = true).
  { rewrite W1, H1. destruct Hnz as [Hn | Hn]; apply Z.eqb_neq in Hn; rewrite Hn;
      [reflexivity | apply orb_true_r]. }
  rewrite Hgeom.
  unfold gl_capture_write_video_format_message. rewrite Hu. cbv zeta.
  set (v2 := gl_capture_calc_geometry g v1 (e_geom_w e) (e_geom_h e)).
  assert (Hv2 : id v2 = e_new_id e /\ flags v2 = flags v1 /\ format v2 = format v1
                /\ cw v2 = e_geom_w e /\ ch v2 = e_geom_h e
                /\ row v2 = (let row0 := u32 (e_geom_w e * bpp g) in
                             if negb (row0 mod pack_alignment g =? 0)
                             then u32 (row0 + u32 (pack_alignment g - row0 mod pack_alignment g))
                             else row0)).
  { unfold v2, gl_capture_calc_geometry. rewrite Hc. cbn [id flags format cw ch row set_geometry].
    repeat split. exact I1. }
  destruct Hv2 as (I2 & G2 & F2 & CW2 & CH2 & R2). cbv zeta in R2.
  assert (Hneed : has_flag (flags v2) GLC_VIDEO_NEED_COLOR_UPDATE = true)
    by (rewrite G2, G1; destruct (pack_alignment g =? 8); reflexivity).
  rewrite Hneed.
  rewrite I2, G2, F2, CW2, CH2, G1, F1.
  pose proof (color_update_quiet e v2) as (Q1 & Q2 & Q3 & Q4 & Q5).
  destruct (gl_capture_update_color e v2) as [v3 ev2]. cbn [fst snd] in Q1, Q2, Q3, Q4, Q5.
  assert (Hflags : clear_flag (if pack_alignment g =? 8 then 7 else 6)
                     (Z.lor GLC_VIDEO_CAPTURING GLC_VIDEO_NEED_COLOR_UPDATE)
                   = (if pack_alignment g =? 8 then GLC_VIDEO_DWORD_ALIGNED else 0))
    by (destruct (pack_alignment g =? 8); reflexivity).
  rewrite Hflags.
  eexists _, ev2. split; [reflexivity|].
  assert (Hout : forall v4, id v4 = id v3 -> row v4 = row v3 -> ch v4 = ch v3 ->
            id v4 = e_new_id e
            /\ u32 (row v4 * ch v4)
               = Info.spec_payload_size
                   (if g_format g =? GL_BGRA then GLC_VIDEO_BGRA else GLC_VIDEO_BGR)
                   (if pack_alignment g =? 8 then GLC_VIDEO_DWORD_ALIGNED else 0)
                   (e_geom_w e) (e_geom_h e)).
  { intros v4 -> -> ->. rewrite Q3, Q4, Q5, I2, R2, CH2. split; [reflexivity|].
    destruct Hok as (Hfmt & Hpa & _).
    assert (Hbpp : 3 <= bpp g <= 4) by (destruct Hfmt as [[_ ->] | [_ ->]]; lia).
    rewrite (padded_row (e_geom_w e) (e_geom_h e) (bpp g) (pack_alignment g))
      by assumption.
    unfold Info.spec_payload_size.
    assert (Hb : (if (if g_format g =? GL_BGRA then GLC_VIDEO_BGRA else GLC_VIDEO_BGR)
                     =? GLC_VIDEO_BGRA then 4 else 3) = bpp g)
      by (destruct Hfmt as [[-> ->] | [-> ->]]; reflexivity).
    assert (Hy : ((if g_format g =? GL_BGRA then GLC_VIDEO_BGRA else GLC_VIDEO_BGR)
                  =? GLC_VIDEO_YCBCR_420JPEG) = false)
      by (destruct (g_format g =? GL_BGRA); reflexivity).
    assert (Ha : has_flag (if pack_alignment g =? 8 then GLC_VIDEO_DWORD_ALIGNED else 0)
                   GLC_VIDEO_DWORD_ALIGNED = (pack_alignment g =? 8))
      by (destruct (pack_alignment g =? 8); reflexivity).
    rewrite Hy, Hb, Ha. reflexivity. }
  split; [|split; [|split; assumption]].
  - destruct (has_flag (g_flags g) GL_CAPTURE_DRAW_INDICATOR && (indicator_list v3 =? 0));
      apply Hout; reflexivity.
  - destruct (has_flag (g_flags g) GL_CAPTURE_DRAW_INDICATOR && (indicator_list v3 =? 0));
      apply Hout; reflexivity.
Qed.

(** The first frame of a stream is announced.  With no crop rectangle
    and a window that is not empty, the call that makes the stream
    publishes a VIDEO_FORMAT message before the frame: it carries the id
    of the stream, the size of the window, the pixel format of the
    component and the DWORD_ALIGNED flag exactly when the pack alignment
    is 8, and the payload of the frame is the size these fields
    announce. *)
Theorem first_frame_announces_format (g : gl_capture_s) (e : world) (d dr : Z) :
  has_flag (g_flags g) GL_CAPTURE_CAPTURING = true ->
  has_flag (g_flags g) GL_CAPTURE_USE_PBO = false ->
  has_flag (g_flags g) GL_CAPTURE_TRY_PBO = false ->
  has_flag (g_flags g) GL_CAPTURE_CROP = false ->
  config_ok g ->
  ready e = true ->
  fps_rem_period g <> 0 ->
  find_stream (video g) d dr = None ->
  has_flag (g_flags g) GL_CAPTURE_LOCK_FPS = true
  \/ has_flag (g_flags g) GL_CAPTURE_IGNORE_TIME = true
  \/ fps_period g <= u64 (e_now e) ->
  0 <= e_geom_w e -> 0 <= e_geom_h e ->
  e_geom_w e <> 0 \/ e_geom_h e <> 0 ->
  e_geom_h e * (4 * e_geom_w e + 8) < 2 ^ 32 ->
  exists g' fm evs2 hd payload,
    gl_capture_frame g e d dr
    = Some (0, g', Opened :: Published (GLC_MESSAGE_VIDEO_FORMAT fm) 0 :: evs2)
    /\ format_messages evs2 = []
    /\ frame_headers evs2 = [(hd, payload)]
    /\ vfm_id fm = e_new_id e /\ vfh_id hd = e_new_id e
    /\ vfm_width fm = e_geom_w e /\ vfm_height fm = e_geom_h e
    /\ vfm_format fm = (if g_format g =? GL_BGRA then GLC_VIDEO_BGRA else GLC_VIDEO_BGR)
    /\ vfm_flags fm = (if pack_alignment g =? 8 then GLC_VIDEO_DWORD_ALIGNED else 0)
    /\ payload = Info.spec_payload_size (vfm_format fm) (vfm_flags fm)
                   (vfm_width fm) (vfm_height fm).
Proof.
  intros Hcap Hu Ht Hc Hok Hready Hrem Hnone Hdue Hw Hh Hnz Hsz.
  unfold gl_capture_frame. rewrite Hcap. cbn [negb].
  unfold gl_capture_get_video_stream. rewrite Hnone.
  change (alter acquire 0%nat (new_stream e d dr :: video g))
    with (acquire (new_stream e d dr) :: video g).
  set (g1 := set_video (acquire (new_stream e d dr) :: video g) g).
  change (video g1 !! 0%nat) with (Some (acquire (new_stream e d dr))).
  cbn [mbind option_bind].
  change (g_flags g1) with (g_flags g). change (fps_period g1) with (fps_period g).
  change (last (acquire (new_stream e d dr))) with 0.
  set (now := if has_flag (g_flags g) GL_CAPTURE_IGNORE_TIME
              then u64 (0 + fps_period g) else e_now e).
  assert (Hearly : too_early g1 (acquire (new_stream e d dr)) now = false).
  { unfold too_early, now. change (g_flags g1) with (g_flags g).
    change (fps_period g1) with (fps_period g).
    change (last (acquire (new_stream e d dr))) with 0.
    destruct (has_flag (g_flags g) GL_CAPTURE_IGNORE_TIME); [apply andb_false_r|].
    destruct (has_flag (g_flags g) GL_CAPTURE_LOCK_FPS);
      [cbn [negb]; rewrite andb_false_r; reflexivity|].
    destruct Hdue as [Hd | [Hd | Hd]]; try discriminate.
    rewrite Z.sub_0_r.
    destruct (u64 (e_now e) <? fps_period g) eqn:E; [lia | reflexivity]. }
  rewrite Hearly.
  destruct (update_new_stream g1 e d dr Hu Ht Hc Hok Hw Hh Hnz Hsz)
    as (v4 & ev2 & E & I4 & P4 & M4 & F4).
  rewrite E. cbv zeta. change (g_flags g1) with (g_flags g). rewrite Hu. cbn [andb].
  set (v5 := set_stats (u32 (num_frames v4 + 1)) (num_captured_frames v4)
               (capture_time_ns v4) v4).
  destruct (CaptureFrameFacts.publish_ready g1 e 0%nat v5 now
              ([Opened;
                Published (GLC_MESSAGE_VIDEO_FORMAT
                             {| vfm_id := e_new_id e;
                                vfm_flags := if pack_alignment g1 =? 8
                                             then GLC_VIDEO_DWORD_ALIGNED else 0;
                                vfm_width := e_geom_w e; vfm_height := e_geom_h e;
                                vfm_format := if g_format g1 =? GL_BGRA
                                              then GLC_VIDEO_BGRA else GLC_VIDEO_BGR |}) 0]
               ++ ev2) Hu Hready Hrem)
    as (v6 & E6 & _).
  rewrite E6. cbn [app].
  eexists _, _, _, _, _. split; [reflexivity|].
  cbn [vfm_id vfm_width vfm_height vfm_format vfm_flags].
  change (pack_alignment g1) with (pack_alignment g).
  change (g_format g1) with (g_format g).
  unfold format_messages, frame_headers in *. rewrite !omap_app, M4, F4.
  cbn [omap app vfh_id]. change (id v5) with (id v4). change (row v5) with (row v4).
  change (ch v5) with (ch v4). rewrite I4, P4.
  repeat split; reflexivity.
Qed.

Lemma first_frame_announces_format_witness :
  exists g' fm evs2 hd payload,
    gl_capture_frame started (calm 40000000) 7 9
    = Some (0, g', Opened :: Published (GLC_MESSAGE_VIDEO_FORMAT fm) 0 :: evs2)
    /\ frame_headers evs2 = [(hd, payload)]
    /\ (vfm_width fm, vfm_height fm, vfm_format fm, vfm_flags fm)
       = (640, 480, GLC_VIDEO_BGRA, GLC_VIDEO_DWORD_ALIGNED)
    /\ payload = 640 * 480 * 4.
Proof.
  destruct (first_frame_announces_format started (calm 40000000) 7 9)
    as (g' & fm & evs2 & hd & payload & E & _ & H2 & _ & _ & H5 & H6 & H7 & H8 & H9);
    try reflexivity; try (cbn; lia).
  - unfold config_ok. cbn. split; [left; split; reflexivity|].
    split; [right | left]; reflexivity.
  - right. right. vm_compute. discriminate.
  - exists g', fm, evs2, hd, payload. split; [exact E|]. split; [exact H2|].
    rewrite H9, H5, H6, H7, H8. split; reflexivity.
Defined.

End CaptureFirstFrameFacts.

Module CaptureColorFacts.
Import GlCapture.

Lemma clear_flag_twice (f m : Z) : clear_flag (clear_flag f m) m = clear_flag f m.
Proof. unfold clear_flag. rewrite <- Z.land_assoc, Z.land_diag. reflexivity. Qed.

(** A colour message is written when the gamma of the screen is not the
    one the stream holds, and the stream then holds the new one: as long
    as the three values the screen reports are numbers, a second
    [gl_capture_update_color] under the same gamma changes nothing and
    writes nothing, however often a refresh asks for it.  (A value that
    is not a number differs from itself, and would be written again each
    time.) *)
Theorem color_update_settles (e : world) (v : gl_capture_video_stream_s) :
  SFeqb (e_gamma_red e) (e_gamma_red e) = true ->
  SFeqb (e_gamma_green e) (e_gamma_green e) = true ->
  SFeqb (e_gamma_blue e) (e_gamma_blue e) = true ->
  gl_capture_update_color e (fst (gl_capture_update_color e v))
  = (fst (gl_capture_update_color e v), [])
  /\ has_flag (flags (fst (gl_capture_update_color e v))) GLC_VIDEO_NEED_COLOR_UPDATE = false
  /\ (color_messages (snd (gl_capture_update_color e v)) <> [] ->
      SFeqb (e_gamma_red e) (gamma_red v) && SFeqb (e_gamma_green e) (gamma_green v)
      && SFeqb (e_gamma_blue e) (gamma_blue v) = false).
Proof.
  intros Hr Hg Hb.
  assert (Hsame : forall v1 : gl_capture_video_stream_s,
            has_flag (flags v1) GLC_VIDEO_NEED_COLOR_UPDATE = false ->
            clear_flag (flags v1) GLC_VIDEO_NEED_COLOR_UPDATE = flags v1 ->
            SFeqb (e_gamma_red e) (gamma_red v1) && SFeqb (e_gamma_green e) (gamma_green v1)
            && SFeqb (e_gamma_blue e) (gamma_blue v1) = true ->
            gl_capture_update_color e v1 = (v1, [])).
  { intros v1 _ Hf Heq. unfold gl_capture_update_color. cbv zeta.
    cbn [gamma_red gamma_green gamma_blue set_flags]. rewrite Heq, Hf.
    destruct v1; reflexivity. }
  assert (Hclr : has_flag (clear_flag (flags v) GLC_VIDEO_NEED_COLOR_UPDATE)
                   GLC_VIDEO_NEED_COLOR_UPDATE = false)
    by (apply has_flag_clear_same; reflexivity).
  unfold gl_capture_update_color at 2 3 4 5. cbv zeta.
  cbn [gamma_red gamma_green gamma_blue set_flags].
  destruct (SFeqb (e_gamma_red e) (gamma_red v) && SFeqb (e_gamma_green e) (gamma_green v)
            && SFeqb (e_gamma_blue e) (gamma_blue v)) eqn:E.
  - cbn [fst snd]. split; [|split; [exact Hclr | intros H; contradiction]].
    apply Hsame; [exact Hclr | apply clear_flag_twice | exact E].
  - assert (Hnew : forall evs,
              gl_capture_update_color e
                (fst (set_gamma (e_gamma_red e) (e_gamma_green e) (e_gamma_blue e)
                        (set_flags (clear_flag (flags v) GLC_VIDEO_NEED_COLOR_UPDATE) v),
                      evs : list event))
              = (fst (set_gamma (e_gamma_red e) (e_gamma_green e) (e_gamma_blue e)
                        (set_flags (clear_flag (flags v) GLC_VIDEO_NEED_COLOR_UPDATE) v),
                      evs), [])).
    { intros evs. cbn [fst]. apply Hsame.
      - exact Hclr.
      - apply clear_flag_twice.
      - cbn [gamma_red gamma_green gamma_blue set_gamma]. rewrite Hr, Hg, Hb. reflexivity. }
    destruct (negb (e_color_open e =? 0));
      [split; [apply Hnew | split; [exact Hclr | reflexivity]]|].
    destruct (negb _ || negb _ || negb _);
      (split; [apply Hnew | split; [exact Hclr | reflexivity]]).
Qed.

Lemma color_update_settles_witness :
  gl_capture_update_color (calm 0)
    (fst (gl_capture_update_color (calm 0) (new_stream (calm 0) 7 9)))
  = (fst (gl_capture_update_color (calm 0) (new_stream (calm 0) 7 9)), []).
Proof.
  apply (color_update_settles (calm 0) (new_stream (calm 0) 7 9)); reflexivity.
Defined.

End CaptureColorFacts.

Module CapturePboFacts.
Import GlCapture.

Lemma update_keeps_pbo (g : gl_capture_s) (e : world) (v : gl_capture_video_stream_s) :
  pbo_time (snd (fst (gl_capture_update_video_stream g e v))) = pbo_time v
  /\ pbo_active (snd (fst (gl_capture_update_video_stream g e v))) = pbo_active v.
Proof.
  unfold gl_capture_update_video_stream.
  set (g1 := if negb (has_flag (g_flags g) GL_CAPTURE_USE_PBO)
                && has_flag (g_flags g) GL_CAPTURE_TRY_PBO
             then _ else g). clearbody g1.
  set (v1 := if format v =? 0 then gl_capture_init_video_format g1 e v else v).
  assert (H1 : pbo_time v1 = pbo_time v /\ pbo_active v1 = pbo_active v).
  { unfold v1, gl_capture_init_video_format.
    destruct (format v =? 0); [destruct (pack_alignment g1 =? 8)|]; split; reflexivity. }
  clearbody v1.
  set (r2 := if negb (e_geom_w e =? w v1) || negb (e_geom_h e =? h v1)
             then gl_capture_write_video_format_message g1 e v1 (e_geom_w e) (e_geom_h e)
             else (v1, [])).
  assert (H2 : pbo_time (fst r2) = pbo_time v /\ pbo_active (fst r2) = pbo_active v).
  { unfold r2. destruct (negb _ || negb _); cbn [fst]; [|exact H1].
    unfold gl_capture_write_video_format_message, gl_capture_calc_geometry.
    destruct (if has_flag (g_flags g1) GL_CAPTURE_CROP then _ else _) as [[[cw' ch'] cx'] cy'].
    cbv zeta. destruct (has_flag (g_flags g1) GL_CAPTURE_USE_PBO); exact H1. }
  clearbody r2. destruct r2 as [v2 ev1]. cbn [fst] in H2.
  set (r3 := if has_flag (flags v2) GLC_VIDEO_NEED_COLOR_UPDATE
             then gl_capture_update_color e v2 else (v2, [])).
  assert (H3 : pbo_time (fst r3) = pbo_time v /\ pbo_active (fst r3) = pbo_active v).
  { unfold r3. destruct (has_flag (flags v2) GLC_VIDEO_NEED_COLOR_UPDATE); cbn [fst];
      [|exact H2].
    unfold gl_capture_update_color. cbv zeta.
    destruct (SFeqb _ _ && SFeqb _ _ && SFeqb _ _); [exact H2|].
    destruct (negb (e_color_open e =? 0)); [exact H2|].
    destruct (negb _ || negb _ || negb _); exact H2. }
  clearbody r3. destruct r3 as [v3 ev2]. cbn [fst] in H3. cbn [fst snd].
  destruct (has_flag (g_flags g1) GL_CAPTURE_DRAW_INDICATOR && (indicator_list v3 =? 0));
    exact H3.
Qed.

Lemma update_with_pbo (g : gl_capture_s) (e : world) (v : gl_capture_video_stream_s) :
  has_flag (g_flags g) GL_CAPTURE_USE_PBO = true ->
  fst (fst (gl_capture_update_video_stream g e v)) = g.
Proof.
  intros Hu. unfold gl_capture_update_video_stream. rewrite Hu. cbn [negb andb].
  destruct (if negb (e_geom_w e
                     =? w (if format v =? 0 then gl_capture_init_video_format g e v else v))
               || negb (e_geom_h e
                        =? h (if format v =? 0 then gl_capture_init_video_format g e v else v))
            then _ else _) as [v2 ev1].
  destruct (if has_flag (flags v2) GLC_VIDEO_NEED_COLOR_UPDATE then _ else _) as [v3 ev2].
  reflexivity.
Qed.

Lemma publish_pbo (g : gl_capture_s) (e : world) (k : nat) (v : gl_capture_video_stream_s)
  (now : Z) (evs : list event) :
  has_flag (g_flags g) GL_CAPTURE_USE_PBO = true ->
  ready e = true -> e_map_buffer e = true ->
  fps_rem_period g <> 0 ->
  exists v3,
    publish g e k v now evs
    = Some (0, set_video (<[k := release v3]> (video g)) g,
            (evs ++ [Opened])
            ++ [Published (GLC_MESSAGE_VIDEO_FRAME
                             {| vfh_id := id v;
                                vfh_time := if pbo_time v <? now then pbo_time v else now |})
                  (u32 (row v * ch v))])
    /\ pbo_time v3 = now /\ pbo_active v3 = pbo_active v.
Proof.
  intros Hu Hready Hmap Hrem.
  unfold ready in Hready. rewrite !andb_true_iff in Hready.
  destruct Hready as [[[[Ho Hs] Hm] Hpc] Hd].
  unfold publish. rewrite Ho, Hs, Hm, Hpc, Hu, Hmap. cbn [negb andb].
  unfold advance. destruct (fps_rem_period g =? 0) eqn:E; [apply Z.eqb_eq in E; contradiction|].
  cbn [mbind option_bind]. unfold finish. cbn [Z.eqb].
  eexists. split; [reflexivity|].
  destruct (gather_stats (set_pbo_time now v) =? 0);
    (destruct (_ mod fps_rem_period g =? 0); split; reflexivity).
Qed.

(** With a PBO the frames run one call late.  The first call for a
    stream only starts the transfer: it publishes nothing, marks the PBO
    active, notes the time and does not move the schedule.  Every later
    call publishes the picture that the call before it started, under the
    time noted then (or the current time, should that be earlier), and
    notes its own time for the next one. *)
Theorem pbo_frames_run_one_call_late (g : gl_capture_s) (e : world) (d dr : Z) (k : nat)
  (v0 : gl_capture_video_stream_s) :
  has_flag (g_flags g) GL_CAPTURE_CAPTURING = true ->
  has_flag (g_flags g) GL_CAPTURE_USE_PBO = true ->
  ready e = true -> e_map_buffer e = true ->
  fps_rem_period g <> 0 ->
  find_stream (video g) d dr = Some k ->
  video g !! k = Some v0 ->
  has_flag (g_flags g) GL_CAPTURE_LOCK_FPS = true
  \/ has_flag (g_flags g) GL_CAPTURE_IGNORE_TIME = true
  \/ fps_period g <= u64 (e_now e - last v0) ->
  let now := if has_flag (g_flags g) GL_CAPTURE_IGNORE_TIME
             then u64 (last v0 + fps_period g) else e_now e in
  exists g' evs v',
    gl_capture_frame g e d dr = Some (0, g', evs)
    /\ video g' !! k = Some v'
    /\ pbo_time v' = now
    /\ (pbo_active v0 = 0 ->
        frame_headers evs = [] /\ pbo_active v' = 1 /\ last v' = last v0)
    /\ (pbo_active v0 <> 0 ->
        exists hd payload,
          frame_headers evs = [(hd, payload)]
          /\ vfh_time hd = (if pbo_time v0 <? now then pbo_time v0 else now)).
Proof.
  intros Hcap Hu Hready Hmap Hrem Hfind Hv0 Hdue now.
  unfold gl_capture_frame. rewrite Hcap. cbn [negb].
  unfold gl_capture_get_video_stream. rewrite Hfind.
  set (g1 := set_video (alter acquire k (video g)) g).
  assert (Hk : video g1 !! k = Some (acquire v0)).
  { cbn [video g1 set_video]. rewrite list_lookup_alter_eq, Hv0. reflexivity. }
  rewrite Hk. cbn [mbind option_bind].
  change (g_flags g1) with (g_flags g). change (fps_period g1) with (fps_period g).
  change (last (acquire v0)) with (last v0). fold now.
  assert (Hearly : too_early g1 (acquire v0) now = false).
  { unfold too_early, now. change (g_flags g1) with (g_flags g).
    change (fps_period g1) with (fps_period g). change (last (acquire v0)) with (last v0).
    destruct (has_flag (g_flags g) GL_CAPTURE_IGNORE_TIME); [apply andb_false_r|].
    destruct (has_flag (g_flags g) GL_CAPTURE_LOCK_FPS);
      [cbn [negb]; rewrite andb_false_r; reflexivity|].
    destruct Hdue as [Hd | [Hd | Hd]]; try discriminate.
    destruct (u64 (e_now e - last v0) <? fps_period g) eqn:E; [lia | reflexivity]. }
  rewrite Hearly.
  pose proof (update_with_pbo g1 e (acquire v0) Hu) as Hg2.
  pose proof (CaptureFrameFacts.update_keeps g1 e (acquire v0)) as (UL & _ & _ & _ & _ & UF).
  pose proof (update_keeps_pbo g1 e (acquire v0)) as (UT & UA).
  destruct (gl_capture_update_video_stream g1 e (acquire v0)) as [[g2 v1] evu].
  cbn [fst snd] in Hg2, UL, UF, UT, UA. subst g2. cbv zeta.
  change (g_flags g1) with (g_flags g). rewrite Hu. cbn [andb].
  set (v2 := set_stats (u32 (num_frames v1 + 1)) (num_captured_frames v1)
               (capture_time_ns v1) v1).
  change (pbo_active v2) with (pbo_active v1). rewrite UA.
  change (pbo_active (acquire v0)) with (pbo_active v0).
  assert (Hlen : (k < length (video g1))%nat) by (apply lookup_lt_Some in Hk; exact Hk).
  destruct (pbo_active v0 =? 0) eqn:Ea.
  - unfold finish. cbn [Z.eqb].
    eexists _, _, _. split; [reflexivity|]. cbn [video set_video].
    rewrite list_lookup_insert_eq by exact Hlen.
    split; [reflexivity|]. split; [reflexivity|].
    split; [|intros Hne; apply Z.eqb_eq in Ea; contradiction].
    intros _. split; [exact UF|]. split; [reflexivity|].
    cbn [last release set_flags set_pbo_time set_gl_names v2 set_stats]. exact UL.
  - destruct (publish_pbo g1 e k v2 now evu Hu Hready Hmap Hrem) as (v3 & E & T3 & _).
    rewrite E. eexists _, _, _. split; [reflexivity|]. cbn [video set_video].
    rewrite list_lookup_insert_eq by exact Hlen.
    split; [reflexivity|]. split; [exact T3|].
    split; [intros H0; apply Z.eqb_neq in Ea; contradiction|].
    intros _. eexists _, _. split.
    + unfold frame_headers in *. rewrite !omap_app, UF. reflexivity.
    + cbn [vfh_time]. change (pbo_time v2) with (pbo_time v1). rewrite UT. reflexivity.
Qed.

Lemma pbo_frames_run_one_call_late_witness :
  exists g' evs v',
    gl_capture_frame pbo_primed (with_pbo 80000000) 7 9 = Some (0, g', evs)
    /\ video g' !! 0%nat = Some v'
    /\ pbo_time v' = 80000000
    /\ exists hd payload,
         frame_headers evs = [(hd, payload)] /\ vfh_time hd = 40000000.
Proof.
  destruct (pbo_frames_run_one_call_late pbo_primed (with_pbo 80000000) 7 9 0%nat
              pbo_primed_node)
    as (g' & evs & v' & E & Hv & Ht & _ & Hpub);
    try reflexivity; [discriminate | right; right; vm_compute; discriminate |].
  exists g', evs, v'. split; [exact E|]. split; [exact Hv|]. split; [exact Ht|].
  apply Hpub. discriminate.
Defined.

End CapturePboFacts.

Module CapturePacingFacts.
Import GlCapture.

(** *** What a call finds and what it leaves *)

Lemma no_frame_headers (evs : list event) :
  frame_headers evs = [] -> existsb is_frame evs = false.
Proof.
  induction evs as [|ev evs IH]; [reflexivity|].
  unfold frame_headers. cbn [omap list_omap existsb is_frame].
  destruct ev as [| |m payload| |]; try exact IH.
  destruct m as [|hd|fm|af|hd|cl|ty]; try exact IH.
  discriminate.
Qed.

Lemma init_pbo_code (g g' : gl_capture_s) (e : world) :
  fst (gl_capture_init_pbo g' e) = fst (gl_capture_init_pbo g e).
Proof.
  unfold gl_capture_init_pbo. destruct (e_gl_extensions e) as [[|]|]; try reflexivity.
  destruct (e_dlopen e =? 0); [reflexivity|]. destruct (e_procs e); reflexivity.
Qed.

Lemma init_pbo_flags (g : gl_capture_s) (e : world) :
  g_flags (snd (gl_capture_init_pbo g e)) = g_flags g.
Proof.
  unfold gl_capture_init_pbo. destruct (e_gl_extensions e) as [[|]|]; try reflexivity.
  destruct (e_dlopen e =? 0); [reflexivity|]. destruct (e_procs e); reflexivity.
Qed.

(** After the update of the stream, USE_PBO says whether the call
    works with a PBO. *)
Lemma update_pbo_flag (g : gl_capture_s) (e : world) (v : gl_capture_video_stream_s) :
  has_flag (g_flags (fst (fst (gl_capture_update_video_stream g e v)))) GL_CAPTURE_USE_PBO
  = pbo_in_use g e.
Proof.
  unfold gl_capture_update_video_stream, pbo_in_use.
  set (g1 := if negb (has_flag (g_flags g) GL_CAPTURE_USE_PBO)
                && has_flag (g_flags g) GL_CAPTURE_TRY_PBO
             then _ else g).
  assert (H1 : has_flag (g_flags g1) GL_CAPTURE_USE_PBO
               = has_flag (g_flags g) GL_CAPTURE_USE_PBO
                 || has_flag (g_flags g) GL_CAPTURE_TRY_PBO
                    && (fst (gl_capture_init_pbo g e) =? 0)).
  { unfold g1. destruct (has_flag (g_flags g) GL_CAPTURE_USE_PBO) eqn:Eu; cbn [negb andb orb];
      [exact Eu|].
    destruct (has_flag (g_flags g) GL_CAPTURE_TRY_PBO); cbn [andb]; [|exact Eu].
    pose proof (init_pbo_flags g e) as Hf.
    destruct (gl_capture_init_pbo g e) as [ret g']. cbn [fst snd] in *.
    destruct (ret =? 0); cbn [g_flags set_g_flags]; rewrite Hf.
    - apply ScaleStreamFacts.has_flag_set_same. discriminate.
    - rewrite has_flag_clear_other by reflexivity. exact Eu. }
  clearbody g1.
  destruct (if negb (e_geom_w e
                     =? w (if format v =? 0 then gl_capture_init_video_format g1 e v else v))
               || negb (e_geom_h e
                        =? h (if format v =? 0 then gl_capture_init_video_format g1 e v else v))
            then _ else _) as [v2 ev1].
  destruct (if has_flag (flags v2) GLC_VIDEO_NEED_COLOR_UPDATE then _ else _) as [v3 ev2].
  exact H1.
Qed.

(** The end of the publish path when every call succeeds. *)
Lemma publish_accepted (g : gl_capture_s) (e : world) (k : nat)
  (v : gl_capture_video_stream_s) (now : Z) (evs : list event) :
  (e_open e =? 0) && (e_setsize e =? 0) && (e_write_msg e =? 0) && (e_write_pic e =? 0)
  && (if has_flag (g_flags g) GL_CAPTURE_USE_PBO then e_map_buffer e else e_dma e =? 0)
  = true ->
  fps_rem_period g <> 0 ->
  exists v3 hd,
    publish g e k v now evs
    = Some (0, set_video (<[k := release v3]> (video g)) g,
            (evs ++ [Opened])
            ++ [Published (GLC_MESSAGE_VIDEO_FRAME hd) (u32 (row v * ch v))])
    /\ last v3 = (let last1 := u64 (last v + fps_period g) in
                  if u32 (num_captured_frames v + 1) mod fps_rem_period g =? 0
                  then u64 (last1 + fps_rem g) else last1)
    /\ dpy v3 = dpy v /\ drawable v3 = drawable v.
Proof.
  intros Hacc Hrem.
  rewrite !andb_true_iff in Hacc. destruct Hacc as [[[[Ho Hs] Hm] Hpc] Hd].
  unfold publish. rewrite Ho, Hs, Hm, Hpc. cbn [negb]. cbv zeta.
  destruct (has_flag (g_flags g) GL_CAPTURE_USE_PBO); cbn [andb negb]; rewrite Hd;
    cbn [negb];
    (unfold advance;
     destruct (fps_rem_period g =? 0) eqn:E; [apply Z.eqb_eq in E; contradiction|];
     cbn [mbind option_bind]; unfold finish; cbn [Z.eqb];
     eexists _, _; split; [reflexivity|];
     match goal with
     | |- context [gather_stats ?x =? 0] => destruct (gather_stats x =? 0)
     end;
     (destruct (_ mod fps_rem_period g =? 0) eqn:Em;
      cbn [last dpy drawable set_last set_stats set_pbo_time num_captured_frames] in *;
      rewrite ?Em; repeat split; reflexivity)).
Qed.

(** The three observations of a stream, read in the node
    [gl_capture_get_video_stream] hands out. *)
Lemma observed_node (g : gl_capture_s) (e : world) (d dr : Z)
  (v0 : gl_capture_video_stream_s) :
  v0 = new_stream e d dr /\ find_stream (video g) d dr = None
  \/ (exists k, find_stream (video g) d dr = Some k /\ video g !! k = Some v0) ->
  last v0 = last_publish_time g d dr
  /\ pbo_active v0 = stream_pbo_active g d dr
  /\ num_captured_frames v0 = captured_frames g d dr.
Proof.
  unfold last_publish_time, stream_pbo_active, captured_frames.
  intros [[-> ->] | (k & -> & ->)]; repeat split.
Qed.

(** The observations after the call put a node back. *)
Lemma observed_after (g : gl_capture_s) (k : nat) (d dr : Z)
  (x : gl_capture_video_stream_s) :
  find_stream (video g) d dr = Some k -> dpy x = d -> drawable x = dr ->
  last_publish_time (set_video (<[k := x]> (video g)) g) d dr = last x.
Proof.
  intros F Hd Hdr. unfold last_publish_time. cbn [video set_video].
  rewrite (CaptureFrameFacts.find_stream_insert _ _ _ _ _ F Hd Hdr).
  destruct (CaptureFrameFacts.find_stream_valid _ _ _ _ F) as (v & Hv & _).
  rewrite list_lookup_insert_eq by (apply lookup_lt_Some in Hv; exact Hv).
  reflexivity.
Qed.

(** What a call to [frame()] does when the component captures and
    every call of the publish path succeeds. *)
Lemma frame_outcome (g : gl_capture_s) (e : world) (d dr : Z) :
  has_flag (g_flags g) GL_CAPTURE_CAPTURING = true ->
  accepts g e = true ->
  fps_rem_period g <> 0 ->
  let early := (u64 (e_now e - last_publish_time g d dr) <? fps_period g)
               && negb (has_flag (g_flags g) GL_CAPTURE_LOCK_FPS)
               && negb (has_flag (g_flags g) GL_CAPTURE_IGNORE_TIME) in
  exists g' evs,
    gl_capture_frame g e d dr = Some (0, g', evs)
    /\ existsb is_frame evs = negb early && negb (starts_pbo g e d dr)
    /\ (early = true -> evs = [])
    /\ last_publish_time g' d dr
       = (if existsb is_frame evs then next_publish_time g d dr
          else last_publish_time g d dr).
Proof.
  intros Hcap Hacc Hrem early.
  unfold gl_capture_frame. rewrite Hcap. cbn [negb].
  destruct (CaptureFrameFacts.get_node g e d dr) as (v0 & Hk & Hfind & _ & Hv0 & _ & Hf & Hcfg).
  destruct (observed_node g e d dr v0 Hv0) as (Hl & Hpa & Hn).
  destruct (gl_capture_get_video_stream g e d dr) as [k g1]. cbn [fst snd] in *.
  rewrite Hk. cbn [mbind option_bind].
  destruct (CaptureFrameFacts.find_stream_valid _ _ _ _ Hfind) as (vk & Hvk & Hd & Hdr).
  rewrite Hk in Hvk. injection Hvk as <-.
  destruct Hcfg as (_ & Hp & Hr & Hrp & _).
  assert (Hlast : last (acquire v0) = last_publish_time g d dr) by exact Hl.
  rewrite Hf, Hp, Hlast.
  assert (Early : too_early g1 (acquire v0)
                    (if has_flag (g_flags g) GL_CAPTURE_IGNORE_TIME
                     then u64 (last_publish_time g d dr + fps_period g) else e_now e)
                  = early).
  { unfold too_early, early. rewrite Hf, Hp, Hlast.
    destruct (has_flag (g_flags g) GL_CAPTURE_IGNORE_TIME); [|reflexivity].
    cbn [negb]. rewrite !andb_false_r. reflexivity. }
  rewrite Early. destruct early eqn:Ee.
  - unfold finish. cbn [Z.eqb]. eexists _, _. split; [reflexivity|].
    cbn [existsb negb andb]. repeat split.
    rewrite (observed_after g1 k d dr (release (acquire v0)) Hfind Hd Hdr). exact Hl.
  - set (now := if has_flag (g_flags g) GL_CAPTURE_IGNORE_TIME
                then u64 (last_publish_time g d dr + fps_period g) else e_now e).
    clearbody now.
    pose proof (CaptureFrameFacts.update_keeps g1 e (acquire v0)) as (Ul & _ & Ud & Udr & Un & Uh).
    pose proof (CapturePboFacts.update_keeps_pbo g1 e (acquire v0)) as (_ & Upa).
    pose proof (CaptureConfigFacts.update_config g1 e (acquire v0))
      as ((_ & Up & Ur & Urp & _) & Uvid).
    pose proof (update_pbo_flag g1 e (acquire v0)) as Upbo.
    destruct (gl_capture_update_video_stream g1 e (acquire v0)) as [[g2 v1] evs].
    cbn [fst snd] in *.
    assert (Hin : pbo_in_use g1 e = pbo_in_use g e).
    { unfold pbo_in_use. rewrite Hf, (init_pbo_code g g1 e). reflexivity. }
    rewrite Hin in Upbo.
    assert (Hfind2 : find_stream (video g2) d dr = Some k) by (rewrite Uvid; exact Hfind).
    assert (Hev : existsb is_frame evs = false) by (apply no_frame_headers; exact Uh).
    cbv zeta. cbn [pbo_active set_stats]. rewrite Upbo, Upa.
    change (pbo_active (acquire v0)) with (pbo_active v0). rewrite Hpa.
    unfold starts_pbo. cbn [negb andb].
    destruct (pbo_in_use g e && (stream_pbo_active g d dr =? 0)) eqn:Es.
    + unfold finish. cbn [Z.eqb]. eexists _, _. split; [reflexivity|].
      rewrite Hev. cbn [negb]. repeat split; [discriminate|].
      rewrite observed_after;
        [| exact Hfind2 | rewrite <- Hd, <- Ud; reflexivity
         | rewrite <- Hdr, <- Udr; reflexivity].
      cbn [last release set_flags set_pbo_time set_gl_names set_stats].
      rewrite Ul. exact Hl.
    + destruct (publish_accepted g2 e k
                  (set_stats (u32 (num_frames v1 + 1)) (num_captured_frames v1)
                     (capture_time_ns v1) v1) now evs)
        as (v3 & hd & E & L3 & D3 & R3).
      { rewrite Upbo. exact Hacc. }
      { rewrite Urp, Hrp. exact Hrem. }
      rewrite E. eexists _, _. split; [reflexivity|].
      rewrite !existsb_app. cbn [existsb is_frame]. rewrite orb_true_r.
      repeat split; [discriminate|].
      rewrite observed_after; [| exact Hfind2 | | ].
      * cbn [last release set_flags]. rewrite L3.
        cbn [last num_captured_frames set_stats]. rewrite Ul, Un.
        change (last (acquire v0)) with (last v0).
        change (num_captured_frames (acquire v0)) with (num_captured_frames v0).
        rewrite Hl, Hn, Up, Ur, Urp, Hp, Hr, Hrp. reflexivity.
      * cbn [dpy release set_flags]. rewrite D3, <- Hd, <- Ud. reflexivity.
      * cbn [drawable release set_flags]. rewrite R3, <- Hdr, <- Udr. reflexivity.
Qed.


Lemma started_accepts (t : Z) : accepts started (calm t) = true.
Proof. reflexivity. Qed.

Lemma pacing_head (g : gl_capture_s) (d dr t : Z) (ts : list Z) (bs : list bool) :
  pacing g d dr (t :: ts) = Some bs ->
  exists ret g1 evs bs',
    gl_capture_frame g (calm t) d dr = Some (ret, g1, evs)
    /\ pacing g1 d dr ts = Some bs' /\ bs = existsb is_frame evs :: bs'.
Proof.
  cbn [pacing].
  destruct (gl_capture_frame g (calm t) d dr) as [[[ret g1] evs]|]; [|discriminate].
  cbn [mbind option_bind].
  destruct (pacing g1 d dr ts) as [bs'|] eqn:Ep; [|discriminate].
  cbn [mbind option_bind]. intros [= <-]. exists ret, g1, evs, bs'. repeat split. exact Ep.
Qed.

(** The scenario of the four calls publishes at the first, third and
    fourth only for a first call in the window. *)
Lemma pacing_only_in_window (t0 : Z) :
  0 <= t0 < 2 ^ 64 - 70000000 ->
  pacing started 7 9 [t0; t0 + 10000000; t0 + 40000000; t0 + 70000000]
  = Some [true; false; true; true] ->
  33333333 <= t0 < 56666666.
Proof.
  intros Ht Hp.
  destruct (pacing_head _ _ _ _ _ _ Hp) as (r1 & g1 & evs1 & bs1 & E1 & Hp1 & Hb1).
  injection Hb1 as Hb1 Hbs1. subst bs1.
  destruct (Z_lt_le_dec t0 33333333) as [Hlo|Hlo].
  - destruct (frame_outcome started (calm t0) 7 9 eq_refl (started_accepts t0))
      as (g' & evs & E & Hev & _); [discriminate|].
    rewrite E in E1. injection E1 as _ _ <-.
    rewrite Hev in Hb1. change (last_publish_time started 7 9) with 0 in Hb1.
    change (fps_period started) with 33333333 in Hb1. cbn [e_now calm] in Hb1.
    rewrite Z.sub_0_r, u64_small in Hb1 by lia.
    destruct (t0 <? 33333333) eqn:El; [discriminate Hb1 | lia].
  - destruct (Z_lt_le_dec t0 56666666) as [Hhi|Hhi]; [lia|].
    destruct (CaptureFacts.calm_frame_first t0) as [e1 [E1' _]]; [lia|].
    rewrite E1' in E1. injection E1 as _ <- _.
    destruct (pacing_head _ _ _ _ _ _ Hp1) as (r2 & g2 & evs2 & bs2 & E2 & _ & Hb2).
    destruct (CaptureFacts.calm_frame_second (t0 + 10000000)) as [e2 [E2' B2]]; [lia|].
    rewrite E2' in E2. injection E2 as _ _ <-.
    rewrite B2 in Hb2. discriminate Hb2.
Qed.

Lemma pacing_schedule (t0 : Z) :
  33333333 <= t0 < 56666666 ->
  frames_at started 7 9 [t0; t0 + 10000000; t0 + 40000000; t0 + 70000000] = after_third.
Proof.
  intros Ht. unfold frames_at. cbn [fold_left].
  destruct (CaptureFacts.calm_frame_first t0) as [e1 [E1 _]]; [lia|]. rewrite E1.
  rewrite CaptureFacts.calm_frame_dropped by lia.
  destruct (CaptureFacts.calm_frame_second (t0 + 40000000)) as [e3 [E3 _]]; [lia|].
  rewrite E3.
  destruct (CaptureFacts.calm_frame_third (t0 + 70000000)) as [e4 [E4 _]]; [lia|].
  rewrite E4. reflexivity.
Qed.

(** C3, as amended.  While the component captures and every call of the
    publish path succeeds, a call to [frame()] returns 0, and it
    publishes no frame exactly when [now - last_publish_time] (in 64 bit
    unsigned arithmetic) is below [fps_period] with neither LOCK_FPS nor
    IGNORE_TIME set, in which case it opens no packet, or when it works
    with a PBO that is not yet active for the stream and only starts the
    first transfer.  [last_publish_time] is 0 for a stream that has no
    node yet; a call that publishes no frame leaves it alone, and a
    published frame moves it on by one period, and by the rational fix
    with every [fps_rem_period]-th captured frame, whatever the time of
    the call.  At 30 fps, from a
    freshly started capture and with [frame()] fired at [t0],
    [t0 + 10 ms], [t0 + 40 ms] and [t0 + 70 ms], the first, third and
    fourth calls publish a frame and the second does not exactly when [t0]
    is at least one period and less than two periods minus 10 ms;
    [last_publish_time] is then 100000000. *)
Theorem frame_publishes_when_due :
  (forall (g : gl_capture_s) (e : world) (d dr : Z),
     has_flag (g_flags g) GL_CAPTURE_CAPTURING = true ->
     accepts g e = true ->
     fps_rem_period g <> 0 ->
     exists g' evs,
       gl_capture_frame g e d dr = Some (0, g', evs)
       /\ (existsb is_frame evs = false <->
           (u64 (e_now e - last_publish_time g d dr) < fps_period g
            /\ has_flag (g_flags g) GL_CAPTURE_LOCK_FPS = false
            /\ has_flag (g_flags g) GL_CAPTURE_IGNORE_TIME = false)
           \/ starts_pbo g e d dr = true)
       /\ (u64 (e_now e - last_publish_time g d dr) < fps_period g
           /\ has_flag (g_flags g) GL_CAPTURE_LOCK_FPS = false
           /\ has_flag (g_flags g) GL_CAPTURE_IGNORE_TIME = false -> evs = [])
       /\ last_publish_time g' d dr
          = (if existsb is_frame evs then next_publish_time g d dr
             else last_publish_time g d dr))
  /\ (forall (g : gl_capture_s) (d dr : Z),
        find_stream (video g) d dr = None -> last_publish_time g d dr = 0)
  /\ (forall t0 : Z,
        0 <= t0 < 2 ^ 64 - 70000000 ->
        (pacing started 7 9 [t0; t0 + 10000000; t0 + 40000000; t0 + 70000000]
         = Some [true; false; true; true]
         <-> 33333333 <= t0 < 56666666))
  /\ (forall t0 : Z,
        33333333 <= t0 < 56666666 ->
        last_publish_time
          (frames_at started 7 9 [t0; t0 + 10000000; t0 + 40000000; t0 + 70000000]) 7 9
        = 100000000).
Proof.
  split; [|split; [|split]].
  - intros g e d dr Hcap Hacc Hrem.
    destruct (frame_outcome g e d dr Hcap Hacc Hrem) as (g' & evs & E & Hev & Hnone & Hlast).
    exists g', evs. split; [exact E|].
    assert (Hearly : (u64 (e_now e - last_publish_time g d dr) <? fps_period g)
                     && negb (has_flag (g_flags g) GL_CAPTURE_LOCK_FPS)
                     && negb (has_flag (g_flags g) GL_CAPTURE_IGNORE_TIME) = true
                     <-> u64 (e_now e - last_publish_time g d dr) < fps_period g
                         /\ has_flag (g_flags g) GL_CAPTURE_LOCK_FPS = false
                         /\ has_flag (g_flags g) GL_CAPTURE_IGNORE_TIME = false).
    { rewrite !andb_true_iff, !negb_true_iff, Z.ltb_lt. tauto. }
    split; [|split; [|exact Hlast]].
    + rewrite Hev, <- Hearly.
      destruct ((u64 (e_now e - last_publish_time g d dr) <? fps_period g)
                && negb (has_flag (g_flags g) GL_CAPTURE_LOCK_FPS)
                && negb (has_flag (g_flags g) GL_CAPTURE_IGNORE_TIME));
        destruct (starts_pbo g e d dr); cbn [negb andb];
        (split; [intros H; try discriminate H; auto | intros [H|H]; try discriminate H; auto]).
    + intros H. apply Hnone, Hearly. exact H.
  - intros g d dr Hnew. unfold last_publish_time. rewrite Hnew. reflexivity.
  - intros t0 Ht. split; [apply pacing_only_in_window; exact Ht | apply CaptureFacts.pacing_window].
  - intros t0 Ht. rewrite pacing_schedule by exact Ht. reflexivity.
Qed.

Lemma frame_publishes_when_due_witness :
  (exists g' evs,
     gl_capture_frame pbo_primed (with_pbo 80000000) 7 9 = Some (0, g', evs)
     /\ (existsb is_frame evs = false <->
         (u64 (e_now (with_pbo 80000000) - last_publish_time pbo_primed 7 9)
          < fps_period pbo_primed
          /\ has_flag (g_flags pbo_primed) GL_CAPTURE_LOCK_FPS = false
          /\ has_flag (g_flags pbo_primed) GL_CAPTURE_IGNORE_TIME = false)
         \/ starts_pbo pbo_primed (with_pbo 80000000) 7 9 = true)
     /\ (u64 (e_now (with_pbo 80000000) - last_publish_time pbo_primed 7 9)
         < fps_period pbo_primed
         /\ has_flag (g_flags pbo_primed) GL_CAPTURE_LOCK_FPS = false
         /\ has_flag (g_flags pbo_primed) GL_CAPTURE_IGNORE_TIME = false -> evs = [])
     /\ last_publish_time g' 7 9
        = (if existsb is_frame evs then next_publish_time pbo_primed 7 9
           else last_publish_time pbo_primed 7 9))
  /\ last_publish_time started 7 9 = 0
  /\ (pacing started 7 9 [40000000; 40000000 + 10000000; 40000000 + 40000000;
                          40000000 + 70000000]
      = Some [true; false; true; true]
      <-> 33333333 <= 40000000 < 56666666)
  /\ last_publish_time
       (frames_at started 7 9 [40000000; 40000000 + 10000000; 40000000 + 40000000;
                               40000000 + 70000000]) 7 9
     = 100000000.
Proof.
  split; [|split; [|split]].
  - apply (proj1 frame_publishes_when_due pbo_primed (with_pbo 80000000) 7 9);
      [reflexivity | reflexivity | discriminate].
  - apply (proj1 (proj2 frame_publishes_when_due) started 7 9). reflexivity.
  - apply (proj1 (proj2 (proj2 frame_publishes_when_due)) 40000000). lia.
  - apply (proj2 (proj2 (proj2 frame_publishes_when_due)) 40000000). lia.
Defined.

End CapturePacingFacts.

Module CaptureWindowFacts.
Import GlCapture.

(** *** The node [set_attribute_window] leaves behind *)

Lemma window_node (g : gl_capture_s) (e : world) (d dr win : Z) :
  exists k v,
    gl_capture_set_attribute_window g e d dr win
    = (0, set_video (alter (set_attribWin win) k
                       (video (snd (gl_capture_get_video_stream g e d dr))))
            (snd (gl_capture_get_video_stream g e d dr)))
    /\ find_stream (video (snd (gl_capture_set_attribute_window g e d dr win))) d dr = Some k
    /\ video (snd (gl_capture_set_attribute_window g e d dr win)) !! k = Some v
    /\ capturing v = true /\ attribWin v = win
    /\ g_flags (snd (gl_capture_set_attribute_window g e d dr win)) = g_flags g.
Proof.
  unfold gl_capture_set_attribute_window.
  destruct (CaptureFrameFacts.get_node g e d dr) as (v0 & Hk & Hfind & _ & _ & _ & Hf & _).
  destruct (gl_capture_get_video_stream g e d dr) as [k g1]. cbn [fst snd] in *.
  exists k, (set_attribWin win (acquire v0)). unfold on_video. cbn [video set_video g_flags].
  split; [reflexivity|]. split; [|split; [|split; [|split]]].
  - rewrite CaptureFrameFacts.find_stream_altered; [exact Hfind|].
    intros v. split; reflexivity.
  - rewrite list_lookup_alter_eq, Hk. reflexivity.
  - exact (CaptureStreamFacts.capturing_acquire v0).
  - reflexivity.
  - exact Hf.
Qed.

(** *** A thread that is alone and never calls [set_attribute_window] *)

Lemma finish_settled (g g' : gl_capture_s) (e : world) (k : nat)
  (v : gl_capture_video_stream_s) (ret ret' : Z) (evs evs' : list event) :
  has_flag (g_flags g) GL_CAPTURE_CAPTURING = true ->
  (forall i x, i <> k -> video g !! i = Some x -> capturing x = false) ->
  finish g e k v ret evs = Some (ret', g', evs') -> settled g'.
Proof.
  intros Hcap Hother. unfold finish.
  assert (Hidle : Forall (fun x => capturing x = false) (<[k := release v]> (video g))).
  { apply Forall_lookup. intros i x Hx.
    destruct (decide (i = k)) as [-> | Hne].
    - apply list_lookup_insert_Some in Hx. destruct Hx as [(_ & <- & _) | (Hne & _)];
        [apply CaptureFrameFacts.capturing_release | congruence].
    - rewrite list_lookup_insert_ne in Hx by congruence. exact (Hother i x Hne Hx). }
  destruct (ret =? 0).
  - intros [= _ <- _]. split; [exact Hidle|].
    cbn [g_flags set_video]. rewrite Hcap. discriminate.
  - unfold gl_capture_error. cbn [g_flags set_video]. rewrite Hcap.
    rewrite (CaptureStreamFacts.stop_idle _ (e_sleeps e)) by assumption.
    cbn [mbind option_bind]. intros [= _ <- _]. cbn [video set_video set_g_flags g_flags].
    split.
    + apply Forall_fmap. eapply Forall_impl; [exact Hidle|]. intros x Hx. exact Hx.
    + intros _. apply Forall_fmap, Forall_forall. intros x _. reflexivity.
Qed.

Lemma publish_settled (g g' : gl_capture_s) (e : world) (k : nat)
  (v : gl_capture_video_stream_s) (now ret' : Z) (evs evs' : list event) :
  has_flag (g_flags g) GL_CAPTURE_CAPTURING = true ->
  (forall i x, i <> k -> video g !! i = Some x -> capturing x = false) ->
  publish g e k v now evs = Some (ret', g', evs') -> settled g'.
Proof.
  intros Hcap Hother. unfold publish, cancel. cbv zeta.
  repeat match goal with
         | |- context [if ?b then _ else _] =>
             match b with
             | context [if _ then _ else _] => fail 1
             | _ => destruct b
             end
         end;
    try (apply finish_settled; assumption).
  all: destruct (advance g _) as [v3|]; [|discriminate]; cbn [mbind option_bind];
    apply finish_settled; assumption.
Qed.

Lemma update_capturing_flag (g : gl_capture_s) (e : world) (v : gl_capture_video_stream_s) :
  has_flag (g_flags (fst (fst (gl_capture_update_video_stream g e v)))) GL_CAPTURE_CAPTURING
  = has_flag (g_flags g) GL_CAPTURE_CAPTURING.
Proof.
  unfold gl_capture_update_video_stream.
  set (g1 := if negb (has_flag (g_flags g) GL_CAPTURE_USE_PBO)
                && has_flag (g_flags g) GL_CAPTURE_TRY_PBO
             then _ else g).
  assert (H1 : has_flag (g_flags g1) GL_CAPTURE_CAPTURING
               = has_flag (g_flags g) GL_CAPTURE_CAPTURING).
  { unfold g1. destruct (negb _ && _); [|reflexivity].
    pose proof (CapturePacingFacts.init_pbo_flags g e) as Hf.
    destruct (gl_capture_init_pbo g e) as [ret g']. cbn [snd] in Hf.
    destruct (ret =? 0); cbn [g_flags set_g_flags]; rewrite Hf.
    - apply has_flag_set_other. reflexivity.
    - apply has_flag_clear_other. reflexivity. }
  clearbody g1.
  destruct (if negb (e_geom_w e
                     =? w (if format v =? 0 then gl_capture_init_video_format g1 e v else v))
               || negb (e_geom_h e
                        =? h (if format v =? 0 then gl_capture_init_video_format g1 e v else v))
            then _ else _) as [v2 ev1].
  destruct (if has_flag (flags v2) GLC_VIDEO_NEED_COLOR_UPDATE then _ else _) as [v3 ev2].
  exact H1.
Qed.

Lemma frame_settled (g g' : gl_capture_s) (e : world) (d dr ret : Z) (evs : list event) :
  settled g -> gl_capture_frame g e d dr = Some (ret, g', evs) -> settled g'.
Proof.
  intros Hs. unfold gl_capture_frame.
  destruct (has_flag (g_flags g) GL_CAPTURE_CAPTURING) eqn:Hcap; cbn [negb];
    [|intros [= _ <- _]; exact Hs].
  destruct (CaptureFrameFacts.get_node g e d dr) as (v0 & Hk & _ & _ & _ & Hrest & Hf & _).
  destruct (gl_capture_get_video_stream g e d dr) as [k g1]. cbn [fst snd] in *.
  rewrite Hk. cbn [mbind option_bind].
  assert (Hother : forall i x, i <> k -> video g1 !! i = Some x -> capturing x = false).
  { intros i x Hi Hx. destruct (Hrest i x Hi Hx) as [j Hj].
    destruct Hs as [Hidle _]. rewrite Forall_lookup in Hidle. exact (Hidle j x Hj). }
  assert (Hcap1 : has_flag (g_flags g1) GL_CAPTURE_CAPTURING = true) by (rewrite Hf; exact Hcap).
  destruct (too_early g1 (acquire v0) _).
  - apply finish_settled; assumption.
  - pose proof (update_capturing_flag g1 e (acquire v0)) as Hcap2.
    pose proof (proj2 (CaptureConfigFacts.update_config g1 e (acquire v0))) as Hvid.
    destruct (gl_capture_update_video_stream g1 e (acquire v0)) as [[g2 v1] ev].
    cbn [fst snd] in *. rewrite Hcap1 in Hcap2. rewrite <- Hvid in Hother.
    cbv zeta. destruct (has_flag (g_flags g2) GL_CAPTURE_USE_PBO && _).
    + apply finish_settled; assumption.
    + apply publish_settled; assumption.
Qed.

Lemma stop_settled (g : gl_capture_s) (sleeps : list sleep) :
  settled g ->
  exists g', gl_capture_stop g sleeps = Some g'
             /\ Forall drained (video g')
             /\ has_flag (g_flags g') GL_CAPTURE_CAPTURING = false.
Proof.
  intros [Hidle Hrest].
  destruct (has_flag (g_flags g) GL_CAPTURE_CAPTURING) eqn:Hcap.
  - rewrite CaptureStreamFacts.stop_idle by assumption. eexists. split; [reflexivity|].
    cbn [video g_flags set_video set_g_flags]. split.
    + apply Forall_fmap. eapply Forall_impl; [exact Hidle|].
      intros x Hx. split; [exact Hx | reflexivity].
    + apply has_flag_clear_same. reflexivity.
  - rewrite CaptureFacts.stop_when_stopped by exact Hcap. exists g.
    split; [reflexivity|]. split; [|exact Hcap].
    specialize (Hrest eq_refl). rewrite Forall_lookup in *.
    intros i x Hx. split; [exact (Hidle i x Hx) | exact (Hrest i x Hx)].
Qed.

Lemma toggle_settled (g : gl_capture_s) (m on : Z) :
  Z.land m GL_CAPTURE_CAPTURING = 0 ->
  Z.land (Z.lnot m mod 2 ^ 32) GL_CAPTURE_CAPTURING = GL_CAPTURE_CAPTURING ->
  settled g -> settled (snd (toggle g m on)).
Proof.
  intros H1 H2 Hs. unfold toggle, settled in *.
  destruct (negb (on =? 0)); cbn [snd video g_flags set_g_flags].
  - rewrite has_flag_set_other by exact H1. exact Hs.
  - rewrite has_flag_clear_other by exact H2. exact Hs.
Qed.

Lemma run_settled (d2q : spec_float -> Z -> Z * Z) (divq : Z * Z -> Z * Z -> Z * Z)
  (c : call) (g g' : gl_capture_s) (ret : Z) (evs : list event) :
  is_set_window c = false -> settled g ->
  run d2q divq c g = Some (ret, g', evs) -> settled g'.
Proof.
  intros Hc Hs. destruct c; try discriminate Hc; cbn [run]; unfold quiet.
  - unfold gl_capture_set_buffer. destruct (negb (to g =? 0)); intros [= _ <- _]; exact Hs.
  - unfold gl_capture_set_read_buffer. destruct (_ || _); intros [= _ <- _]; exact Hs.
  - unfold gl_capture_set_fps. destruct (SFleb fps fzero); [|destruct (snd _ =? 0)];
      cbn [mbind option_bind fst snd]; [| discriminate |]; intros [= _ <- _]; exact Hs.
  - unfold gl_capture_set_pack_alignment. destruct (_ || _); intros [= _ <- _]; exact Hs.
  - unfold gl_capture_try_pbo. destruct (negb (on =? 0)); [|destruct (has_flag _ _)];
      cbn [fst snd]; intros [= _ <- _]; try exact Hs; unfold settled in *;
      cbn [video g_flags set_g_flags].
    + rewrite has_flag_set_other by reflexivity. exact Hs.
    + rewrite has_flag_clear_other by reflexivity. exact Hs.
  - unfold gl_capture_set_pixel_format. destruct (_ || _); intros [= _ <- _]; exact Hs.
  - intros [= _ <- _]. apply toggle_settled; [reflexivity | reflexivity | exact Hs].
  - intros [= _ <- _]. apply toggle_settled; [reflexivity | reflexivity | exact Hs].
  - intros [= _ <- _]. apply toggle_settled; [reflexivity | reflexivity | exact Hs].
  - unfold gl_capture_crop. destruct (_ && _); cbn [fst snd]; intros [= _ <- _];
      unfold settled in *; cbn [video g_flags set_g_flags].
    + rewrite has_flag_clear_other by reflexivity. exact Hs.
    + rewrite has_flag_set_other by reflexivity. exact Hs.
  - intros [= _ <- _]. unfold gl_capture_refresh_color_correction, settled in *.
    cbn [snd video g_flags set_video]. destruct Hs as [Hidle Hrest]. split.
    + apply Forall_fmap. eapply Forall_impl; [exact Hidle|]. intros x Hx.
      unfold compose, capturing in *. cbn [flags set_flags].
      rewrite has_flag_set_other by reflexivity. exact Hx.
    + intros Hf. apply Forall_fmap. eapply Forall_impl; [exact (Hrest Hf)|].
      intros x Hx. exact Hx.
  - unfold gl_capture_start. destruct (to g =? 0); cbn [fst snd]; intros [= _ <- _];
      [exact Hs|]. destruct Hs as [Hidle _]. split; [exact Hidle|].
    cbn [g_flags set_g_flags].
    rewrite ScaleStreamFacts.has_flag_set_same by discriminate. discriminate.
  - destruct (stop_settled g sleeps Hs) as (g1 & E & Hd & Hf). rewrite E.
    cbn [mbind option_bind]. intros [= _ <- _]. split.
    + eapply Forall_impl; [exact Hd|]. intros x [Hx _]. exact Hx.
    + intros _. eapply Forall_impl; [exact Hd|]. intros x [_ Hx]. exact Hx.
  - apply frame_settled. exact Hs.
Qed.

Lemma run_all_settled (d2q : spec_float -> Z -> Z * Z) (divq : Z * Z -> Z * Z -> Z * Z)
  (cs : list call) :
  forall g g' evs,
  forallb (fun c => negb (is_set_window c)) cs = true -> settled g ->
  run_all d2q divq cs g = Some (g', evs) -> settled g'.
Proof.
  induction cs as [|c cs IH]; intros g g' evs Hcs Hs; cbn [run_all].
  - intros [= <- _]. exact Hs.
  - cbn [forallb] in Hcs. apply andb_true_iff in Hcs. destruct Hcs as [Hc Hcs].
    apply negb_true_iff in Hc.
    destruct (run d2q divq c g) as [[[ret g1] ev1]|] eqn:E1; [|discriminate].
    cbn [mbind option_bind].
    destruct (run_all d2q divq cs g1) as [[g2 ev2]|] eqn:E2; [|discriminate].
    cbn [mbind option_bind]. intros [= <- _].
    apply (IH g1 g2 ev2 Hcs); [|exact E2].
    exact (run_settled d2q divq c g g1 ret ev1 Hc Hs E1).
Qed.

(** C4.  [gl_capture_set_attribute_window] takes the node of the
    stream through [gl_capture_get_video_stream], which sets its
    CAPTURING bit, and returns without the release that [frame()] does at
    its end: the bit stays set with no frame in flight.  A [stop()] on a
    component that does not capture then returns at once with the bit
    still set, and a [stop()] on a capturing component, with no other
    thread at work, waits for the bit for ever.  A thread that never
    calls [set_attribute_window] finds what the claim says: whatever it
    called before, [stop()] returns, and every stream then has its bit
    clear and its [last] at 0.  The two failing runs: a fresh component,
    [set_attribute_window], [stop()]; and the same on a started
    component. *)
Theorem set_attribute_window_keeps_capturing_bit :
  (forall (g : gl_capture_s) (e : world) (d dr win : Z),
     exists k v,
       find_stream (video (snd (gl_capture_set_attribute_window g e d dr win))) d dr = Some k
       /\ video (snd (gl_capture_set_attribute_window g e d dr win)) !! k = Some v
       /\ capturing v = true)
  /\ (forall (g : gl_capture_s) (e : world) (d dr win : Z) (sleeps : list sleep),
        has_flag (g_flags g) GL_CAPTURE_CAPTURING = false ->
        gl_capture_stop (snd (gl_capture_set_attribute_window g e d dr win)) sleeps
        = Some (snd (gl_capture_set_attribute_window g e d dr win)))
  /\ (forall (g : gl_capture_s) (e : world) (d dr win : Z),
        has_flag (g_flags g) GL_CAPTURE_CAPTURING = true ->
        gl_capture_stop (snd (gl_capture_set_attribute_window g e d dr win)) [] = None)
  /\ (forall (d2q : spec_float -> Z -> Z * Z) (divq : Z * Z -> Z * Z -> Z * Z)
             (cs : list call) (g : gl_capture_s) (evs : list event) (sleeps : list sleep),
        forallb (fun c => negb (is_set_window c)) cs = true ->
        run_all d2q divq cs gl_capture_init = Some (g, evs) ->
        exists g', gl_capture_stop g sleeps = Some g'
                   /\ Forall drained (video g')
                   /\ has_flag (g_flags g') GL_CAPTURE_CAPTURING = false)
  /\ gl_capture_stop window_set [] = Some window_set
  /\ map capturing (video window_set) = [true]
  /\ gl_capture_stop started_window_set [] = None.
Proof.
  split; [|split; [|split; [|split; [|repeat split]]]].
  - intros g e d dr win.
    destruct (window_node g e d dr win) as (k & v & _ & Hfind & Hk & Hc & _).
    exists k, v. repeat split; assumption.
  - intros g e d dr win sleeps Hcap.
    destruct (window_node g e d dr win) as (k & v & _ & _ & _ & _ & _ & Hf).
    apply CaptureFacts.stop_when_stopped. rewrite Hf. exact Hcap.
  - intros g e d dr win Hcap.
    destruct (window_node g e d dr win) as (k & v & _ & _ & Hk & Hc & _ & Hf).
    apply CaptureFacts.stop_stuck; [rewrite Hf; exact Hcap|].
    apply Exists_exists. exists v. split; [|exact Hc].
    apply list_elem_of_lookup. exists k. exact Hk.
  - intros d2q divq cs g evs sleeps Hcs Hrun.
    apply stop_settled.
    apply (run_all_settled d2q divq cs gl_capture_init g evs Hcs); [|exact Hrun].
    split; [constructor | intros _; constructor].
Qed.

Lemma set_attribute_window_keeps_capturing_bit_witness :
  gl_capture_stop (snd (gl_capture_set_attribute_window gl_capture_init (calm 0) 7 9 5)) []
  = Some (snd (gl_capture_set_attribute_window gl_capture_init (calm 0) 7 9 5))
  /\ gl_capture_stop (snd (gl_capture_set_attribute_window after_first (calm 0) 7 9 5)) []
     = None
  /\ exists g', gl_capture_stop after_first [] = Some g'
                /\ Forall drained (video g')
                /\ has_flag (g_flags g') GL_CAPTURE_CAPTURING = false.
Proof.
  split; [|split].
  - apply (proj1 (proj2 set_attribute_window_keeps_capturing_bit)). reflexivity.
  - apply (proj1 (proj2 (proj2 set_attribute_window_keeps_capturing_bit))). reflexivity.
  - destruct (run_all (fun _ _ => (1, 1)) (fun a _ => a)
                [SetBuffer 1; Start; Frame (calm 33333333) 7 9] gl_capture_init)
      as [[g evs]|] eqn:E; [|vm_compute in E; discriminate E].
    assert (Hg : g = after_first) by (vm_compute in E; injection E as <- _; reflexivity).
    rewrite <- Hg.
    exact (proj1 (proj2 (proj2 (proj2 set_attribute_window_keeps_capturing_bit)))
             (fun _ _ => (1, 1)) (fun a _ => a)
             [SetBuffer 1; Start; Frame (calm 33333333) 7 9] g evs [] eq_refl E).
Defined.

End CaptureWindowFacts.

Module CaptureDrainFacts.
Import GlCapture.





End CaptureDrainFacts.
